(** * The MAAS release checklist script, embedded in Rocq

    The script reports how far a MAAS release has progressed: it derives
    a few strings from the version given on the command line and
    evaluates a fixed list of release steps, each of which queries git,
    Launchpad, the snap store or the local build directory and answers
    with a pair (succeeded, message).

    This file embeds the script function by function.  Python strings are
    Rocq strings holding the UTF-8 encoding of the text; every pattern the
    script searches for is ASCII, so searching bytes and searching code
    points agree.  Python exceptions are the [Raise] outcome of a small
    error monad.  Everything outside the process (git, glob, the HTTP
    response, Launchpad, pymacaroons, the traceback the interpreter
    prints) is an explicit input of the function that reads it; network
    calls themselves are taken to answer, and git to be installed.

    release-prepare, the bash script that prepares the release, is
    embedded through the builtins and the line-oriented tools it hands
    the version to (echo, sed, cut, grep and command substitution), in
    a locale where [0-9] and [2-9] are the ASCII digits. *)

From Stdlib Require Import String Ascii List ZArith Lia Bool.
Import ListNotations.
Open Scope string_scope.

(** ** Exceptions and outcomes *)

(** The exceptions the script can meet; only those it raises itself
    carry their message.  [OtherError] stands for an exception of any
    other class, by the name of the class. *)
Inductive exn : Type :=
| RuntimeError (msg : string)
| ValueError
| IndexError
| KeyError (key : string)
| AttributeError
| TypeError
| JSONDecodeError
| CalledProcessError
| OtherError (class_name : string).

Inductive Outcome (A : Type) : Type :=
| Return (a : A)
| Raise (e : exn).
Arguments Return {A} a.
Arguments Raise {A} e.

Definition bind {A B : Type} (m : Outcome A) (k : A -> Outcome B) : Outcome B :=
  match m with
  | Return a => k a
  | Raise e => Raise e
  end.

Notation "x <- m ;; k" := (bind m (fun x => k))
  (at level 61, m at next level, right associativity).

Definition returns {A : Type} (m : Outcome A) : bool :=
  match m with Return _ => true | Raise _ => false end.

Definition raises {A : Type} (m : Outcome A) : bool := negb (returns m).

(** ** The Python string and list operations the script uses *)

Module PyStr.

(** [s.startswith(p)] *)
Definition startswith (s p : string) : bool := String.prefix p s.

(** [sub in s] *)
Fixpoint contains (sub s : string) : bool :=
  String.prefix sub s
  || match s with
     | EmptyString => false
     | String _ r => contains sub r
     end.

(** [s.split(sep)] for a separator of one character. *)
Fixpoint split (sep : ascii) (s : string) : list string :=
  match s with
  | EmptyString => [EmptyString]
  | String c r =>
      if Ascii.eqb c sep then EmptyString :: split sep r
      else match split sep r with
           | h :: t => String c h :: t
           | [] => [String c EmptyString]
           end
  end.

(** [s.split(sep, 1)]: cut at the first separator only. *)
Fixpoint split1 (sep : ascii) (s : string) : list string :=
  match s with
  | EmptyString => [EmptyString]
  | String c r =>
      if Ascii.eqb c sep then [EmptyString; r]
      else match split1 sep r with
           | h :: t => String c h :: t
           | [] => [String c EmptyString]
           end
  end.

(** [s.rsplit(sep, 1)]: cut at the last separator only. *)
Fixpoint rsplit1 (sep : ascii) (s : string) : list string :=
  match s with
  | EmptyString => [EmptyString]
  | String c r =>
      match rsplit1 sep r with
      | [p; q] => [String c p; q]
      | _ => if Ascii.eqb c sep then [EmptyString; r] else [s]
      end
  end.

(** [sep.join(parts)] *)
Definition join (sep : string) (parts : list string) : string :=
  String.concat sep parts.

(** [s.replace(old, new)] for a non-empty [old]: [skip] counts the
    characters of a match still to be dropped. *)
Fixpoint replace_from (skip : nat) (old new s : string) : string :=
  match s with
  | EmptyString => EmptyString
  | String c r =>
      match skip with
      | S k => replace_from k old new r
      | O =>
          if String.prefix old s
          then new ++ replace_from (String.length old - 1) old new r
          else String c (replace_from O old new r)
      end
  end.

Definition replace (old new s : string) : string := replace_from O old new s.

(** [l[i]], with Python's negative indices and its IndexError. *)
Definition index {A : Type} (l : list A) (i : Z) : Outcome A :=
  let n := Z.of_nat (List.length l) in
  let j := if (i <? 0)%Z then (i + n)%Z else i in
  if ((j <? 0) || (n <=? j))%Z then Raise IndexError
  else match nth_error l (Z.to_nat j) with
       | Some a => Return a
       | None => Raise IndexError
       end.

End PyStr.
Import PyStr.

(** ** Version helpers *)

(** [version.rsplit(".", 1)[0]]; [rsplit] never answers the empty list, so
    index 0 is its head. *)
Definition get_major_version (version : string) : string :=
  hd EmptyString (rsplit1 "." version).

Definition get_version_grade (version : string) : Outcome string :=
  if negb (contains "-" version) then Return "final"
  else
    version_suffix <- index (split "-" version) 1 ;;
    if startswith version_suffix "beta" then Return "beta"
    else if startswith version_suffix "rc" then Return "rc"
    else Raise (RuntimeError ("Unknown version suffix: " ++ version_suffix)).

(** The if/elif chain of [get_snap_release_channel], on the two values
    it has computed. *)
Definition snap_channel_for (major_version version_grade : string) : Outcome string :=
  if String.eqb version_grade "final" then Return (major_version ++ "/stable")
  else if String.eqb version_grade "rc" then Return (major_version ++ "/candidate")
  else if String.eqb version_grade "beta" then Return (major_version ++ "/beta")
  else Raise (RuntimeError ("Unknown version grade: " ++ version_grade)).

Definition get_snap_release_channel (version : string) : Outcome string :=
  let major_version := get_major_version version in
  version_grade <- get_version_grade version ;;
  snap_channel_for major_version version_grade.

(** ** Text constants *)

Definition nl : string := String "010"%char EmptyString.

(** U+2713 CHECK MARK and U+1F534 LARGE RED CIRCLE, in UTF-8. *)
Definition check_mark : string :=
  String "226"%char (String "156"%char (String "147"%char EmptyString)).
Definition large_red_circle : string :=
  String "240"%char (String "159"%char (String "148"%char (String "180"%char EmptyString))).

(** Length of the line boundary [s] starts with, 0 when it starts with
    none: the boundaries of [str.splitlines], with U+0085, U+2028 and
    U+2029 in their UTF-8 encodings. *)
Definition boundary_length (s : string) : nat :=
  match s with
  | String "013"%char (String "010"%char _) => 2
  | String "010"%char _ | String "013"%char _
  | String "011"%char _ | String "012"%char _
  | String "028"%char _ | String "029"%char _ | String "030"%char _ => 1
  | String "194"%char (String "133"%char _) => 2
  | String "226"%char (String "128"%char (String "168"%char _)) => 3
  | String "226"%char (String "128"%char (String "169"%char _)) => 3
  | _ => 0
  end.

(** [s.splitlines()]; [skip] counts the characters of a boundary still
    to be dropped. *)
Fixpoint splitlines_from (skip : nat) (s : string) : list string :=
  match s with
  | EmptyString => []
  | String c r =>
      match skip with
      | S k => splitlines_from k r
      | O =>
          match boundary_length s with
          | S k => EmptyString :: splitlines_from k r
          | O =>
              match splitlines_from O r with
              | l :: ls => String c l :: ls
              | [] => [String c EmptyString]
              end
          end
      end
  end.

Definition splitlines (s : string) : list string := splitlines_from O s.

(** Python's [None] or a string, as a formatted field prints it. *)
Definition fmt_opt (o : option string) : string :=
  match o with Some s => s | None => "None" end.

(** [repr] of a list of strings that need no escaping. *)
Definition repr_list (l : list string) : string :=
  "[" ++ join ", " (map (fun s => "'" ++ s ++ "'") l) ++ "]".

(** [[x] = l]: ValueError unless [l] has exactly one element. *)
Definition unpack1 {A : Type} (l : list A) : Outcome A :=
  match l with
  | [x] => Return x
  | _ => Raise ValueError
  end.

(** [a, b = l]: ValueError unless [l] has exactly two elements. *)
Definition unpack2 {A : Type} (l : list A) : Outcome (A * A) :=
  match l with
  | [a; b] => Return (a, b)
  | _ => Raise ValueError
  end.

Definition BUILD_ARCHS : list string := ["amd64"; "arm64"; "ppc64el"; "s390x"].

Definition mem (s : string) (l : list string) : bool := existsb (String.eqb s) l.

(** [sorted(set(BUILD_ARCHS).difference(present))]: [BUILD_ARCHS] is
    written in ascending order without repetition, so the sorted
    difference is what remains of it in place. *)
Definition missing_archs (present : list string) : list string :=
  filter (fun arch => negb (mem arch present)) BUILD_ARCHS.

(** ** The release parameters *)

(** What the script asks git.  The first three fields are the standard
    output of the command on the given argument: stripped for [git
    rev-parse --short] and [git rev-list -n 1 tags/...], cut into
    stripped lines for [git branch -r --contains].  The last is the
    answer of [get_official_maas_remote]: the first remote whose URL has
    the path /maas, [None] when no remote has, CalledProcessError when
    git fails. *)
Record Git : Type := {
  git_rev_parse_short : string -> string;
  git_rev_list_tag : string -> string;
  git_branch_r_contains : string -> list string;
  git_official_remote : Outcome (option string)
}.

Definition get_git_short_rev (g : Git) (commit : string) : string :=
  git_rev_parse_short g commit.

(** [git rev-list -n 1 tags/<tag_name>] *)
Definition get_tag_commit (g : Git) (tag_name : string) : string :=
  git_rev_list_tag g tag_name.

Definition get_remote_branches_containing (g : Git) (commit : string)
  : list (list string) :=
  map (split1 "/") (git_branch_r_contains g commit).

Definition get_official_maas_remote (g : Git) : Outcome (option string) :=
  git_official_remote g.

Record ReleasePreparer : Type := {
  version : string;
  python_version : string;
  major_version : string;
  snapstore_auth : string;
  git_short_rev : string
}.

(** [ReleasePreparer.__init__] (the Launchpad handle is kept apart). *)
Definition new_preparer (g : Git) (v auth : string) : ReleasePreparer :=
  {| version := v;
     python_version := replace "-rc" "rc" (replace "-beta" "b" (replace "-alpha" "a" v));
     major_version := get_major_version v;
     snapstore_auth := auth;
     git_short_rev := get_git_short_rev g "HEAD" |}.

(** (succeeded, message) *)
Definition CheckResult : Type := bool * option string.

Definition passed (r : CheckResult) : bool := fst r.

(** ** CommitInRemoteBranch *)

Definition release_branch_name (p : ReleasePreparer) : string :=
  if contains "beta" (version p) || contains "alpha" (version p)
  then "master"
  else major_version p.

(** [remote == official_maas_remote], where the right side may be None. *)
Definition eq_remote (remote : string) (official : option string) : bool :=
  match official with
  | Some r => String.eqb remote r
  | None => false
  end.

(** The for loop of the check; [Return false] is its else branch. *)
Fixpoint in_release_branch (official : option string) (name : string)
  (remote_branches : list (list string)) : Outcome bool :=
  match remote_branches with
  | [] => Return false
  | item :: rest =>
      rb <- unpack2 item ;;
      if eq_remote (fst rb) official && String.eqb (snd rb) name
      then Return true
      else in_release_branch official name rest
  end.

Definition CommitInRemoteBranch_check (g : Git) (p : ReleasePreparer)
  : Outcome CheckResult :=
  let release_branch_name := release_branch_name p in
  official_maas_remote <- get_official_maas_remote g ;;
  let remote_branches := get_remote_branches_containing g "HEAD" in
  found <- in_release_branch official_maas_remote release_branch_name remote_branches ;;
  if found then Return (true, None)
  else Return (false, Some ("Current HEAD is not in "
                            ++ fmt_opt official_maas_remote ++ "/" ++ release_branch_name)).

(** ** The snap store: HTTP responses and macaroon errors *)

(** A decoded JSON document; an object keeps its members in order, a
    number its literal. *)
#[warnings="-register-all"]
Inductive json : Type :=
| JNull
| JBool (b : bool)
| JNum (literal : string)
| JStr (s : string)
| JArr (items : list json)
| JObj (members : list (string * json)).

(** A [requests] response: [json_body] is what [res.json()] decodes,
    [None] when the body is not JSON and the call raises. *)
Record Response : Type := {
  status_code : Z;
  text : string;
  json_body : option json
}.

Definition res_json (res : Response) : Outcome json :=
  match json_body res with
  | Some j => Return j
  | None => Raise JSONDecodeError
  end.

Fixpoint lookup (key : string) (members : list (string * json)) : option json :=
  match members with
  | [] => None
  | (k, v) :: rest => if String.eqb k key then Some v else lookup key rest
  end.

(** [d.get(key, default)]: only a dict has the method. *)
Definition py_get (d : json) (key : string) (default : json) : Outcome json :=
  match d with
  | JObj members =>
      match lookup key members with
      | Some v => Return v
      | None => Return default
      end
  | _ => Raise AttributeError
  end.

(** [d[key]] with a string key: KeyError on a dict without the key,
    TypeError on anything that is not a dict. *)
Definition py_getitem (d : json) (key : string) : Outcome json :=
  match d with
  | JObj members =>
      match lookup key members with
      | Some v => Return v
      | None => Raise (KeyError key)
      end
  | _ => Raise TypeError
  end.

(** What a [for] loop over the value visits: the items of a list, the
    keys of a dict, the characters of a string (here its bytes: the
    script calls [get] on each, which a string does not have). *)
Definition py_iter (j : json) : Outcome (list json) :=
  match j with
  | JArr items => Return items
  | JObj members => Return (map (fun kv => JStr (fst kv)) members)
  | JStr s => Return (map (fun c => JStr (String c EmptyString)) (list_ascii_of_string s))
  | _ => Raise TypeError
  end.

(** [j == s] for a string literal [s]. *)
Definition json_is (j : json) (s : string) : bool :=
  match j with
  | JStr t => String.eqb t s
  | _ => false
  end.

Definition get_macaroon_refresh_help : string :=
  "  Please refresh it:" ++ nl ++
  "    rm -f release.macaroon" ++ nl ++
  "    snapcraft export-login --snaps maas,maas-test-db \" ++ nl ++
  "        --acls package_release,package_access release.macaroon".

Section SnapStore.

(** [str()] of a decoded JSON value that is not a string (a number,
    a list, ...), as an f-string field prints it. *)
Variable py_str_other : json -> string.

Definition fmt_json (j : json) : string :=
  match j with
  | JStr s => s
  | _ => py_str_other j
  end.

(** The loop over [error_list]; falling off the end keeps
    [error_message]. *)
Fixpoint scan_error_list (snap_name error_message : string) (errors : list json)
  : Outcome string :=
  match errors with
  | [] => Return error_message
  | error :: rest =>
      code <- py_get error "code" JNull ;;
      if json_is code "macaroon-needs-refresh" then
        Return ("Macaroon has expired." ++ nl ++ get_macaroon_refresh_help)
      else if json_is code "macaroon-permission-required" then
        extra <- py_getitem error "extra" ;;
        missing_permission <- py_getitem extra "permission" ;;
        Return ("Macaroon doesn't have " ++ fmt_json missing_permission
                ++ " for " ++ snap_name ++ "." ++ nl
                ++ get_macaroon_refresh_help)
      else scan_error_list snap_name error_message rest
  end.

Definition get_macaroon_auth_error (res : Response) (snap_name : string)
  : Outcome (option string) :=
  if ((status_code res =? 200) || (status_code res =? 404))%Z then Return None
  else
    let error_message := text res in
    if ((status_code res =? 401) || (status_code res =? 403))%Z then
      result <- res_json res ;;
      error_list <- py_get result "error_list" (JArr []) ;;
      errors <- py_iter error_list ;;
      error_message <- scan_error_list snap_name error_message errors ;;
      Return (Some error_message)
    else Return (Some error_message).

(** [SnapTrack.check] on the response of the track request. *)
Definition SnapTrack_check (res : Response) (snap_name : string)
  : Outcome CheckResult :=
  auth_error <- get_macaroon_auth_error res snap_name ;;
  Return ((status_code res =? 200)%Z, auth_error).

End SnapStore.

(** Shapes of an [error_list] entry.  [has_code e c]: an object whose
    code is the string [c]. *)
Definition has_code (e : json) (c : string) : bool :=
  match e with
  | JObj members =>
      match lookup "code" members with
      | Some code => json_is code c
      | None => false
      end
  | _ => false
  end.

(** An object with neither of the two macaroon codes. *)
Definition other_error (e : json) : bool :=
  match e with
  | JObj _ =>
      negb (has_code e "macaroon-needs-refresh")
      && negb (has_code e "macaroon-permission-required")
  | _ => false
  end.

(** The value under extra.permission, when both keys are there. *)
Definition permission_of (e : json) : option json :=
  match e with
  | JObj members =>
      match lookup "extra" members with
      | Some (JObj extra) => lookup "permission" extra
      | _ => None
      end
  | _ => None
  end.

(** An entry the loop gets past or answers: any object, except one with
    code macaroon-permission-required that lacks extra.permission. *)
Definition answerable (e : json) : bool :=
  other_error e
  || has_code e "macaroon-needs-refresh"
  || (has_code e "macaroon-permission-required"
      && match permission_of e with Some _ => true | None => false end).

(** ** PackageBuilt *)

Definition PackageBuilt_pattern (p : ReleasePreparer) : string :=
  "build_pkg/maas_" ++ replace "-" "~" (version p) ++ "-*-g."
  ++ git_short_rev p ++ ".orig.tar.gz".

(** [glob] is [glob.glob] on the working directory. *)
Definition PackageBuilt_check (glob : string -> list string) (p : ReleasePreparer)
  : Outcome CheckResult :=
  let tar_gzs := glob (PackageBuilt_pattern p) in
  if (List.length tar_gzs =? 0)%nat then
    Return (false, Some "No orig.tar.gz could be found for the current revision")
  else
    orig_tgz <- unpack1 tar_gzs ;;
    Return (true, None).

(** ** MAASPackagePublished *)

Record SourcePackage : Type := {
  source_package_name : string;
  source_package_version : string
}.

Record BinaryPackage : Type := {
  distro_arch_series_link : string;
  binary_package_version : string
}.

(** A PPA as the check sees it: the published sources named maas in the
    current series, the published binaries named maas. *)
Record PPA : Type := {
  getPublishedSources : list SourcePackage;
  getPublishedBinaries : list BinaryPackage
}.

(** The release-preparation PPA of the logged-in user: [getPPAByName]
    answers [None] where Launchpad raises NotFound. *)
Record Launchpad : Type := {
  me_name : string;
  getPPAByName : string -> option PPA
}.

Definition _check_version (p : ReleasePreparer) (package_version : string)
  : Outcome bool :=
  let expected_package_version := replace "-" "~" (version p) in
  package_version <-
    (if contains ":" package_version
     then index (split1 ":" package_version) (-1)
     else Return package_version) ;;
  let version_parts := split "-" package_version in
  part0 <- index version_parts 0 ;;
  if negb (String.eqb part0 expected_package_version) then Return false
  else
    part2 <- index version_parts 2 ;;
    Return (String.eqb part2 ("g." ++ git_short_rev p)).

(** The package version once [_check_version] has dropped its epoch:
    the text after the first ':' when there is one. *)
Definition epoch_stripped (package_version : string) : string :=
  if contains ":" package_version
  then last (split1 ":" package_version) EmptyString
  else package_version.

(** The loop that collects the architectures with a matching binary. *)
Fixpoint published_architectures (p : ReleasePreparer) (binaries : list BinaryPackage)
  (acc : list string) : Outcome (list string) :=
  match binaries with
  | [] => Return acc
  | binary :: rest =>
      arch <- index (split "/" (distro_arch_series_link binary)) (-1) ;;
      ok <- _check_version p (binary_package_version binary) ;;
      published_architectures p rest (if ok then arch :: acc else acc)
  end.

Definition release_preparation_ppa_name (p : ReleasePreparer) : string :=
  "maas-" ++ major_version p ++ "-next".

Definition MAASPackagePublished_check (lp : Launchpad) (p : ReleasePreparer)
  : Outcome CheckResult :=
  let ppa_name := release_preparation_ppa_name p in
  match getPPAByName lp ppa_name with
  | None =>
      Return (false, Some ("ppa:" ++ me_name lp ++ "/" ++ ppa_name ++ " couldn't be found."))
  | Some ppa =>
      let sources := getPublishedSources ppa in
      match sources with
      | [] => Return (false, Some "Source package hasn't been published or uploaded yet.")
      | _ :: _ =>
          package <- unpack1 sources ;;
          ok <- _check_version p (source_package_version package) ;;
          if negb ok then
            let expected := replace "-" "~" (version p) in
            Return (false, Some ("Currently published source version is "
                                 ++ source_package_version package
                                 ++ ". Expected " ++ expected))
          else
            let binaries := getPublishedBinaries ppa in
            match binaries with
            | [] => Return (false, Some "Binary packages haven't been published yet.")
            | _ :: _ =>
                published <- published_architectures p binaries [] ;;
                let non_published_architectures := missing_archs published in
                match non_published_architectures with
                | _ :: _ =>
                    Return (false, Some ("Binary package hasn't been published for: "
                                         ++ repr_list non_published_architectures))
                | [] => Return (true, None)
                end
            end
      end
  end.

(** ** ReleaseTagged *)

(** [[remote for remote, _ in remote_branches]] *)
Fixpoint remotes_of (remote_branches : list (list string)) : Outcome (list string) :=
  match remote_branches with
  | [] => Return []
  | item :: rest =>
      rb <- unpack2 item ;;
      remotes <- remotes_of rest ;;
      Return (fst rb :: remotes)
  end.

Definition ReleaseTagged_check (g : Git) (p : ReleasePreparer) : Outcome CheckResult :=
  let tag_name := version p in
  let tagged_revision := get_git_short_rev g (get_tag_commit g tag_name) in
  if String.eqb tagged_revision (get_git_short_rev g tag_name) then
    Return (false, Some ("The " ++ tag_name ++ " isn't an annotated tag"))
  else if String.eqb tagged_revision EmptyString then
    Return (false, Some "Release hasn't been tagged yet.")
  else if negb (String.eqb tagged_revision (git_short_rev p)) then
    Return (false, Some (tag_name ++ " points to " ++ tagged_revision
                         ++ " instead of " ++ git_short_rev p))
  else
    official_maas_remote <- get_official_maas_remote g ;;
    let remote_branches := get_remote_branches_containing g tag_name in
    remotes <- remotes_of remote_branches ;;
    if negb (existsb (fun r => eq_remote r official_maas_remote) remotes) then
      Return (false, Some (tag_name ++ " tag is not pushed to "
                           ++ fmt_opt official_maas_remote))
    else Return (true, None).

(** ** The runner *)

(** A release step as [run] uses it: its title and what calling its
    [check] gives. *)
Record ReleaseStep : Type := {
  title : string;
  check : Outcome CheckResult
}.

(** The lines [run] prints under a step: nothing for [None] or the
    empty message. *)
Definition message_lines (message : option string) : list string :=
  match message with
  | None => []
  | Some m =>
      if String.eqb m EmptyString then []
      else map (fun line => "  " ++ line ++ nl) (splitlines m)
  end.

(** [print(s, end=e)] after what [out] already holds. *)
Definition print (out : list string) (s e : string) : list string :=
  List.app out [s ++ e].

(** The for loop of [run]: [out] collects what each [print] call wrote,
    in order.  An exception leaves the loop with what was printed. *)
Fixpoint run_loop (steps : list ReleaseStep) (all_good : bool) (out : list string)
  : list string * Outcome bool :=
  match steps with
  | [] => (out, Return all_good)
  | step :: rest =>
      let out := print out (title step) ": " in
      match check step with
      | Raise e => (out, Raise e)
      | Return (success, message) =>
          let all_good := if negb success then false else all_good in
          let out := print out (if negb success then large_red_circle else check_mark) nl in
          let out := List.app out (message_lines message) in
          run_loop rest all_good out
      end
  end.

(** [ReleasePreparer.run]: the printed output and the returned value,
    [None] or the failure summary. *)
Definition run (steps : list ReleaseStep) : list string * Outcome (option string) :=
  match run_loop steps true [] with
  | (out, Raise e) => (out, Raise e)
  | (out, Return all_good) =>
      let out := print out EmptyString nl in
      if all_good then (print out "All checks PASSED!" nl, Return None)
      else (out, Return (Some "Some checks FAILED, proceed with caution"))
  end.

(** The step with title [fst tr] whose check returns [snd tr]. *)
Definition step_of (tr : string * CheckResult) : ReleaseStep :=
  {| title := fst tr; check := Return (snd tr) |}.

(** What [run] prints for one step whose check returned. *)
Definition step_report (t : string) (r : CheckResult) : list string :=
  List.app [t ++ ": "; (if fst r then check_mark else large_red_circle) ++ nl]
           (message_lines (snd r)).

(** ** The version pattern of release-prepare *)

Definition is_digit (c : ascii) : bool :=
  (48 <=? nat_of_ascii c)%nat && (nat_of_ascii c <=? 57)%nat.

Definition is_digit_2_9 (c : ascii) : bool :=
  (50 <=? nat_of_ascii c)%nat && (nat_of_ascii c <=? 57)%nat.

(** Drop the longest run of characters satisfying [p]. *)
Fixpoint skip_while (p : ascii -> bool) (s : string) : string :=
  match s with
  | String c r => if p c then skip_while p r else s
  | EmptyString => EmptyString
  end.

(** One or more characters satisfying [p]: what follows them. *)
Definition many1 (p : ascii -> bool) (s : string) : option string :=
  match s with
  | String c r => if p c then Some (skip_while p r) else None
  | EmptyString => None
  end.

(** [(a|b|rc)[0-9]+] up to the end of the string. *)
Definition qualifier (s : string) : bool :=
  match s with
  | String "a"%char r | String "b"%char r
  | String "r"%char (String "c"%char r) =>
      match many1 is_digit r with
      | Some EmptyString => true
      | _ => false
      end
  | _ => false
  end.

(** [^D+\.[0-9]+\.[0-9]+((a|b|rc)[0-9]+)?$], where [D] is the class of
    the major number's digits. *)
Definition version_pattern (major_digit : ascii -> bool) (s : string) : bool :=
  match many1 major_digit s with
  | Some (String "."%char minor) =>
      match many1 is_digit minor with
      | Some (String "."%char micro) =>
          match many1 is_digit micro with
          | Some EmptyString => true
          | Some rest => qualifier rest
          | None => false
          end
      | _ => false
      end
  | _ => false
  end.

(** Modelled from the spec: the pattern
    [<major>.<minor>.<micro>[(a|b|rc)<num>]] of the command-line
    interface, each number a non-empty run of decimal digits; the script
    has no such test of its own. *)
Definition cli_pattern (v : string) : bool :=
  version_pattern is_digit v.

(** Modelled from the spec: the first two dot-separated components of a
    version. *)
Definition first_two_components (v : string) : string :=
  join "." (firstn 2 (split "." v)).

(** ** Sample inputs *)

(** A repository whose HEAD is a1b2c3d on origin/master, with no tag and
    no branch named like the release: the tag lookup prints nothing, and
    so does [git rev-parse --short] for a name it cannot resolve. *)
Definition sample_git : Git :=
  {| git_rev_parse_short := fun commit =>
       if String.eqb commit "HEAD" then "a1b2c3d" else EmptyString;
     git_rev_list_tag := fun _ => EmptyString;
     git_branch_r_contains := fun _ => ["origin/HEAD -> origin/master"; "origin/master"];
     git_official_remote := Return (Some "origin") |}.

Definition sample_preparer (v : string) : ReleasePreparer :=
  new_preparer sample_git v "Macaroon root=r, discharge=d".

(** The same repository with a local branch named 3.1.0 at b2c3d4e and
    still no tag: git resolves the name 3.1.0 to the branch, and
    [git rev-list -n 1 tags/3.1.0] prints nothing. *)
Definition sample_branch_git : Git :=
  {| git_rev_parse_short := fun commit =>
       if String.eqb commit "HEAD" then "a1b2c3d"
       else if String.eqb commit "3.1.0" then "b2c3d4e"
       else EmptyString;
     git_rev_list_tag := fun _ => EmptyString;
     git_branch_r_contains := fun _ => ["origin/HEAD -> origin/master"; "origin/master"];
     git_official_remote := Return (Some "origin") |}.

(** Two source tarballs of the same revision in build_pkg. *)
Definition sample_glob_two (pattern : string) : list string :=
  [ "build_pkg/maas_3.1.0-10000-g.a1b2c3d.orig.tar.gz";
    "build_pkg/maas_3.1.0-10001-g.a1b2c3d.orig.tar.gz" ].

(** A 403 answer of the store whose first error asks for a permission
    without saying which, followed by the expiry error. *)
Definition sample_403 : Response :=
  {| status_code := 403;
     text := "{}";
     json_body :=
       Some (JObj [("error_list",
                    JArr [ JObj [("code", JStr "macaroon-permission-required")];
                           JObj [("code", JStr "macaroon-needs-refresh")] ])]) |}.

(** A 403 answer with the expiry error only. *)
Definition sample_expired : Response :=
  {| status_code := 403;
     text := "{}";
     json_body :=
       Some (JObj [("error_list",
                    JArr [ JObj [("code", JStr "macaroon-needs-refresh");
                                 ("message", JStr "Macaroon needs refresh")] ])]) |}.

Definition sample_str (j : json) : string := "?".

(** The release-preparation PPA holding one maas source package per
    given version and no binaries. *)
Definition sample_launchpad (package_versions : list string) : Launchpad :=
  {| me_name := "releaser";
     getPPAByName := fun _ =>
       Some {| getPublishedSources :=
                 map (fun v => {| source_package_name := "maas";
                                  source_package_version := v |}) package_versions;
               getPublishedBinaries := [] |} |}.

(** ** release-prepare: the version forms *)

(** [s] without its first [n] characters. *)
Fixpoint drop (n : nat) (s : string) : string :=
  match n, s with
  | S k, String _ r => drop k r
  | _, _ => s
  end.

(** sed's [s/pat/repl/] on one line, for a literal non-empty [pat]: the
    first occurrence is replaced; [None] when there is none and the
    command's flag for [t] stays unset. *)
Fixpoint sed_s (pat repl s : string) : option string :=
  if String.prefix pat s then Some (repl ++ drop (String.length pat) s)
  else match s with
       | EmptyString => None
       | String c r => option_map (String c) (sed_s pat repl r)
       end.

(** [sed 's/a/A/; tend; s/b/B/; tend; s/rc/RC/; :end'] on one line:
    the first of the three substitutions that applies is the only one
    made. *)
Definition sed_qualifier (a b rc v : string) : string :=
  match sed_s "a" a v with
  | Some r => r
  | None =>
      match sed_s "b" b v with
      | Some r => r
      | None =>
          match sed_s "rc" rc v with
          | Some r => r
          | None => v
          end
      end
  end.

(** Every character of [s] satisfies [p]. *)
Fixpoint all_chars (p : ascii -> bool) (s : string) : bool :=
  match s with
  | EmptyString => true
  | String c r => p c && all_chars p r
  end.

(** The longest run of characters satisfying [p] that [s] starts with:
    what [skip_while] drops. *)
Fixpoint take_while (p : ascii -> bool) (s : string) : string :=
  match s with
  | String c r => if p c then String c (take_while p r) else EmptyString
  | EmptyString => EmptyString
  end.

(** A decimal digit or a dot. *)
Definition digit_or_dot (c : ascii) : bool :=
  is_digit c || Ascii.eqb c ".".

(** *** The shell around the sed script

    release-prepare is a bash script: it hands the version to sed, cut
    and grep through [echo "$version" | ...] and reads their output
    back with [$(...)]. *)

(** The letters of echo's options. *)
Definition is_echo_flag (c : ascii) : bool :=
  Ascii.eqb c "n" || Ascii.eqb c "e" || Ascii.eqb c "E".

(** bash's [echo "$word"]: the word and a newline.  A word that is one
    of echo's own options, a dash followed by letters among n, e and E,
    is not printed: a newline alone is, and with an n among the letters
    nothing at all. *)
Definition echo (word : string) : string :=
  match word with
  | String "-"%char (String c flags) =>
      if all_chars is_echo_flag (String c flags)
      then (if contains "n" (String c flags) then EmptyString else nl)
      else word ++ nl
  | _ => word ++ nl
  end.

(** The lines of a text as grep, sed and cut read it: a newline ends a
    line, and what follows the last newline is a line unless it is
    empty. *)
Definition lines (text : string) : list string :=
  let parts := split "010" text in
  List.app (removelast parts)
           (if String.eqb (last parts EmptyString) EmptyString then []
            else [last parts EmptyString]).

(** [grep -Eq pattern]: whether some line matches. *)
Definition grep_q (pattern : string -> bool) (text : string) : bool :=
  existsb pattern (lines text).

(** [sed script], for a script that works on one line at a time: every
    line is printed as the script leaves it; a last line without a
    newline is printed without one. *)
Definition sed (script : string -> string) (text : string) : string :=
  let parts := split "010" text in
  join nl (List.app (map script (removelast parts))
                    [if String.eqb (last parts EmptyString) EmptyString then EmptyString
                     else script (last parts EmptyString)]).

(** [cut -d'.' -f-2] on one line: the first two fields, the whole line
    when it has no dot. *)
Definition cut_fields (line : string) : string :=
  join "." (firstn 2 (split "." line)).

(** [cut -d'.' -f-2]: every line cut, each followed by a newline. *)
Definition cut (text : string) : string :=
  String.concat EmptyString (map (fun line => cut_fields line ++ nl) (lines text)).

(** [$(...)]: the output of the command without its trailing
    newlines. *)
Fixpoint capture (out : string) : string :=
  match out with
  | EmptyString => EmptyString
  | String c r =>
      match capture r with
      | EmptyString => if Ascii.eqb c "010" then EmptyString else String c EmptyString
      | kept => String c kept
      end
  end.

(** [$(deb_version "$v")]; [epoch] is what the sed over the first line
    of debian/changelog printed, empty when the line shows no epoch. *)
Definition deb_version (epoch v : string) : string :=
  let version := capture (sed (sed_qualifier "~alpha" "~beta" "~rc") (echo v)) in
  capture (if negb (String.eqb epoch EmptyString)
           then echo (epoch ++ ":" ++ version ++ "-0ubuntu1")
           else echo (version ++ "-0ubuntu1")).

(** [$(verbose_version "$v")] *)
Definition verbose_version (v : string) : string :=
  capture (sed (sed_qualifier " alpha" " beta" " RC") (echo v)).

(** [$(tag_version "$v")] *)
Definition tag_version (v : string) : string :=
  capture (sed (sed_qualifier "-alpha" "-beta" "-rc") (echo v)).

(** The variable [major_version]:
    [$(echo "${version}" | cut -d'.' -f-2)]. *)
Definition cut_major_version (v : string) : string :=
  capture (cut (echo v)).

(** The two tests release-prepare makes of the version itself: it is not
    empty, and
    [echo "$version" | grep -Eq "^[2-9]+\.[0-9]+\.[0-9]+((a|b|rc)[0-9]+)?$"]
    succeeds.  (The branch test that follows and the state of the git
    tree are not part of it.) *)
Definition release_prepare_accepts (v : string) : bool :=
  negb (String.eqb v EmptyString) && grep_q (version_pattern is_digit_2_9) (echo v).

(** The four forms of a line the version pattern matches, with what the
    sed script makes of each. *)
Inductive accepted_form (v : string) : Prop :=
| accepted_form_intro (major minor micro q : string)
    (Hmajor : all_chars is_digit major = true)
    (Hfirst : major <> EmptyString)
    (Hminor : all_chars is_digit minor = true)
    (Hmicro : all_chars is_digit micro = true)
    (Hv : v = (major ++ String "." (minor ++ String "." micro)) ++ q)
    (Hq : (q = EmptyString /\
           forall a b rc, sed_qualifier a b rc v
                          = major ++ String "." (minor ++ String "." micro)) \/
          (exists d, all_chars is_digit d = true /\ d <> EmptyString /\
             ((q = "a" ++ d /\
               forall a b rc, sed_qualifier a b rc v
                 = (major ++ String "." (minor ++ String "." micro)) ++ a ++ d) \/
              (q = "b" ++ d /\
               forall a b rc, sed_qualifier a b rc v
                 = (major ++ String "." (minor ++ String "." micro)) ++ b ++ d) \/
              (q = "rc" ++ d /\
               forall a b rc, sed_qualifier a b rc v
                 = (major ++ String "." (minor ++ String "." micro)) ++ rc ++ d)))).

(** ** MAASVersion *)

(** [setup_version != python_version], where the left side may be
    None. *)
Definition differs (setup_version : option string) (v : string) : bool :=
  match setup_version with
  | Some s => negb (String.eqb s v)
  | None => true
  end.

(** [MAASVersion.check]: [setup_version] is the answer of
    [get_branch_setup_version], [changelog_version] the standard output
    of [dpkg-parsechangelog -S version], unstripped. *)
Definition MAASVersion_check (setup_version : option string) (changelog_version : string)
  (p : ReleasePreparer) : Outcome CheckResult :=
  if differs setup_version (python_version p) then
    Return (false, Some ("setup.cfg has " ++ fmt_opt setup_version
                         ++ ", run " ++ "utilities/release-prepare"))
  else
    no_epoch_version <- index (split1 ":" changelog_version) (-1) ;;
    no_ubuntu_version <- index (split1 "-" no_epoch_version) 0 ;;
    let package_version := replace "~" "-" no_ubuntu_version in
    if negb (String.eqb package_version (version p)) then
      Return (false, Some ("changelog has " ++ package_version
                           ++ " (expected " ++ version p ++ "), run "
                           ++ "utilities/release-prepare"))
    else Return (true, None).

(** [NoUncommittedChanges.check] on the exit status of
    [git diff-index --quiet HEAD]. *)
Definition NoUncommittedChanges_check (returncode : Z) : Outcome CheckResult :=
  if (returncode =? 0)%Z then Return (true, None)
  else Return (false, Some "Commit and push all changes before releasing.").

(** The result of a step whose check returns (a failure without message
    stands in where it raises). *)
Definition result_of (s : ReleaseStep) : CheckResult :=
  match check s with
  | Return r => r
  | Raise _ => (false, None)
  end.

(** ** The PPA steps *)

(** A PPA as the PPA steps see it: the names of its processors and its
    published sources in the current series. *)
Record Archive : Type := {
  archive_processors : list string;
  archive_sources : list SourcePackage
}.

(** A Launchpad person or team: [person_ppa] answers [None] where
    [getPPAByName] raises NotFound. *)
Record Person : Type := {
  person_name : string;
  person_ppa : string -> option Archive
}.

(** [lp.me] and [lp.people[name]], [None] where the lookup raises
    KeyError. *)
Record People : Type := {
  people_me : Person;
  people_named : string -> option Person
}.

(** The attributes [MAASPPA.__init__] sets. *)
Record PPAStep : Type := {
  ppa_type : string;
  ppa_name : string;
  ppa_owner : Person
}.

(** How a constructor can fail: its assertion, or a lookup. *)
Inductive InitError : Type :=
| AssertionError
| LookupError (e : exn).

Definition MAASPPA_init (lp : People) (p : ReleasePreparer) (type : string)
  : InitError + PPAStep :=
  if negb (mem type ["stable"; "candidate"; "release-preparation"])
  then inl AssertionError
  else
    let name := major_version p in
    match people_named lp "maas" with
    | None => inl (LookupError (KeyError "maas"))
    | Some maas =>
        if String.eqb type "candidate" then
          inr {| ppa_type := type; ppa_name := name ++ "-next"; ppa_owner := maas |}
        else if String.eqb type "release-preparation" then
          inr {| ppa_type := type; ppa_name := "maas-" ++ name ++ "-next";
                 ppa_owner := people_me lp |}
        else inr {| ppa_type := type; ppa_name := name; ppa_owner := maas |}
    end.

Definition MAASPPA_title (s : PPAStep) : string :=
  "MAAS " ++ ppa_type s ++ " PPA (" ++ person_name (ppa_owner s) ++ "/"
  ++ ppa_name s ++ ")".

Definition MAASPPA_check (s : PPAStep) : Outcome CheckResult :=
  match person_ppa (ppa_owner s) (ppa_name s) with
  | None =>
      Return (false, Some ("ppa:" ++ person_name (ppa_owner s) ++ "/" ++ ppa_name s
                           ++ " couldn't be found."))
  | Some ppa =>
      let ppa_archs := archive_processors ppa in
      let missing_archs := missing_archs ppa_archs in
      match missing_archs with
      | _ :: _ =>
          Return (false, Some ("Missing build architectures: " ++ join ", " missing_archs))
      | [] => Return (true, None)
      end
  end.

(** [(name, version) in target_packages] *)
Definition copied (target_packages : list (string * string)) (name version : string)
  : bool :=
  existsb (fun nv => String.eqb (fst nv) name && String.eqb (snd nv) version)
          target_packages.

(** The loop of [_check_packages_copied] over the sources. *)
Fixpoint not_copied (target_packages : list (string * string))
  (sources : list SourcePackage) : option SourcePackage :=
  match sources with
  | [] => None
  | package :: rest =>
      if negb (copied target_packages (source_package_name package)
                      (source_package_version package))
      then Some package
      else not_copied target_packages rest
  end.

Definition _check_packages_copied (source_ppa target_ppa : Archive)
  : Outcome CheckResult :=
  let target_packages :=
    map (fun package => (source_package_name package, source_package_version package))
        (archive_sources target_ppa) in
  match not_copied target_packages (archive_sources source_ppa) with
  | Some package =>
      Return (false, Some (source_package_name package ++ " "
                           ++ source_package_version package ++ " has not been copied"))
  | None => Return (true, None)
  end.

(** [PackagesCopiedFromDeps.check], on the step its constructor makes
    with the type release-preparation. *)
Definition PackagesCopiedFromDeps_check (lp : People) (s : PPAStep)
  : Outcome CheckResult :=
  match people_named lp "maas-committers" with
  | None => Raise (KeyError "maas-committers")
  | Some committers =>
      match person_ppa committers "latest-deps" with
      | None => Return (false, Some "ppa:maas-committers/latest-deps couldn't be found.")
      | Some source_ppa =>
          match person_ppa (ppa_owner s) (ppa_name s) with
          | None =>
              Return (false, Some ("ppa:" ++ person_name (ppa_owner s) ++ "/"
                                   ++ ppa_name s ++ " couldn't be found."))
          | Some target_ppa => _check_packages_copied source_ppa target_ppa
          end
      end
  end.

Definition PackagesCopiedToReleasePPA_title (s : PPAStep) : string :=
  "Packages copied to ppa:" ++ person_name (ppa_owner s) ++ "/" ++ ppa_name s.

Definition PackagesCopiedToReleasePPA_check (lp : People) (s : PPAStep)
  : Outcome CheckResult :=
  match person_ppa (people_me lp) ("maas-" ++ ppa_name s) with
  | None =>
      Return (false, Some ("ppa:" ++ person_name (people_me lp) ++ "/maas-"
                           ++ ppa_name s ++ " couldn't be found."))
  | Some source_ppa =>
      match person_ppa (ppa_owner s) (ppa_name s) with
      | None =>
          Return (false, Some ("ppa:" ++ person_name (ppa_owner s) ++ "/"
                               ++ ppa_name s ++ " couldn't be found."))
      | Some target_ppa => _check_packages_copied source_ppa target_ppa
      end
  end.

(** A Launchpad with the team maas, its candidate PPA of the given
    processors, and the release-preparation PPA of the user with the
    given sources. *)
Definition sample_people (processors : list string) (prepared copied_to : list SourcePackage)
  : People :=
  {| people_me :=
       {| person_name := "releaser";
          person_ppa := fun name =>
            if String.eqb name "maas-3.1-next"
            then Some {| archive_processors := BUILD_ARCHS; archive_sources := prepared |}
            else None |};
     people_named := fun name =>
       if String.eqb name "maas"
       then Some {| person_name := "maas";
                    person_ppa := fun name =>
                      if String.eqb name "3.1-next"
                      then Some {| archive_processors := processors;
                                   archive_sources := copied_to |}
                      else None |}
       else None |}.

(** A repository tagged 3.1.0: the tag object 9f8e7d6 stands on the
    commit a1b2c3d, which is HEAD and in origin/3.1. *)
Definition sample_tagged_git : Git :=
  {| git_rev_parse_short := fun commit =>
       if String.eqb commit "3.1.0" then "9f8e7d6" else "a1b2c3d";
     git_rev_list_tag := fun _ => "a1b2c3d4e5f60718293a4b5c6d7e8f9001122334";
     git_branch_r_contains := fun _ => ["origin/3.1"];
     git_official_remote := Return (Some "origin") |}.

(** ** The snap revisions *)

(** [s.endswith(suffix)] *)
Fixpoint endswith (s suffix : string) : bool :=
  String.eqb s suffix
  || match s with
     | EmptyString => false
     | String _ r => endswith r suffix
     end.

Fixpoint insert_sorted (s : string) (l : list string) : list string :=
  match l with
  | [] => [s]
  | h :: t => if String.leb s h then s :: l else h :: insert_sorted s t
  end.

(** [sorted(l)] for strings. *)
Definition sorted (l : list string) : list string :=
  fold_right insert_sorted [] l.

(** [revision_map]: a dict from architecture to the list of its
    revisions, in insertion order. *)
Definition RevisionMap : Type := list (string * list json).

(** [m[key].append(revision)], [None] where the key is missing. *)
Fixpoint map_append (key : string) (revision : json) (m : RevisionMap)
  : option RevisionMap :=
  match m with
  | [] => None
  | (k, revisions) :: rest =>
      if String.eqb k key then Some ((k, List.app revisions [revision]) :: rest)
      else option_map (cons (k, revisions)) (map_append key revision rest)
  end.

(** [bool(message)] for None or a string. *)
Definition truthy (message : option string) : bool :=
  match message with
  | Some m => negb (String.eqb m EmptyString)
  | None => false
  end.

Section SnapRevisions.

(** [str()] of a decoded JSON value that is not a string, and [a > b]
    for two decoded values, TypeError where Python does not order
    them. *)
Variable py_str_other : json -> string.
Variable py_gt : json -> json -> Outcome bool.

(** [revision_map[arch].append(revision)] for a decoded [arch]: a list
    or a dict cannot be a key, and no other value than a string is one
    of the keys. *)
Definition append_revision (arch revision : json) (m : RevisionMap)
  : Outcome RevisionMap :=
  match arch with
  | JStr a =>
      match map_append a revision m with
      | Some m' => Return m'
      | None => Raise (KeyError a)
      end
  | JArr _ | JObj _ => Raise TypeError
  | _ => Raise (KeyError (py_str_other arch))
  end.

(** [version.startswith(p)] and [version.endswith(p)] for a decoded
    [version]: only a string has the methods. *)
Definition py_startswith (version : json) (p : string) : Outcome bool :=
  match version with
  | JStr s => Return (startswith s p)
  | _ => Raise AttributeError
  end.

Definition py_endswith (version : json) (p : string) : Outcome bool :=
  match version with
  | JStr s => Return (endswith s p)
  | _ => Raise AttributeError
  end.

(** The loop of [_get_revisisions] over the decoded history. *)
Fixpoint collect_revisions (p : ReleasePreparer) (revisions : list json)
  (revision_map : RevisionMap) : Outcome RevisionMap :=
  match revisions with
  | [] => Return revision_map
  | revision :: rest =>
      let package_version := replace "-" "~" (version p) in
      revision_version <- py_getitem revision "version" ;;
      starts <- py_startswith revision_version package_version ;;
      if negb starts then collect_revisions p rest revision_map
      else
        ends <- py_endswith revision_version (git_short_rev p) ;;
        if negb ends then collect_revisions p rest revision_map
        else
          arch <- py_getitem revision "arch" ;;
          revision_map <- append_revision arch revision revision_map ;;
          collect_revisions p rest revision_map
  end.

(** [SnapsUploaded._get_revisisions] on the answer of the history
    request: the pair (revision_map, error message). *)
Definition _get_revisisions (res : Response) (p : ReleasePreparer) (snap_name : string)
  : Outcome (option RevisionMap * option string) :=
  auth_error <- get_macaroon_auth_error py_str_other res snap_name ;;
  if truthy auth_error then Return (None, auth_error)
  else
    let revision_map := map (fun arch => (arch, [])) BUILD_ARCHS in
    body <- res_json res ;;
    revisions <- py_iter body ;;
    revision_map <- collect_revisions p revisions revision_map ;;
    Return (Some revision_map, None).

(** [max(revision["revision"] for revision in revisions)] once the
    first number is in hand: each further number is read, then compared
    with the greatest so far. *)
Fixpoint max_from (greatest : json) (revisions : list json) : Outcome json :=
  match revisions with
  | [] => Return greatest
  | revision :: rest =>
      number <- py_getitem revision "revision" ;;
      greater <- py_gt number greatest ;;
      max_from (if greater then number else greatest) rest
  end.

(** [max] of the numbers, ValueError for no revision at all. *)
Definition latest (revisions : list json) : Outcome json :=
  match revisions with
  | [] => Raise ValueError
  | revision :: rest =>
      number <- py_getitem revision "revision" ;;
      max_from number rest
  end.

(** The loop of [SnapsUploaded.check] that builds [revision_info]. *)
Fixpoint revision_info (revision_map : RevisionMap) : Outcome (list string) :=
  match revision_map with
  | [] => Return []
  | (arch, revisions) :: rest =>
      latest_revision <- latest revisions ;;
      info <- revision_info rest ;;
      Return (("Latest revision for " ++ arch ++ ": "
               ++ fmt_json py_str_other latest_revision) :: info)
  end.

Definition is_empty {A : Type} (l : list A) : bool :=
  match l with [] => true | _ :: _ => false end.

Definition SnapsUploaded_check (res : Response) (p : ReleasePreparer)
  : Outcome CheckResult :=
  got <- _get_revisisions res p "maas" ;;
  match fst got with
  | None => Return (false, snd got)
  | Some revision_map =>
      let missing_archs :=
        sorted (map fst (filter (fun item => is_empty (snd item)) revision_map)) in
      if negb (is_empty missing_archs) then
        Return (false, Some ("Missing builds for: " ++ join ", " missing_archs))
      else
        info <- revision_info revision_map ;;
        Return (true, Some (join nl info))
  end.

(** Whether a revision lists the channel: the innermost loop of
    [SnapsInChannel.check]. *)
Definition in_channel (channel : string) (revision : json) : Outcome bool :=
  channels <- py_getitem revision "channels" ;;
  items <- py_iter channels ;;
  Return (existsb (fun c => json_is c channel) items).

(** The loop over the revisions of one architecture: every revision is
    looked at, also after one has been found in the channel. *)
Fixpoint any_in_channel (channel : string) (revisions : list json) : Outcome bool :=
  match revisions with
  | [] => Return false
  | revision :: rest =>
      found <- in_channel channel revision ;;
      later <- any_in_channel channel rest ;;
      Return (found || later)
  end.

(** The loop over the architectures that collects [released_archs]. *)
Fixpoint released_archs (channel : string) (revision_map : RevisionMap)
  : Outcome (list string) :=
  match revision_map with
  | [] => Return []
  | (arch, revisions) :: rest =>
      found <- any_in_channel channel revisions ;;
      later <- released_archs channel rest ;;
      Return (if found then arch :: later else later)
  end.

Definition SnapsInChannel_check (res : Response) (p : ReleasePreparer) (channel : string)
  : Outcome CheckResult :=
  got <- _get_revisisions res p "maas" ;;
  match fst got with
  | None => Return (false, snd got)
  | Some revision_map =>
      released <- released_archs channel revision_map ;;
      let missing_archs := missing_archs released in
      if negb (is_empty missing_archs) then
        Return (false, Some ("Missing releases for: " ++ join ", " missing_archs))
      else Return (true, None)
  end.

End SnapRevisions.

(** An upload as the store's history lists it. *)
Record Revision : Type := {
  rev_number : string;
  rev_version : string;
  rev_arch : string;
  rev_channels : list string
}.

(** The decoded history entry of an upload. *)
Definition revision_json (r : Revision) : json :=
  JObj [ ("revision", JNum (rev_number r));
         ("version", JStr (rev_version r));
         ("arch", JStr (rev_arch r));
         ("channels", JArr (map JStr (rev_channels r))) ].

(** The filter of [_get_revisisions]: the version starts with the
    package version and ends with the short revision. *)
Definition matches (p : ReleasePreparer) (r : Revision) : bool :=
  startswith (rev_version r) (replace "-" "~" (version p))
  && endswith (rev_version r) (git_short_rev p).

(** A matching upload for the architecture. *)
Definition built_for (p : ReleasePreparer) (arch : string) (r : Revision) : bool :=
  matches p r && String.eqb (rev_arch r) arch.

(** The answer 200 with the given history. *)
Definition history_response (revisions : list Revision) : Response :=
  {| status_code := 200;
     text := "[...]";
     json_body := Some (JArr (map revision_json revisions)) |}.

(** Uploads of 3.1.0 at a1b2c3d for the four architectures, released to
    3.1/stable, after an older upload for another architecture. *)
Definition sample_revisions : list Revision :=
  {| rev_number := "90"; rev_version := "3.0.0-9000-g.0000000"; rev_arch := "armhf";
     rev_channels := [] |}
  :: map (fun arch => {| rev_number := "100"; rev_version := "3.1.0-10000-g.a1b2c3d";
                         rev_arch := arch; rev_channels := ["3.1/stable"] |})
         BUILD_ARCHS.

(** A comparison that always answers. *)
Definition sample_gt (x y : json) : Outcome bool := Return false.

(** ** The command line *)

(** The steps [main] builds, by class and constructor arguments. *)
Inductive StepKind : Type :=
| MAASVersion
| NoUncommittedChanges
| CommitInRemoteBranch
| SnapTrack (snap_name : string)
| MAASPPA (ppa_type : string)
| PackageBuilt
| MAASPackagePublished
| SnapsUploaded
| SnapsInChannel (channel : string)
| PackagesCopiedFromDeps
| PackagesCopiedToReleasePPA (ppa_type : string)
| ReleaseTagged.

(** The [login.ubuntu.com] section of release.macaroon as
    [macaroon_auth] reads it: [conf.get(option)], [None] for an option
    the section does not have. *)
Definition SectionProxy : Type := string -> option string.

(** [macaroon_auth]; [discharge] stands for pymacaroons: from the two
    raw values it gives the serialized discharge bound to the root
    macaroon, or raises. *)
Definition macaroon_auth (discharge : option string -> option string -> Outcome string)
  (conf : SectionProxy) : Outcome string :=
  let root_macaroon_raw := conf "macaroon" in
  let unbound_raw := conf "unbound_discharge" in
  discharge_macaroon_raw <- discharge root_macaroon_raw unbound_raw ;;
  Return ("Macaroon root=" ++ fmt_opt root_macaroon_raw
          ++ ", discharge=" ++ discharge_macaroon_raw).

(** What [Launchpad.login_with] returns: [lp.me] and [lp.people], and
    the outcome of [lp.distributions["ubuntu"].getSeries(
    name_or_version="focal")], whose value the PPA steps only hand back
    to Launchpad. *)
Record Login : Type := {
  lp_people : People;
  lp_current_series : Outcome unit
}.

(** [MAASPPA.__init__] in full: the attributes, then the series
    lookup. *)
Definition MAASPPA_new (lp : Login) (p : ReleasePreparer) (type : string)
  : Outcome PPAStep :=
  match MAASPPA_init (lp_people lp) p type with
  | inl AssertionError => Raise (OtherError "AssertionError")
  | inl (LookupError e) => Raise e
  | inr step =>
      current_series <- lp_current_series lp ;;
      Return step
  end.

(** The surroundings of one run: git; the [login.ubuntu.com] section
    of release.macaroon ([None] when the file or the section is missing;
    a file that is there is taken to be well formed); pymacaroons; the
    outcome of [Launchpad.login_with]; for each step, once constructed,
    what calling its check gives; and the traceback the interpreter
    writes for an exception that leaves [main]. *)
Record World : Type := {
  world_git : Git;
  world_macaroon : option SectionProxy;
  world_discharge : option string -> option string -> Outcome string;
  world_login : Outcome Login;
  world_check : ReleasePreparer -> StepKind -> Outcome CheckResult;
  world_traceback : exn -> string
}.

(** The constructor call [main] makes for a step, with the title of the
    step made. *)
Definition new_step (w : World) (lp : Login) (p : ReleasePreparer) (kind : StepKind)
  : Outcome ReleaseStep :=
  let made (t : string) := {| title := t; check := world_check w p kind |} in
  match kind with
  | MAASVersion => Return (made "MAAS version set in branch")
  | NoUncommittedChanges => Return (made "No uncommitted changes")
  | CommitInRemoteBranch => Return (made "Release commit in remote branch")
  | SnapTrack snap_name =>
      Return (made (snap_name ++ " " ++ major_version p ++ " snap track"))
  | MAASPPA ppa_type =>
      step <- MAASPPA_new lp p ppa_type ;;
      Return (made (MAASPPA_title step))
  | PackageBuilt => Return (made "MAAS source package is built")
  | MAASPackagePublished =>
      step <- MAASPPA_new lp p "release-preparation" ;;
      Return (made ("MAAS package published in (" ++ person_name (ppa_owner step)
                    ++ "/" ++ ppa_name step ++ ")"))
  | SnapsUploaded => Return (made "Snaps have been built and uploaded to the store.")
  | SnapsInChannel channel => Return (made ("Snaps have been released to " ++ channel))
  | PackagesCopiedFromDeps =>
      step <- MAASPPA_new lp p "release-preparation" ;;
      Return (made "Packages copied from ppa:maas-committers/latest-deps")
  | PackagesCopiedToReleasePPA ppa_type =>
      step <- MAASPPA_new lp p ppa_type ;;
      Return (made (PackagesCopiedToReleasePPA_title step))
  | ReleaseTagged => Return (made "Release has been tagged")
  end.

(** The list assigned to [preparer.steps], built from left to right:
    each constructor runs in its turn, and each of the two channel
    lookups just before the step it is an argument of. *)
Definition main_steps (w : World) (lp : Login) (p : ReleasePreparer)
  : Outcome (list ReleaseStep) :=
  step1 <- new_step w lp p MAASVersion ;;
  step2 <- new_step w lp p NoUncommittedChanges ;;
  step3 <- new_step w lp p CommitInRemoteBranch ;;
  step4 <- new_step w lp p (SnapTrack "maas") ;;
  step5 <- new_step w lp p (SnapTrack "maas-test-db") ;;
  step6 <- new_step w lp p (MAASPPA "stable") ;;
  step7 <- new_step w lp p (MAASPPA "candidate") ;;
  step8 <- new_step w lp p (MAASPPA "release-preparation") ;;
  step9 <- new_step w lp p PackageBuilt ;;
  step10 <- new_step w lp p MAASPackagePublished ;;
  step11 <- new_step w lp p SnapsUploaded ;;
  release_prep <- get_snap_release_channel (version p) ;;
  step12 <- new_step w lp p (SnapsInChannel (release_prep ++ "/release-prep")) ;;
  step13 <- new_step w lp p PackagesCopiedFromDeps ;;
  step14 <- new_step w lp p (PackagesCopiedToReleasePPA "candidate") ;;
  channel <- get_snap_release_channel (version p) ;;
  step15 <- new_step w lp p (SnapsInChannel channel) ;;
  step16 <- new_step w lp p ReleaseTagged ;;
  Return [ step1; step2; step3; step4; step5; step6; step7; step8; step9; step10;
           step11; step12; step13; step14; step15; step16 ].

Record Namespace : Type := { args_version : string }.

(** [create_parser]: the arguments of the parser, each with the
    conversion and the choices it was declared with (none here). *)
Record Argument : Type := {
  dest : string;
  arg_type : option (string -> Outcome string);
  arg_choices : option (list string)
}.

Definition create_parser : list Argument :=
  [ {| dest := "version"; arg_type := None; arg_choices := None |} ].

(** What argparse stores for a positional word. *)
Definition convert (a : Argument) (word : string) : Outcome string :=
  value <- match arg_type a with
           | Some f => f word
           | None => Return word
           end ;;
  match arg_choices a with
  | Some choices => if mem value choices then Return value else Raise ValueError
  | None => Return value
  end.

(** [parser.parse_args()] for a parser with one positional argument, on
    the words after the program name, where the words are one word that
    does not start with '-': it is the positional argument, converted as
    declared.  Everything else is settled inside argparse and is left
    outside the model, [None]: a word that starts with '-' (an option,
    help, or a negative number), too few or too many words, a failed
    conversion (the last three end the process with usage on standard
    error and status 2). *)
Definition parse_args (parser : list Argument) (argv : list string)
  : option Namespace :=
  match parser, argv with
  | [a], [word] =>
      if startswith word "-" then None
      else match convert a word with
           | Return v => Some {| args_version := v |}
           | Raise _ => None
           end
  | _, _ => None
  end.

(** How the process ends: [sys.exit] with a status or with a message,
    or an exception nobody caught. *)
Inductive Exit : Type :=
| ExitCode (status : Z)
| ExitMessage (message : string)
| Uncaught (e : exn).

(** What the process wrote, and how it ended. *)
Record Console : Type := {
  stdout : list string;
  stderr : list string;
  exit : Exit
}.

(** An exception leaves [main]: the interpreter writes its traceback on
    standard error. *)
Definition uncaught (w : World) (out : list string) (e : exn) : Console :=
  {| stdout := out; stderr := [world_traceback w e]; exit := Uncaught e |}.

(** [sys.exit(preparer.run(args))], on what [run] printed and returned:
    status 0 for None; for the summary, the summary on standard error
    (and status 1). *)
Definition sys_exit (w : World) (ran : list string * Outcome (option string)) : Console :=
  match ran with
  | (out, Raise e) => uncaught w out e
  | (out, Return None) => {| stdout := out; stderr := []; exit := ExitCode 0 |}
  | (out, Return (Some message)) =>
      {| stdout := out; stderr := [message ++ nl]; exit := ExitMessage message |}
  end.

(** [main] once the arguments are parsed, followed by [sys.exit]. *)
Definition main_with (w : World) (args : Namespace) : Console :=
  match world_macaroon w with
  | None =>
      {| stdout := [];
         stderr := ["Macaroon couldn't be found" ++ nl; get_macaroon_refresh_help ++ nl];
         exit := ExitCode 1 |}
  | Some macaroon =>
      let built :=
        auth <- macaroon_auth (world_discharge w) macaroon ;;
        lp <- world_login w ;;
        let preparer := new_preparer (world_git w) (args_version args) auth in
        main_steps w lp preparer in
      match built with
      | Raise e => uncaught w [] e
      | Return steps => sys_exit w (run steps)
      end
  end.

Definition main (w : World) (argv : list string) : option Console :=
  match parse_args create_parser argv with
  | None => None
  | Some args => Some (main_with w args)
  end.

(** The team maas with its candidate PPA of the given processors and
    sources. *)
Definition sample_maas (processors : list string) (copied_to : list SourcePackage)
  : Person :=
  {| person_name := "maas";
     person_ppa := fun name =>
       if String.eqb name "3.1-next"
       then Some {| archive_processors := processors; archive_sources := copied_to |}
       else None |}.

(** A Launchpad login with the team maas and the series focal. *)
Definition sample_login : Login :=
  {| lp_people := sample_people BUILD_ARCHS [] [];
     lp_current_series := Return tt |}.

(** A section with both values. *)
Definition sample_macaroon : SectionProxy :=
  fun option =>
    if String.eqb option "macaroon" then Some "r"
    else if String.eqb option "unbound_discharge" then Some "u"
    else None.

(** A world in which release.macaroon holds both values, the login
    succeeds and every check passes without a message. *)
Definition sample_world : World :=
  {| world_git := sample_git;
     world_macaroon := Some sample_macaroon;
     world_discharge := fun _ _ => Return "d";
     world_login := Return sample_login;
     world_check := fun _ _ => Return (true, None);
     world_traceback := fun _ => "Traceback (most recent call last):" ++ nl |}.


(** * Properties *)

(** ** The embedding on concrete inputs *)

Example split_version : split "-" "3.1.0-beta3-x" = ["3.1.0"; "beta3"; "x"].
Proof. reflexivity. Qed.

Example rsplit1_version : rsplit1 "." "3.1.0-beta3" = ["3.1"; "0-beta3"].
Proof. reflexivity. Qed.

Example split1_branch :
  split1 "/" "origin/HEAD -> origin/master" = ["origin"; "HEAD -> origin/master"].
Proof. reflexivity. Qed.

Example replace_tilde : replace "-" "~" "3.1.0-beta3" = "3.1.0~beta3".
Proof. reflexivity. Qed.

Example index_negative : index ["a"; "b"; "c"] (-1) = Return "c".
Proof. reflexivity. Qed.

Example index_out_of_range :
  index ["a"; "b"] 2 = Raise IndexError.
Proof. reflexivity. Qed.

Example splitlines_two :
  splitlines ("one" ++ nl ++ "two" ++ String "013" nl ++ nl) = ["one"; "two"; ""].
Proof. reflexivity. Qed.

Example splitlines_empty : splitlines "" = [].
Proof. reflexivity. Qed.

Example preparer_beta3 :
  sample_preparer "3.1.0-beta3"
  = {| version := "3.1.0-beta3";
       python_version := "3.1.0b3";
       major_version := "3.1";
       snapstore_auth := "Macaroon root=r, discharge=d";
       git_short_rev := "a1b2c3d" |}.
Proof. reflexivity. Qed.

Example check_version_published :
  _check_version (sample_preparer "3.1.0-beta3")
    "1:3.1.0~beta3-10000-g.a1b2c3d-0ubuntu1~20.04.1"
  = Return true.
Proof. reflexivity. Qed.

Example commit_in_master :
  CommitInRemoteBranch_check sample_git (sample_preparer "3.1.0-beta3")
  = Return (true, None).
Proof. reflexivity. Qed.

Example commit_not_in_3_1 :
  CommitInRemoteBranch_check sample_git (sample_preparer "3.1.0")
  = Return (false, Some "Current HEAD is not in origin/3.1").
Proof. reflexivity. Qed.

Example auth_error_500 :
  get_macaroon_auth_error sample_str
    {| status_code := 500; text := "Internal Server Error"; json_body := None |} "maas"
  = Return (Some "Internal Server Error").
Proof. reflexivity. Qed.

Example run_two_steps :
  run [ {| title := "No uncommitted changes"; check := Return (true, None) |};
        {| title := "Release has been tagged";
           check := Return (false, Some "Release hasn't been tagged yet.") |} ]
  = ([ "No uncommitted changes: "; check_mark ++ nl;
       "Release has been tagged: "; large_red_circle ++ nl;
       "  Release hasn't been tagged yet." ++ nl;
       nl ],
     Return (Some "Some checks FAILED, proceed with caution")).
Proof. reflexivity. Qed.

Example pattern_accepts : cli_pattern "3.1.0rc2" = true /\ cli_pattern "3.1.0" = true.
Proof. split; reflexivity. Qed.

Example pattern_rejects : cli_pattern "3.1" = false /\ cli_pattern "3.1.0-rc2" = false.
Proof. split; reflexivity. Qed.

(** The shell works line by line: one matching line is enough for grep,
    sed substitutes once in every line, cut cuts every line; and echo
    keeps a word that is one of its options to itself. *)
Example release_prepare_lines :
  release_prepare_accepts ("3.1.0" ++ nl ++ "-beta-rc") = true /\
  tag_version ("3.1.0" ++ nl ++ "-beta-rc") = "3.1.0" ++ nl ++ "-bet-alpha-rc" /\
  cut_major_version ("3.1.0" ++ nl ++ "4.5.6") = "3.1" ++ nl ++ "4.5" /\
  release_prepare_accepts "-n" = false /\
  tag_version "-n" = EmptyString.
Proof. repeat split. Qed.

(** ** Strings *)

Lemma prefix_refl (s : string) : String.prefix s s = true.
Proof.
  induction s as [|a s IH]; simpl; [reflexivity|].
  destruct (ascii_dec a a) as [_|ne]; [exact IH | now elim ne].
Qed.

Lemma prefix_app (s t : string) : String.prefix s (s ++ t) = true.
Proof.
  induction s as [|a s IH]; simpl.
  - now destruct t.
  - destruct (ascii_dec a a) as [_|ne]; [exact IH | now elim ne].
Qed.

Lemma contains_prefix (sub s : string) :
  String.prefix sub s = true -> contains sub s = true.
Proof. intros H. destruct s; cbn [contains]; rewrite H; reflexivity. Qed.

Lemma contains_app (sub a b : string) : contains sub (a ++ (sub ++ b)) = true.
Proof.
  induction a as [|c a IH]; simpl.
  - apply contains_prefix, prefix_app.
  - rewrite IH. apply orb_true_r.
Qed.

Lemma contains_skip (sub a s : string) :
  contains sub s = true -> contains sub (a ++ s) = true.
Proof.
  intros H. induction a as [|c a IH]; [exact H|].
  simpl. rewrite IH. apply orb_true_r.
Qed.

Lemma contains_char_cons (c a : ascii) (r : string) :
  contains (String c EmptyString) (String a r)
  = Ascii.eqb a c || contains (String c EmptyString) r.
Proof.
  simpl. destruct (ascii_dec c a) as [e|ne].
  - subst. rewrite Ascii.eqb_refl. now destruct r.
  - destruct (Ascii.eqb_spec a c) as [e|_]; [now elim ne | reflexivity].
Qed.

Lemma contains_char_nil (c : ascii) : contains (String c EmptyString) EmptyString = false.
Proof. reflexivity. Qed.

Lemma app_nil_r (s : string) : s ++ EmptyString = s.
Proof. induction s; simpl; congruence. Qed.

Lemma app_assoc (a b c : string) : (a ++ b) ++ c = a ++ (b ++ c).
Proof. induction a; simpl; congruence. Qed.

Lemma split_nonempty (sep : ascii) (s : string) : split sep s <> [].
Proof.
  destruct s as [|a r]; simpl; [discriminate|].
  destruct (Ascii.eqb a sep); [discriminate|].
  destruct (split sep r); discriminate.
Qed.

Lemma rsplit1_nonempty (sep : ascii) (s : string) : rsplit1 sep s <> [].
Proof.
  destruct s as [|a r]; simpl; [discriminate|].
  destruct (rsplit1 sep r) as [|p [|q [|x l]]]; try discriminate;
    destruct (Ascii.eqb a sep); discriminate.
Qed.

(** Without the separator nothing is cut. *)
Lemma split_none (sep : ascii) (s : string) :
  contains (String sep EmptyString) s = false -> split sep s = [s].
Proof.
  induction s as [|a r IH]; [reflexivity|].
  rewrite contains_char_cons. intros H.
  apply orb_false_elim in H as [Ha Hr].
  simpl. rewrite Ha, (IH Hr). reflexivity.
Qed.

Lemma rsplit1_none (sep : ascii) (s : string) :
  contains (String sep EmptyString) s = false -> rsplit1 sep s = [s].
Proof.
  induction s as [|a r IH]; [reflexivity|].
  rewrite contains_char_cons. intros H.
  apply orb_false_elim in H as [Ha Hr].
  simpl. rewrite Ha, (IH Hr). reflexivity.
Qed.

(** The first separator ends the first component. *)
Lemma split_first (sep : ascii) (pre rest : string) :
  contains (String sep EmptyString) pre = false ->
  split sep (pre ++ String sep rest) = pre :: split sep rest.
Proof.
  induction pre as [|a r IH]; intros H.
  - simpl. rewrite Ascii.eqb_refl. reflexivity.
  - rewrite contains_char_cons in H. apply orb_false_elim in H as [Ha Hr].
    simpl. rewrite Ha, (IH Hr). reflexivity.
Qed.

Lemma split1_first (sep : ascii) (pre rest : string) :
  contains (String sep EmptyString) pre = false ->
  split1 sep (pre ++ String sep rest) = [pre; rest].
Proof.
  induction pre as [|a r IH]; intros H.
  - simpl. rewrite Ascii.eqb_refl. reflexivity.
  - rewrite contains_char_cons in H. apply orb_false_elim in H as [Ha Hr].
    simpl. rewrite Ha, (IH Hr). reflexivity.
Qed.

(** The last separator starts the last component. *)
Lemma rsplit1_last (sep : ascii) (pre last : string) :
  contains (String sep EmptyString) last = false ->
  rsplit1 sep (pre ++ String sep last) = [pre; last].
Proof.
  intros H. induction pre as [|a r IH].
  - simpl. rewrite (rsplit1_none _ _ H), Ascii.eqb_refl. reflexivity.
  - simpl. rewrite IH. reflexivity.
Qed.

(** Joining the components with the separator gives the string back, and
    no component holds the separator. *)
Lemma join_split (sep : ascii) (s : string) :
  join (String sep EmptyString) (split sep s) = s.
Proof.
  unfold join. induction s as [|a r IH]; [reflexivity|].
  simpl. destruct (Ascii.eqb_spec a sep) as [->|ne].
  - pose proof (split_nonempty sep r) as Hne.
    destruct (split sep r) as [|h t]; [now elim Hne|].
    simpl in *. rewrite IH. reflexivity.
  - pose proof (split_nonempty sep r) as Hne.
    destruct (split sep r) as [|h t]; [now elim Hne|].
    simpl in *. destruct t; simpl in *; rewrite <- IH; reflexivity.
Qed.

Lemma split_components (sep : ascii) (s : string) :
  Forall (fun part => contains (String sep EmptyString) part = false) (split sep s).
Proof.
  induction s as [|a r IH]; simpl.
  - constructor; [reflexivity | constructor].
  - destruct (Ascii.eqb a sep) eqn:Ha.
    + constructor; [reflexivity | exact IH].
    + destruct (split sep r) as [|h t].
      * constructor; [|constructor]. rewrite contains_char_cons, Ha. reflexivity.
      * inversion IH as [|? ? Hh Ht]; subst. constructor; [|exact Ht].
        rewrite contains_char_cons, Ha, Hh. reflexivity.
Qed.

(** A prefix free of the separator is a prefix of the string exactly
    when it is a prefix of the first component. *)
Lemma prefix_first_component (sep : ascii) (p s : string) :
  contains (String sep EmptyString) p = false ->
  String.prefix p (hd EmptyString (split sep s)) = String.prefix p s.
Proof.
  revert p. induction s as [|a r IH]; intros p Hp; [reflexivity|].
  simpl split. destruct (Ascii.eqb_spec a sep) as [->|ne].
  - destruct p as [|b p]; [reflexivity|].
    rewrite contains_char_cons in Hp. apply orb_false_elim in Hp as [Hb _].
    simpl. destruct (ascii_dec b sep) as [->|_]; [|reflexivity].
    rewrite Ascii.eqb_refl in Hb. discriminate.
  - pose proof (split_nonempty sep r) as Hne.
    specialize (IH (match p with String _ q => q | EmptyString => EmptyString end)).
    destruct (split sep r) as [|h t]; [now elim Hne|].
    destruct p as [|b p]; [reflexivity|].
    rewrite contains_char_cons in Hp. apply orb_false_elim in Hp as [_ Hp].
    simpl in *. destruct (ascii_dec b a); [apply IH, Hp | reflexivity].
Qed.

Lemma index_nonneg {A : Type} (l : list A) (i : Z) :
  (0 <= i)%Z ->
  index l i = match nth_error l (Z.to_nat i) with
              | Some a => Return a
              | None => Raise IndexError
              end.
Proof.
  intros Hi. unfold index.
  destruct (Z.ltb_spec i 0) as [Hlt|_]; [lia|].
  destruct (Z.ltb_spec i 0) as [Hlt|_]; [lia|].
  destruct (Z.leb_spec (Z.of_nat (List.length l)) i) as [Hle|Hgt]; simpl; [|reflexivity].
  assert (Hnone : nth_error l (Z.to_nat i) = None) by (apply nth_error_None; lia).
  rewrite Hnone. reflexivity.
Qed.

Lemma nth_error_length_last {A : Type} (t : list A) (a d : A) :
  nth_error (a :: t) (List.length t) = Some (last (a :: t) d).
Proof.
  revert a. induction t as [|b t IH]; intros a; [reflexivity|].
  simpl List.length. simpl nth_error. rewrite (IH b). reflexivity.
Qed.

Lemma index_last {A : Type} (l : list A) (d : A) :
  l <> [] -> index l (-1) = Return (last l d).
Proof.
  intros Hne. destruct l as [|a t]; [now elim Hne|].
  assert (Hn : (-1 + Z.of_nat (List.length (a :: t)) = Z.of_nat (List.length t))%Z)
    by (simpl List.length; lia).
  unfold index. cbv zeta. change (-1 <? 0)%Z with true. cbv iota. rewrite Hn.
  destruct (Z.ltb_spec (Z.of_nat (List.length t)) 0) as [Hlt|_]; [lia|].
  destruct (Z.leb_spec (Z.of_nat (List.length (a :: t))) (Z.of_nat (List.length t)))
    as [Hle|_]; [simpl List.length in Hle; lia|].
  cbn [orb].
  rewrite Nat2Z.id, (nth_error_length_last t a d). reflexivity.
Qed.

(** ** The version helpers *)

Lemma get_major_version_last (p c : string) :
  contains "." c = false -> get_major_version (p ++ String "." c) = p.
Proof.
  intros H. unfold get_major_version. rewrite (rsplit1_last _ _ _ H). reflexivity.
Qed.

Lemma get_major_version_none (v : string) :
  contains "." v = false -> get_major_version v = v.
Proof.
  intros H. unfold get_major_version. rewrite (rsplit1_none _ _ H). reflexivity.
Qed.

Lemma get_version_grade_final (v : string) :
  contains "-" v = false -> get_version_grade v = Return "final".
Proof. intros H. unfold get_version_grade. rewrite H. reflexivity. Qed.

(** With a '-' in the version, the grade is read off the text between the
    first '-' and the next one. *)
Lemma get_version_grade_suffix (pre rest : string) :
  contains "-" pre = false ->
  get_version_grade (pre ++ String "-" rest) =
    let version_suffix := hd EmptyString (split "-" rest) in
    if startswith rest "beta" then Return "beta"
    else if startswith rest "rc" then Return "rc"
    else Raise (RuntimeError ("Unknown version suffix: " ++ version_suffix)).
Proof.
  intros Hpre. unfold get_version_grade.
  assert (Hin : contains "-" (pre ++ String "-" rest) = true)
    by (apply (contains_app "-" pre rest)).
  rewrite Hin, (split_first _ _ _ Hpre). cbn [negb].
  pose proof (split_nonempty "-" rest) as Hne.
  pose proof (prefix_first_component "-" "beta" rest eq_refl) as Hbeta.
  pose proof (prefix_first_component "-" "rc" rest eq_refl) as Hrc.
  destruct (split "-" rest) as [|h t]; [now elim Hne|].
  rewrite index_nonneg by lia. change (Z.to_nat 1) with 1%nat.
  cbn [nth_error bind hd] in *.
  unfold startswith. rewrite Hbeta, Hrc. reflexivity.
Qed.

(** The channel body never meets a fourth grade. *)
Lemma get_version_grade_range (v g : string) :
  get_version_grade v = Return g -> g = "final" \/ g = "rc" \/ g = "beta".
Proof.
  unfold get_version_grade.
  destruct (negb (contains "-" v)); [intros [= <-]; auto|].
  destruct (index (split "-" v) 1) as [suffix|e]; [|discriminate].
  cbn [bind]. destruct (startswith suffix "beta"); [intros [= <-]; auto|].
  destruct (startswith suffix "rc"); [intros [= <-]; auto | discriminate].
Qed.

(** C2 (amended): get_major_version removes the last dot-separated
    component: for a version [p.c] with no dot in [c] it returns [p],
    and a version without a dot is returned whole.  For a version of
    exactly three dot-separated components that is the first two
    components, so "3.1.0" gives "3.1" and "3.1.0-beta1" gives "3.1". *)
Theorem get_major_version_drops_last_component :
  (forall p c, contains "." c = false -> get_major_version (p ++ "." ++ c) = p) /\
  (forall v, contains "." v = false -> get_major_version v = v) /\
  (forall v, List.length (split "." v) = 3%nat ->
             get_major_version v = first_two_components v) /\
  get_major_version "3.1.0" = "3.1" /\
  get_major_version "3.1.0-beta1" = "3.1".
Proof.
  split; [exact get_major_version_last|].
  split; [exact get_major_version_none|].
  split; [|split; reflexivity].
  intros v Hlen.
  pose proof (join_split "." v) as Hjoin.
  pose proof (split_components "." v) as Hparts.
  unfold first_two_components.
  destruct (split "." v) as [|a [|b [|c [|d l]]]]; try discriminate.
  pose proof (Forall_inv (Forall_inv_tail (Forall_inv_tail Hparts))) as Hc'.
  unfold join in *. simpl in Hjoin, Hc'. simpl.
  rewrite <- Hjoin at 1.
  replace (a ++ String "." (b ++ String "." c)) with ((a ++ String "." b) ++ String "." c)
    by (rewrite app_assoc; reflexivity).
  apply get_major_version_last, Hc'.
Qed.

Lemma get_major_version_drops_last_component_witness :
  get_major_version ("3.1" ++ "." ++ "0") = "3.1" /\
  get_major_version "3" = "3" /\
  get_major_version "2.9.4" = first_two_components "2.9.4".
Proof.
  destruct get_major_version_drops_last_component as [H1 [H2 [H3 _]]].
  split; [apply (H1 "3.1" "0"); reflexivity|].
  split; [apply (H2 "3"); reflexivity|].
  apply (H3 "2.9.4"); reflexivity.
Defined.

(** C2 (as stated) fails: with two components the first one is returned,
    with four the first three. *)
Lemma get_major_version_not_first_two :
  get_major_version "3.1" = "3" /\
  first_two_components "3.1" = "3.1" /\
  get_major_version "3.1.0.1" = "3.1.0" /\
  first_two_components "3.1.0.1" = "3.1" /\
  ~ (forall v, get_major_version v = first_two_components v).
Proof.
  repeat (split; [reflexivity|]).
  intros H. specialize (H "3.1"). discriminate H.
Qed.

(** C6: a version without '-' has grade "final"; with a '-', the grade is
    "beta" when the text after the first '-' starts with "beta", "rc"
    when it starts with "rc", and otherwise a RuntimeError is raised. *)
Theorem get_version_grade_by_suffix (pre rest : string)
  (Hpre : contains "-" pre = false) :
  get_version_grade pre = Return "final" /\
  (startswith rest "beta" = true ->
     get_version_grade (pre ++ "-" ++ rest) = Return "beta") /\
  (startswith rest "rc" = true ->
     get_version_grade (pre ++ "-" ++ rest) = Return "rc") /\
  (startswith rest "beta" = false -> startswith rest "rc" = false ->
     exists suffix,
       get_version_grade (pre ++ "-" ++ rest)
       = Raise (RuntimeError ("Unknown version suffix: " ++ suffix))).
Proof.
  split; [apply get_version_grade_final, Hpre|].
  pose proof (get_version_grade_suffix pre rest Hpre) as H. cbv zeta in H.
  change (pre ++ "-" ++ rest) with (pre ++ String "-" rest).
  repeat split.
  - intros Hb. rewrite H, Hb. reflexivity.
  - intros Hr. rewrite H, Hr.
    destruct (startswith rest "beta") eqn:Hb; [|reflexivity].
    unfold startswith in *. destruct rest as [|x r]; [discriminate|].
    cbn [String.prefix] in Hb, Hr.
    destruct (ascii_dec "b" x) as [<-|]; [|discriminate].
    destruct (ascii_dec "r" "b"); discriminate.
  - intros Hb Hr. rewrite H, Hb, Hr. eexists. reflexivity.
Qed.

Lemma get_version_grade_by_suffix_witness :
  get_version_grade "3.1.0" = Return "final" /\
  get_version_grade ("3.1.0" ++ "-" ++ "beta3") = Return "beta" /\
  get_version_grade ("3.1.0" ++ "-" ++ "rc1") = Return "rc" /\
  (exists suffix, get_version_grade ("3.1.0" ++ "-" ++ "alpha1")
                  = Raise (RuntimeError ("Unknown version suffix: " ++ suffix))).
Proof.
  split; [apply (get_version_grade_by_suffix "3.1.0" "beta3"); reflexivity|].
  split; [apply (get_version_grade_by_suffix "3.1.0" "beta3"); reflexivity|].
  split; [apply (get_version_grade_by_suffix "3.1.0" "rc1"); reflexivity|].
  apply (get_version_grade_by_suffix "3.1.0" "alpha1"); reflexivity.
Defined.

(** C7: the channel of a version is its major version followed by
    "/stable" for grade "final", "/candidate" for "rc" and "/beta" for
    "beta"; a grade outside these three raises a RuntimeError, and so
    does a version whose grade cannot be derived: a channel is returned
    only for one of the three grades. *)
Theorem get_snap_release_channel_by_grade (version major : string) :
  (snap_channel_for major "final" = Return (major ++ "/stable") /\
   snap_channel_for major "rc" = Return (major ++ "/candidate") /\
   snap_channel_for major "beta" = Return (major ++ "/beta")) /\
  (forall grade, grade <> "final" -> grade <> "rc" -> grade <> "beta" ->
     snap_channel_for major grade
     = Raise (RuntimeError ("Unknown version grade: " ++ grade))) /\
  (get_version_grade version = Return "final" ->
     get_snap_release_channel version
     = Return (get_major_version version ++ "/stable")) /\
  (get_version_grade version = Return "rc" ->
     get_snap_release_channel version
     = Return (get_major_version version ++ "/candidate")) /\
  (get_version_grade version = Return "beta" ->
     get_snap_release_channel version
     = Return (get_major_version version ++ "/beta")) /\
  (forall e, get_version_grade version = Raise e ->
     get_snap_release_channel version = Raise e) /\
  (forall channel, get_snap_release_channel version = Return channel ->
     exists grade,
       get_version_grade version = Return grade /\
       (grade = "final" \/ grade = "rc" \/ grade = "beta")).
Proof.
  split; [repeat split|].
  split.
  { intros grade Hf Hr Hb. unfold snap_channel_for.
    destruct (String.eqb_spec grade "final"); [contradiction|].
    destruct (String.eqb_spec grade "rc"); [contradiction|].
    destruct (String.eqb_spec grade "beta"); [contradiction|reflexivity]. }
  unfold get_snap_release_channel. cbv zeta.
  repeat split; try (intros H; rewrite H; reflexivity).
  - intros e H. rewrite H. reflexivity.
  - intros channel H.
    destruct (get_version_grade version) as [grade|e] eqn:Hg; [|discriminate].
    exists grade. split; [reflexivity|]. exact (get_version_grade_range _ _ Hg).
Qed.

Lemma get_snap_release_channel_by_grade_witness :
  snap_channel_for "3.1" "final" = Return "3.1/stable" /\
  snap_channel_for "3.1" "rc" = Return "3.1/candidate" /\
  snap_channel_for "3.1" "beta" = Return "3.1/beta" /\
  snap_channel_for "3.1" "alpha" = Raise (RuntimeError "Unknown version grade: alpha") /\
  get_snap_release_channel "3.1.0-rc1" = Return "3.1/candidate" /\
  get_snap_release_channel "3.1.0-alpha1"
  = Raise (RuntimeError "Unknown version suffix: alpha1").
Proof.
  destruct (get_snap_release_channel_by_grade "3.1.0-rc1" "3.1")
    as [[Hf [Hr Hb]] [Hother [_ [Hrc _]]]].
  destruct (get_snap_release_channel_by_grade "3.1.0-alpha1" "3.1")
    as [_ [_ [_ [_ [_ [Hraise _]]]]]].
  split; [exact Hf|]. split; [exact Hr|]. split; [exact Hb|].
  split; [apply (Hother "alpha"); discriminate|].
  split; [apply Hrc; reflexivity|].
  apply Hraise; reflexivity.
Defined.

(** ** CommitInRemoteBranch *)

(** C8: for the version "3.1.0-beta3" the major version is "3.1", the
    grade "beta", the channel "3.1/beta", and CommitInRemoteBranch looks
    for HEAD in the branch "master" of the official remote, not in
    "3.1": it passes when that branch contains HEAD, and fails naming
    master when only the branch 3.1 does. *)
Theorem release_3_1_0_beta3 (g : Git) (auth : string) :
  let p := new_preparer g "3.1.0-beta3" auth in
  major_version p = "3.1" /\
  get_version_grade (version p) = Return "beta" /\
  get_snap_release_channel (version p) = Return "3.1/beta" /\
  release_branch_name p = "master" /\
  release_branch_name p <> major_version p /\
  (forall remote,
     contains "/" remote = false ->
     get_official_maas_remote g = Return (Some remote) ->
     (git_branch_r_contains g "HEAD" = [remote ++ "/master"] ->
      CommitInRemoteBranch_check g p = Return (true, None)) /\
     (git_branch_r_contains g "HEAD" = [remote ++ "/3.1"] ->
      CommitInRemoteBranch_check g p
      = Return (false, Some ("Current HEAD is not in " ++ remote ++ "/master")))).
Proof.
  cbv zeta. repeat (split; [reflexivity || discriminate|]).
  intros remote Hremote Hofficial.
  unfold CommitInRemoteBranch_check, get_remote_branches_containing.
  rewrite Hofficial. cbn [bind].
  change (release_branch_name (new_preparer g "3.1.0-beta3" auth)) with "master".
  split; intros Hlines; rewrite Hlines; cbn [map];
    change (remote ++ "/master") with (remote ++ String "/" "master");
    change (remote ++ "/3.1") with (remote ++ String "/" "3.1");
    rewrite (split1_first _ _ _ Hremote);
    cbn [in_release_branch unpack2 bind fst snd eq_remote];
    rewrite String.eqb_refl; reflexivity.
Qed.

Lemma release_3_1_0_beta3_witness :
  CommitInRemoteBranch_check
    {| git_rev_parse_short := fun _ => "a1b2c3d";
       git_rev_list_tag := fun _ => EmptyString;
       git_branch_r_contains := fun _ => ["origin" ++ "/master"];
       git_official_remote := Return (Some "origin") |}
    (new_preparer
       {| git_rev_parse_short := fun _ => "a1b2c3d";
          git_rev_list_tag := fun _ => EmptyString;
          git_branch_r_contains := fun _ => ["origin" ++ "/master"];
          git_official_remote := Return (Some "origin") |}
       "3.1.0-beta3" "auth")
  = Return (true, None).
Proof.
  refine (proj1 (proj2 (proj2 (proj2 (proj2 (proj2
    (release_3_1_0_beta3 _ "auth"))))) "origin" _ _) _); reflexivity.
Defined.

(** ** PackageBuilt *)

(** C1: PackageBuilt.check on the list of matching tarballs: no match is
    the failure with its message and exactly one match passes, but more
    than one match raises ValueError from the one-element unpacking
    instead of returning a failed result, as with the two tarballs of
    [sample_glob_two]. *)
Theorem PackageBuilt_check_by_matches (glob : string -> list string) (p : ReleasePreparer) :
  PackageBuilt_check glob p
  = match glob (PackageBuilt_pattern p) with
    | [] => Return (false, Some "No orig.tar.gz could be found for the current revision")
    | [_] => Return (true, None)
    | _ :: _ :: _ => Raise ValueError
    end
  /\ PackageBuilt_pattern (sample_preparer "3.1.0")
     = "build_pkg/maas_3.1.0-*-g.a1b2c3d.orig.tar.gz"
  /\ PackageBuilt_check sample_glob_two (sample_preparer "3.1.0")
     = Raise ValueError.
Proof.
  split; [|split; reflexivity].
  unfold PackageBuilt_check. cbv zeta.
  destruct (glob (PackageBuilt_pattern p)) as [|a [|b l]]; reflexivity.
Qed.

(** ** The runner *)

Lemma run_loop_returns (results : list (string * CheckResult)) :
  forall all_good out,
    run_loop (map step_of results) all_good out
    = (List.app out (flat_map (fun tr => step_report (fst tr) (snd tr)) results),
       Return (all_good && forallb (fun tr => passed (snd tr)) results)).
Proof.
  induction results as [|[t [success message]] rest IH]; intros all_good out.
  - simpl. rewrite List.app_nil_r, andb_true_r. reflexivity.
  - cbn [map step_of run_loop title check fst snd flat_map forallb passed].
    rewrite IH. unfold print, step_report. cbn [fst snd].
    f_equal.
    + rewrite <- !List.app_assoc. cbn [List.app].
      destruct success; reflexivity.
    + destruct success, all_good; reflexivity.
Qed.

(** An exception in a check ends the loop: no later step is reached. *)
Lemma run_loop_raises (before rest : list ReleaseStep) (t : string) (e : exn) :
  Forall (fun s => returns (check s) = true) before ->
  snd (run (List.app before ({| title := t; check := Raise e |} :: rest))) = Raise e.
Proof.
  intros Hb. unfold run.
  assert (H : forall g out,
             snd (run_loop (List.app before ({| title := t; check := Raise e |} :: rest)) g out)
             = Raise e).
  { induction Hb as [|s l Hs _ IH]; intros g out; [reflexivity|].
    cbn [List.app run_loop]. destruct (check s) as [[success message]|e']; [|discriminate].
    apply IH. }
  specialize (H true []).
  destruct (run_loop _ true []) as [out [g|e']]; simpl in H; [discriminate|].
  simpl. injection H as ->. reflexivity.
Qed.

(** C3: when every check of the sequence returns its result, run prints
    the report of every step, in order, whatever the earlier results
    were; it then prints "All checks PASSED!" and returns None when all
    passed, and otherwise returns the non-empty failure summary. *)
Theorem run_reports_every_step (results : list (string * CheckResult)) :
  let all_passed := forallb (fun tr => passed (snd tr)) results in
  fst (run (map step_of results))
  = List.app (flat_map (fun tr => step_report (fst tr) (snd tr)) results)
             (nl :: if all_passed then ["All checks PASSED!" ++ nl] else [])
  /\ snd (run (map step_of results))
     = Return (if all_passed then None
               else Some "Some checks FAILED, proceed with caution")
  /\ "Some checks FAILED, proceed with caution" <> EmptyString.
Proof.
  cbv zeta. unfold run. rewrite run_loop_returns. cbn [andb List.app].
  destruct (forallb _ results); unfold print; cbn [fst snd];
    rewrite <- ?List.app_assoc; (split; [reflexivity | split; [reflexivity | discriminate]]).
Qed.

(** ** SnapTrack and the macaroon errors *)

Section MacaroonErrors.

Variable py_str_other : json -> string.
Variables (snap_name error_message : string).

Lemma scan_other (e : json) (rest : list json) :
  other_error e = true ->
  scan_error_list py_str_other snap_name error_message (e :: rest)
  = scan_error_list py_str_other snap_name error_message rest.
Proof.
  unfold other_error, has_code. destruct e as [| | | |items|members]; try discriminate.
  intros H. apply andb_prop in H as [H1 H2].
  cbn [scan_error_list py_get].
  destruct (lookup "code" members) as [code|]; cbn [bind].
  - apply negb_true_iff in H1, H2. rewrite H1, H2. reflexivity.
  - reflexivity.
Qed.

Lemma scan_refresh (e : json) (rest : list json) :
  has_code e "macaroon-needs-refresh" = true ->
  scan_error_list py_str_other snap_name error_message (e :: rest)
  = Return ("Macaroon has expired." ++ nl ++ get_macaroon_refresh_help).
Proof.
  unfold has_code. destruct e as [| | | |items|members]; try discriminate.
  cbn [scan_error_list py_get].
  destruct (lookup "code" members) as [code|]; [|discriminate].
  cbn [bind]. intros ->. reflexivity.
Qed.

Lemma scan_permission (e permission : json) (rest : list json) :
  has_code e "macaroon-permission-required" = true ->
  permission_of e = Some permission ->
  scan_error_list py_str_other snap_name error_message (e :: rest)
  = Return ("Macaroon doesn't have " ++ fmt_json py_str_other permission
            ++ " for " ++ snap_name ++ "." ++ nl ++ get_macaroon_refresh_help).
Proof.
  unfold has_code, permission_of.
  destruct e as [| | | |items|members]; try discriminate.
  cbn [scan_error_list py_get py_getitem].
  destruct (lookup "code" members) as [code|]; [|discriminate].
  cbn [bind]. intros Hcode.
  assert (Hnot : json_is code "macaroon-needs-refresh" = false).
  { destruct code as [| | |c| |]; try reflexivity. simpl in *.
    apply String.eqb_eq in Hcode. subst c. reflexivity. }
  rewrite Hnot, Hcode.
  destruct (lookup "extra" members) as [[| | | |xs|extra]|]; try discriminate.
  cbn [bind py_getitem]. intros ->. reflexivity.
Qed.

(** Past answerable entries, an expiry entry always gets a message
    that carries the refresh help. *)
Lemma scan_answerable (before : list json) (entry : json) (after : list json) :
  forallb answerable before = true ->
  has_code entry "macaroon-needs-refresh" = true ->
  exists message,
    scan_error_list py_str_other snap_name error_message
      (List.app before (entry :: after)) = Return message /\
    contains get_macaroon_refresh_help message = true.
Proof.
  intros Hbefore Hentry.
  induction before as [|e before IH].
  - cbn [List.app]. rewrite (scan_refresh _ _ Hentry). eexists. split; [reflexivity|].
    do 2 apply contains_skip. apply contains_prefix, prefix_refl.
  - cbn [forallb] in Hbefore. apply andb_prop in Hbefore as [He Hbefore].
    cbn [List.app]. unfold answerable in He.
    apply orb_prop in He as [He|He]; [apply orb_prop in He as [He|He]|].
    + rewrite (scan_other _ _ He). apply IH, Hbefore.
    + rewrite (scan_refresh _ _ He). eexists. split; [reflexivity|].
      do 2 apply contains_skip. apply contains_prefix, prefix_refl.
    + apply andb_prop in He as [Hcode Hperm].
      destruct (permission_of e) as [permission|] eqn:Hp; [|discriminate].
      rewrite (scan_permission _ _ _ Hcode Hp). eexists. split; [reflexivity|].
      do 6 apply contains_skip. apply contains_prefix, prefix_refl.
Qed.

End MacaroonErrors.

Lemma scan_past_others (py_str_other : json -> string) (snap_name error_message : string)
  (before rest : list json) :
  forallb other_error before = true ->
  scan_error_list py_str_other snap_name error_message (List.app before rest)
  = scan_error_list py_str_other snap_name error_message rest.
Proof.
  induction before as [|e before IH]; intros H; [reflexivity|].
  cbn [forallb] in H. apply andb_prop in H as [He Hb].
  cbn [List.app]. rewrite (scan_other _ _ _ _ _ He). apply IH, Hb.
Qed.

(** On a 401 or 403 answer with an object body whose error_list is a
    list, the check fails with the message the loop settles on. *)
Lemma SnapTrack_check_error_list (py_str_other : json -> string) (res : Response)
  (snap_name : string) (members : list (string * json)) (errors : list json) :
  status_code res = 401%Z \/ status_code res = 403%Z ->
  json_body res = Some (JObj members) ->
  lookup "error_list" members = Some (JArr errors) ->
  SnapTrack_check py_str_other res snap_name
  = (message <- scan_error_list py_str_other snap_name (text res) errors ;;
     Return (false, Some message)).
Proof.
  intros Hstatus Hbody Hlist.
  unfold SnapTrack_check, get_macaroon_auth_error, res_json.
  rewrite Hbody. cbn [bind py_get]. rewrite Hlist. cbn [bind py_iter].
  destruct Hstatus as [-> | ->]; cbn [Z.eqb Pos.eqb orb bind];
    destruct (scan_error_list _ _ _ errors); reflexivity.
Qed.

(** C4 (amended): SnapTrack.check passes exactly when the store answers
    200.  On a 403 answer whose error_list has an entry with code
    "macaroon-needs-refresh", the check fails with a message that
    contains the refresh instructions, provided every entry before it is
    an object and any earlier "macaroon-permission-required" entry
    carries extra.permission; the message is "Macaroon has expired."
    with the instructions when no earlier entry has a macaroon code.
    When the first entry with a macaroon code is
    "macaroon-permission-required" with extra.permission, the message
    names that permission and the snap. *)
Theorem SnapTrack_check_macaroon (py_str_other : json -> string) (res : Response)
  (snap_name : string) :
  (status_code res = 200%Z ->
     SnapTrack_check py_str_other res snap_name = Return (true, None)) /\
  (forall message,
     SnapTrack_check py_str_other res snap_name = Return (true, message) ->
     status_code res = 200%Z) /\
  (forall members before entry after,
     status_code res = 403%Z ->
     json_body res = Some (JObj members) ->
     lookup "error_list" members = Some (JArr (List.app before (entry :: after))) ->
     has_code entry "macaroon-needs-refresh" = true ->
     (forallb answerable before = true ->
        exists message,
          SnapTrack_check py_str_other res snap_name = Return (false, Some message) /\
          contains get_macaroon_refresh_help message = true) /\
     (forallb other_error before = true ->
        SnapTrack_check py_str_other res snap_name
        = Return (false, Some ("Macaroon has expired." ++ nl
                               ++ get_macaroon_refresh_help)))) /\
  (forall members before entry after permission,
     status_code res = 403%Z ->
     json_body res = Some (JObj members) ->
     lookup "error_list" members = Some (JArr (List.app before (entry :: after))) ->
     has_code entry "macaroon-permission-required" = true ->
     permission_of entry = Some permission ->
     forallb other_error before = true ->
     SnapTrack_check py_str_other res snap_name
     = Return (false, Some ("Macaroon doesn't have " ++ fmt_json py_str_other permission
                            ++ " for " ++ snap_name ++ "." ++ nl
                            ++ get_macaroon_refresh_help))).
Proof.
  split; [|split; [|split]].
  - intros H. unfold SnapTrack_check, get_macaroon_auth_error. rewrite H. reflexivity.
  - intros message. unfold SnapTrack_check.
    destruct (get_macaroon_auth_error _ _ _) as [auth_error|e]; [|discriminate].
    cbn [bind]. intros [= H _]. apply Z.eqb_eq, H.
  - intros members before entry after Hstatus Hbody Hlist Hentry.
    rewrite (SnapTrack_check_error_list _ _ _ _ _ (or_intror Hstatus) Hbody Hlist).
    split; intros Hbefore.
    + destruct (scan_answerable py_str_other snap_name (text res) _ _ after Hbefore Hentry)
        as [message [Hscan Hhelp]].
      exists message. rewrite Hscan. split; [reflexivity | exact Hhelp].
    + rewrite (scan_past_others _ _ _ _ _ Hbefore), (scan_refresh _ _ _ _ _ Hentry).
      reflexivity.
  - intros members before entry after permission Hstatus Hbody Hlist Hentry Hperm Hbefore.
    rewrite (SnapTrack_check_error_list _ _ _ _ _ (or_intror Hstatus) Hbody Hlist).
    rewrite (scan_past_others _ _ _ _ _ Hbefore),
      (scan_permission _ _ _ _ _ _ Hentry Hperm).
    reflexivity.
Qed.

Lemma SnapTrack_check_macaroon_witness :
  SnapTrack_check sample_str sample_expired "maas"
  = Return (false, Some ("Macaroon has expired." ++ nl ++ get_macaroon_refresh_help)).
Proof.
  refine (proj2 (proj1 (proj2 (proj2 (SnapTrack_check_macaroon sample_str sample_expired "maas")))
                   _ [] _ [] eq_refl eq_refl eq_refl _) eq_refl).
  reflexivity.
Defined.

(** C4 (as stated) fails: the 403 answer [sample_403] has an entry with
    code "macaroon-needs-refresh", yet the check raises KeyError on the
    entry before it and gives no message at all. *)
Lemma SnapTrack_check_refresh_entry_raises :
  status_code sample_403 = 403%Z /\
  (exists members errors,
     json_body sample_403 = Some (JObj members) /\
     lookup "error_list" members = Some (JArr errors) /\
     existsb (fun e => has_code e "macaroon-needs-refresh") errors = true) /\
  SnapTrack_check sample_str sample_403 "maas" = Raise (KeyError "extra").
Proof.
  split; [reflexivity|]. split; [|reflexivity].
  eexists. eexists. split; [reflexivity|]. split; reflexivity.
Qed.

(** ** The command line *)

Lemma parse_word (v : string) :
  startswith v "-" = false ->
  parse_args create_parser [v] = Some {| args_version := v |}.
Proof. intros H. unfold parse_args, create_parser. rewrite H. reflexivity. Qed.

(** With the team maas and the series known, the constructor of a PPA
    step returns. *)
Lemma MAASPPA_new_made (lp : Login) (p : ReleasePreparer) (maas : Person) :
  people_named (lp_people lp) "maas" = Some maas ->
  lp_current_series lp = Return tt ->
  MAASPPA_new lp p "stable"
  = Return {| ppa_type := "stable"; ppa_name := major_version p; ppa_owner := maas |} /\
  MAASPPA_new lp p "candidate"
  = Return {| ppa_type := "candidate"; ppa_name := major_version p ++ "-next";
              ppa_owner := maas |} /\
  MAASPPA_new lp p "release-preparation"
  = Return {| ppa_type := "release-preparation";
              ppa_name := "maas-" ++ major_version p ++ "-next";
              ppa_owner := people_me (lp_people lp) |}.
Proof.
  intros Hmaas Hseries. unfold MAASPPA_new, MAASPPA_init.
  rewrite Hmaas, Hseries. repeat split.
Qed.

(** The sixteen steps, or the error of the channel lookup. *)
Lemma main_steps_built (w : World) (lp : Login) (p : ReleasePreparer) (maas : Person) :
  people_named (lp_people lp) "maas" = Some maas ->
  lp_current_series lp = Return tt ->
  match get_snap_release_channel (version p) with
  | Raise e => main_steps w lp p = Raise e
  | Return channel =>
      exists steps,
        main_steps w lp p = Return steps /\
        map check steps
        = map (world_check w p)
            [ MAASVersion; NoUncommittedChanges; CommitInRemoteBranch; SnapTrack "maas";
              SnapTrack "maas-test-db"; MAASPPA "stable"; MAASPPA "candidate";
              MAASPPA "release-preparation"; PackageBuilt; MAASPackagePublished;
              SnapsUploaded; SnapsInChannel (channel ++ "/release-prep");
              PackagesCopiedFromDeps; PackagesCopiedToReleasePPA "candidate";
              SnapsInChannel channel; ReleaseTagged ]
  end.
Proof.
  intros Hmaas Hseries.
  destruct (MAASPPA_new_made lp p maas Hmaas Hseries) as [Hstable [Hcandidate Hprepared]].
  cbv beta iota zeta delta [main_steps new_step].
  rewrite Hstable, Hcandidate, Hprepared. cbn [bind].
  destruct (get_snap_release_channel (version p)) as [channel|e]; cbn [bind].
  - eexists. split; reflexivity.
  - reflexivity.
Qed.

(** [main] up to the construction of the steps. *)
Lemma main_started (w : World) (v : string) (macaroon : SectionProxy) (auth : string)
  (lp : Login) :
  startswith v "-" = false ->
  world_macaroon w = Some macaroon ->
  macaroon_auth (world_discharge w) macaroon = Return auth ->
  world_login w = Return lp ->
  main w [v]
  = Some match main_steps w lp (new_preparer (world_git w) v auth) with
         | Raise e => uncaught w [] e
         | Return steps => sys_exit w (run steps)
         end.
Proof.
  intros Hword Hmacaroon Hauth Hlogin. unfold main. rewrite (parse_word v Hword).
  unfold main_with. rewrite Hmacaroon, Hauth. cbn [bind]. rewrite Hlogin. reflexivity.
Qed.

(** C5 (amended): the command line takes a single positional argument,
    the version, and no pattern is applied to it: the parser declares no
    conversion and no choices and stores a word that does not start with
    '-' as given.  For such a word, with the macaroon section found,
    macaroon_auth and the Launchpad login returning, and the team maas
    and the series focal known to Launchpad, main builds the sixteen
    steps and runs them exactly when the snap channel of the version can
    be derived; when it cannot, main ends in the uncaught error of the
    channel lookup with no step evaluated.  The channel can be derived
    for every version without a '-'; for a version with one, exactly
    when the text after the first '-' starts with beta or rc, and
    otherwise the error is RuntimeError("Unknown version suffix: ..."). *)
Theorem main_takes_any_version (w : World) (v : string) (macaroon : SectionProxy)
  (auth : string) (lp : Login) (maas : Person)
  (Hword : startswith v "-" = false)
  (Hmacaroon : world_macaroon w = Some macaroon)
  (Hauth : macaroon_auth (world_discharge w) macaroon = Return auth)
  (Hlogin : world_login w = Return lp)
  (Hmaas : people_named (lp_people lp) "maas" = Some maas)
  (Hseries : lp_current_series lp = Return tt) :
  (Forall (fun a => arg_type a = None /\ arg_choices a = None) create_parser /\
   parse_args create_parser [v] = Some {| args_version := v |}) /\
  (forall channel,
     get_snap_release_channel v = Return channel ->
     exists steps,
       map check steps
       = map (world_check w (new_preparer (world_git w) v auth))
           [ MAASVersion; NoUncommittedChanges; CommitInRemoteBranch; SnapTrack "maas";
             SnapTrack "maas-test-db"; MAASPPA "stable"; MAASPPA "candidate";
             MAASPPA "release-preparation"; PackageBuilt; MAASPackagePublished;
             SnapsUploaded; SnapsInChannel (channel ++ "/release-prep");
             PackagesCopiedFromDeps; PackagesCopiedToReleasePPA "candidate";
             SnapsInChannel channel; ReleaseTagged ] /\
       main w [v] = Some (sys_exit w (run steps))) /\
  (forall e,
     get_snap_release_channel v = Raise e ->
     main w [v]
     = Some {| stdout := []; stderr := [world_traceback w e]; exit := Uncaught e |}) /\
  (contains "-" v = false -> returns (get_snap_release_channel v) = true) /\
  (forall pre rest,
     v = pre ++ "-" ++ rest -> contains "-" pre = false ->
     if startswith rest "beta" || startswith rest "rc"
     then returns (get_snap_release_channel v) = true
     else get_snap_release_channel v
          = Raise (RuntimeError ("Unknown version suffix: "
                                 ++ hd EmptyString (split "-" rest)))).
Proof.
  pose proof (main_started w v macaroon auth lp Hword Hmacaroon Hauth Hlogin) as Hmain.
  pose proof (main_steps_built w lp (new_preparer (world_git w) v auth) maas Hmaas Hseries)
    as Hbuilt.
  cbn [version new_preparer] in Hbuilt.
  split; [split; [repeat constructor | exact (parse_word v Hword)]|].
  split; [|split; [|split]].
  - intros channel Hchannel. rewrite Hchannel in Hbuilt.
    destruct Hbuilt as [steps [Hsteps Hchecks]]. exists steps.
    split; [exact Hchecks|]. rewrite Hmain, Hsteps. reflexivity.
  - intros e He. rewrite He in Hbuilt. rewrite Hmain, Hbuilt. reflexivity.
  - intros Hdash. unfold get_snap_release_channel. cbv zeta.
    rewrite (get_version_grade_final _ Hdash). reflexivity.
  - intros pre rest -> Hpre. unfold get_snap_release_channel. cbv zeta.
    change (pre ++ "-" ++ rest) with (pre ++ String "-" rest).
    rewrite (get_version_grade_suffix _ _ Hpre). cbv zeta.
    destruct (startswith rest "beta"); [reflexivity|].
    destruct (startswith rest "rc"); reflexivity.
Qed.

Lemma main_takes_any_version_witness :
  exists steps,
    map check steps
    = map (world_check sample_world
             (new_preparer (world_git sample_world) "3.1.0-beta3"
                "Macaroon root=r, discharge=d"))
        [ MAASVersion; NoUncommittedChanges; CommitInRemoteBranch; SnapTrack "maas";
          SnapTrack "maas-test-db"; MAASPPA "stable"; MAASPPA "candidate";
          MAASPPA "release-preparation"; PackageBuilt; MAASPackagePublished;
          SnapsUploaded; SnapsInChannel ("3.1/beta" ++ "/release-prep");
          PackagesCopiedFromDeps; PackagesCopiedToReleasePPA "candidate";
          SnapsInChannel "3.1/beta"; ReleaseTagged ] /\
    main sample_world ["3.1.0-beta3"] = Some (sys_exit sample_world (run steps)).
Proof.
  refine (proj1 (proj2 (main_takes_any_version sample_world "3.1.0-beta3" sample_macaroon
                          "Macaroon root=r, discharge=d" sample_login (sample_maas BUILD_ARCHS [])
                          eq_refl eq_refl eq_refl eq_refl eq_refl eq_refl))
            "3.1/beta" eq_refl).
Defined.

(** C5 (as stated) fails: "3.1.0-beta3" matches neither the pattern
    <major>.<minor>.<micro>[(a|b|rc)<num>] nor the test of
    release-prepare, and main is not stopped by it: in [sample_world]
    all sixteen steps are evaluated and the process ends with status
    0. *)
Lemma main_runs_unmatched_version :
  cli_pattern "3.1.0-beta3" = false /\
  release_prepare_accepts "3.1.0-beta3" = false /\
  main sample_world ["3.1.0-beta3"]
  = Some {| stdout :=
              List.app
                (flat_map (fun t => [t ++ ": "; check_mark ++ nl])
                   [ "MAAS version set in branch";
                     "No uncommitted changes";
                     "Release commit in remote branch";
                     "maas 3.1 snap track";
                     "maas-test-db 3.1 snap track";
                     "MAAS stable PPA (maas/3.1)";
                     "MAAS candidate PPA (maas/3.1-next)";
                     "MAAS release-preparation PPA (releaser/maas-3.1-next)";
                     "MAAS source package is built";
                     "MAAS package published in (releaser/maas-3.1-next)";
                     "Snaps have been built and uploaded to the store.";
                     "Snaps have been released to 3.1/beta/release-prep";
                     "Packages copied from ppa:maas-committers/latest-deps";
                     "Packages copied to ppa:maas/3.1-next";
                     "Snaps have been released to 3.1/beta";
                     "Release has been tagged" ])
                [nl; "All checks PASSED!" ++ nl];
            stderr := [];
            exit := ExitCode 0 |}.
Proof. repeat split. Qed.

(** ** MAASPackagePublished *)

Lemma split1_nonempty (sep : ascii) (s : string) : split1 sep s <> [].
Proof.
  destruct s as [|a r]; simpl; [discriminate|].
  destruct (Ascii.eqb a sep); [discriminate|].
  destruct (split1 sep r); discriminate.
Qed.

(** A version of fewer than three '-'-separated parts after its epoch:
    the third part is looked up, and missed, only when the first part is
    the expected version. *)
Lemma _check_version_short (p : ReleasePreparer) (package_version : string) :
  (List.length (split "-" (epoch_stripped package_version)) < 3)%nat ->
  _check_version p package_version
  = if String.eqb (hd EmptyString (split "-" (epoch_stripped package_version)))
                  (replace "-" "~" (version p))
    then Raise IndexError
    else Return false.
Proof.
  unfold _check_version, epoch_stripped. cbv zeta.
  destruct (contains ":" package_version);
    [rewrite (index_last _ EmptyString (split1_nonempty _ _))|];
    cbn [bind];
    match goal with
    | |- (List.length (split "-" ?b) < 3)%nat -> _ =>
        intros Hlen; pose proof (split_nonempty "-" b) as Hne;
        destruct (split "-" b) as [|part0 parts]; [now elim Hne|]
    end;
    rewrite index_nonneg by lia; change (Z.to_nat 0) with 0%nat;
    cbn [nth_error bind hd];
    (destruct (String.eqb part0 (replace "-" "~" (version p))); cbn [negb]; [|reflexivity]);
    rewrite index_nonneg by lia; change (Z.to_nat 2) with 2%nat;
    (assert (Hnone : nth_error (part0 :: parts) 2 = None)
      by (apply nth_error_None; simpl in *; lia));
    rewrite Hnone; reflexivity.
Qed.

(** C9 (amended): with more than one published maas source package,
    MAASPackagePublished.check raises ValueError from the one-element
    unpacking instead of returning a result.  With a single package whose
    version, its epoch dropped, has fewer than three '-'-separated parts,
    the version comparison raises IndexError when the first part is the
    expected version, and the check raises with it; when the first part
    differs the comparison returns False and the check returns its
    failure. *)
Theorem MAASPackagePublished_check_raises (lp : Launchpad) (p : ReleasePreparer)
  (ppa : PPA)
  (Hppa : getPPAByName lp (release_preparation_ppa_name p) = Some ppa) :
  (forall s1 s2 more,
     getPublishedSources ppa = s1 :: s2 :: more ->
     MAASPackagePublished_check lp p
     = Raise ValueError) /\
  (forall package,
     getPublishedSources ppa = [package] ->
     let version_parts := split "-" (epoch_stripped (source_package_version package)) in
     (List.length version_parts < 3)%nat ->
     (hd EmptyString version_parts = replace "-" "~" (version p) ->
      _check_version p (source_package_version package)
      = Raise IndexError /\
      MAASPackagePublished_check lp p
      = Raise IndexError) /\
     (hd EmptyString version_parts <> replace "-" "~" (version p) ->
      _check_version p (source_package_version package) = Return false /\
      MAASPackagePublished_check lp p
      = Return (false, Some ("Currently published source version is "
                             ++ source_package_version package
                             ++ ". Expected " ++ replace "-" "~" (version p))))).
Proof.
  split.
  - intros s1 s2 more Hsources. unfold MAASPackagePublished_check. cbv zeta.
    rewrite Hppa, Hsources. reflexivity.
  - intros package Hsources version_parts Hlen. subst version_parts.
    pose proof (_check_version_short p _ Hlen) as Hcheck.
    unfold MAASPackagePublished_check. cbv zeta. rewrite Hppa, Hsources.
    cbn [unpack1 bind]. rewrite Hcheck.
    split; intros Hfirst.
    + rewrite Hfirst, String.eqb_refl. split; reflexivity.
    + apply String.eqb_neq in Hfirst. rewrite Hfirst. split; reflexivity.
Qed.

Lemma MAASPackagePublished_check_raises_witness :
  MAASPackagePublished_check (sample_launchpad ["1:3.1.0-1"; "1:3.1.0-2"])
    (sample_preparer "3.1.0")
  = Raise ValueError /\
  MAASPackagePublished_check (sample_launchpad ["1:3.1.0-1"]) (sample_preparer "3.1.0")
  = Raise IndexError.
Proof.
  split.
  - refine (proj1 (MAASPackagePublished_check_raises
                     (sample_launchpad ["1:3.1.0-1"; "1:3.1.0-2"]) (sample_preparer "3.1.0")
                     _ eq_refl) _ _ _ eq_refl).
  - refine (proj2 (proj1 (proj2 (MAASPackagePublished_check_raises
                     (sample_launchpad ["1:3.1.0-1"]) (sample_preparer "3.1.0")
                     _ eq_refl) _ eq_refl _) eq_refl)).
    simpl. lia.
Defined.

(** C9 (as stated) fails in its second part: the published version
    "1:2.9.0-0ubuntu1" has two '-'-separated parts, and against the
    expected "3.1.0" the comparison returns False without raising; the
    check returns its failure. *)
Lemma check_version_short_returns :
  split "-" (epoch_stripped "1:2.9.0-0ubuntu1") = ["2.9.0"; "0ubuntu1"] /\
  _check_version (sample_preparer "3.1.0") "1:2.9.0-0ubuntu1" = Return false /\
  MAASPackagePublished_check (sample_launchpad ["1:2.9.0-0ubuntu1"])
    (sample_preparer "3.1.0")
  = Return (false,
            Some "Currently published source version is 1:2.9.0-0ubuntu1. Expected 3.1.0").
Proof. repeat split. Qed.

(** ** ReleaseTagged *)

(** C10 (amended): when the tag-commit lookup, the short-revision lookup
    of the tag name and that of the empty string all give the empty
    string, ReleaseTagged.check returns the failure "The <tag> isn't an
    annotated tag".  The branch returning "Release hasn't been tagged
    yet." is reachable: it is taken exactly when the short revision of
    the tag's commit is empty while the short-revision lookup of the tag
    name is not. *)
Theorem ReleaseTagged_check_untagged (g : Git) (p : ReleasePreparer) :
  let tag_name := version p in
  let tagged_revision := get_git_short_rev g (get_tag_commit g tag_name) in
  (get_tag_commit g tag_name = EmptyString ->
   get_git_short_rev g EmptyString = EmptyString ->
   get_git_short_rev g tag_name = EmptyString ->
   ReleaseTagged_check g p
   = Return (false, Some ("The " ++ tag_name ++ " isn't an annotated tag"))) /\
  (tagged_revision = EmptyString ->
   get_git_short_rev g tag_name <> EmptyString ->
   ReleaseTagged_check g p = Return (false, Some "Release hasn't been tagged yet.")) /\
  (ReleaseTagged_check g p = Return (false, Some "Release hasn't been tagged yet.") ->
   tagged_revision = EmptyString /\ get_git_short_rev g tag_name <> EmptyString).
Proof.
  cbv zeta. unfold ReleaseTagged_check. cbv zeta. split; [|split].
  - intros Hcommit Hempty Hname. rewrite Hcommit, Hempty, Hname. reflexivity.
  - intros Htagged Hname. rewrite Htagged.
    apply not_eq_sym, String.eqb_neq in Hname. rewrite Hname. reflexivity.
  - destruct (String.eqb_spec (get_git_short_rev g (get_tag_commit g (version p)))
                (get_git_short_rev g (version p))) as [_|Hdiff];
      [discriminate|].
    destruct (String.eqb_spec (get_git_short_rev g (get_tag_commit g (version p)))
                EmptyString) as [Hempty|_].
    + intros _. split; [exact Hempty|]. rewrite Hempty in Hdiff. congruence.
    + destruct (negb _).
      * intros [= H].
        assert (Hc : contains " points to " "Release hasn't been tagged yet." = true).
        { rewrite <- H.
          exact (contains_app " points to " (version p)
                   (get_git_short_rev g (get_tag_commit g (version p))
                    ++ " instead of " ++ git_short_rev p)). }
        discriminate Hc.
      * destruct (get_official_maas_remote g) as [official|e]; [|discriminate].
        cbn [bind]. destruct (remotes_of _) as [remotes|e]; [|discriminate].
        cbn [bind]. destruct (negb _); [|discriminate].
        intros [= H].
        assert (Hc : contains " tag is not pushed to " "Release hasn't been tagged yet."
                     = true).
        { rewrite <- H.
          exact (contains_app " tag is not pushed to " (version p) (fmt_opt official)). }
        discriminate Hc.
Qed.

Lemma ReleaseTagged_check_untagged_witness :
  ReleaseTagged_check sample_git (sample_preparer "3.1.0")
  = Return (false, Some ("The " ++ "3.1.0" ++ " isn't an annotated tag"))
  /\ ReleaseTagged_check sample_branch_git (new_preparer sample_branch_git "3.1.0" "auth")
     = Return (false, Some "Release hasn't been tagged yet.").
Proof.
  split.
  - refine (proj1 (ReleaseTagged_check_untagged sample_git (sample_preparer "3.1.0")) _ _ _);
      reflexivity.
  - refine (proj1 (proj2 (ReleaseTagged_check_untagged sample_branch_git
                            (new_preparer sample_branch_git "3.1.0" "auth"))) _ _);
      [reflexivity | discriminate].
Defined.

(** C10 (as stated) fails: in [sample_branch_git] the release 3.1.0 has
    no tag, so the tag-commit lookup and the short revision of its empty
    answer are empty; but the name 3.1.0 is a branch, its short revision
    is not empty, and the check reaches and answers "Release hasn't been
    tagged yet.", not the annotated-tag failure. *)
Lemma ReleaseTagged_check_reaches_untagged :
  get_tag_commit sample_branch_git "3.1.0" = EmptyString /\
  get_git_short_rev sample_branch_git (get_tag_commit sample_branch_git "3.1.0")
  = EmptyString /\
  get_git_short_rev sample_branch_git "3.1.0" = "b2c3d4e" /\
  ReleaseTagged_check sample_branch_git (new_preparer sample_branch_git "3.1.0" "auth")
  = Return (false, Some "Release hasn't been tagged yet.") /\
  ReleaseTagged_check sample_branch_git (new_preparer sample_branch_git "3.1.0" "auth")
  <> Return (false, Some ("The " ++ "3.1.0" ++ " isn't an annotated tag")).
Proof. repeat split. discriminate. Qed.

(** * Further properties *)

(** ** Searching and replacing *)

Lemma contains_char_app (c : ascii) (x y : string) :
  contains (String c EmptyString) (x ++ y)
  = contains (String c EmptyString) x || contains (String c EmptyString) y.
Proof.
  induction x as [|a x IH].
  - cbn [append]. rewrite contains_char_nil. reflexivity.
  - cbn [append]. rewrite !contains_char_cons, IH, orb_assoc. reflexivity.
Qed.

Lemma all_chars_absent (p : ascii -> bool) (c : ascii) (s : string) :
  all_chars p s = true -> p c = false ->
  contains (String c EmptyString) s = false.
Proof.
  intros Hs Hc. induction s as [|a r IH]; [reflexivity|].
  cbn [all_chars] in Hs. apply andb_prop in Hs as [Ha Hr].
  rewrite contains_char_cons, (IH Hr), orb_false_r.
  destruct (Ascii.eqb_spec a c) as [->|_]; [congruence | reflexivity].
Qed.

Lemma all_chars_app (p : ascii -> bool) (x y : string) :
  all_chars p (x ++ y) = all_chars p x && all_chars p y.
Proof.
  induction x as [|a x IH]; [reflexivity|].
  cbn [append all_chars]. rewrite IH, andb_assoc. reflexivity.
Qed.

Lemma prefix_absent (c : ascii) (rest s : string) :
  contains (String c EmptyString) s = false ->
  String.prefix (String c rest) s = false.
Proof.
  destruct s as [|a r]; [reflexivity|].
  rewrite contains_char_cons. intros H. apply orb_false_elim in H as [Ha _].
  cbn [String.prefix]. destruct (ascii_dec c a) as [->|_]; [|reflexivity].
  rewrite Ascii.eqb_refl in Ha. discriminate.
Qed.

Lemma prefix_other (c a : ascii) (rest r : string) :
  Ascii.eqb a c = false -> String.prefix (String c rest) (String a r) = false.
Proof.
  intros Ha. cbn [String.prefix]. destruct (ascii_dec c a) as [->|_]; [|reflexivity].
  rewrite Ascii.eqb_refl in Ha. discriminate.
Qed.

Lemma drop_app (a b : string) : drop (String.length a) (a ++ b) = b.
Proof. induction a as [|c a IH]; [now destruct b | exact IH]. Qed.

(** Without the first character of the pattern, sed substitutes
    nothing. *)
Lemma sed_s_absent (c : ascii) (rest repl s : string) :
  contains (String c EmptyString) s = false ->
  sed_s (String c rest) repl s = None.
Proof.
  induction s as [|a r IH]; [reflexivity|].
  rewrite contains_char_cons. intros H. apply orb_false_elim in H as [Ha Hr].
  cbn [sed_s]. rewrite (prefix_other _ _ _ _ Ha), (IH Hr). reflexivity.
Qed.

(** The first occurrence is the one replaced. *)
Lemma sed_s_first (c : ascii) (rest repl pre post : string) :
  contains (String c EmptyString) pre = false ->
  sed_s (String c rest) repl (pre ++ String c rest ++ post)
  = Some (pre ++ repl ++ post).
Proof.
  induction pre as [|a pre IH]; intros H.
  - cbn [append]. change (String c (rest ++ post)) with (String c rest ++ post).
    destruct (String c rest ++ post) eqn:E; [discriminate|]. rewrite <- E.
    unfold sed_s at 1. rewrite E at 1. fold sed_s. rewrite <- E.
    rewrite prefix_app, drop_app. destruct s; reflexivity.
  - rewrite contains_char_cons in H. apply orb_false_elim in H as [Ha Hpre].
    cbn [append sed_s]. rewrite (prefix_other _ _ _ _ Ha).
    cbn [append] in IH. rewrite (IH Hpre). reflexivity.
Qed.

Lemma replace_from_skip (old new t post : string) :
  replace_from (String.length t) old new (t ++ post) = replace_from O old new post.
Proof. induction t as [|a t IH]; [reflexivity | exact IH]. Qed.

(** Without the first character of [old], [replace] changes nothing. *)
Lemma replace_absent (c : ascii) (rest new s : string) :
  contains (String c EmptyString) s = false ->
  replace (String c rest) new s = s.
Proof.
  unfold replace. induction s as [|a r IH]; [reflexivity|].
  rewrite contains_char_cons. intros H. apply orb_false_elim in H as [Ha Hr].
  cbn [replace_from]. rewrite (prefix_other _ _ _ _ Ha), (IH Hr). reflexivity.
Qed.

(** Where the first character of [old] occurs once and [old] does not
    start there, [replace] changes nothing. *)
Lemma replace_miss (c : ascii) (rest new pre tail : string) :
  contains (String c EmptyString) pre = false ->
  String.prefix (String c rest) (String c tail) = false ->
  contains (String c EmptyString) tail = false ->
  replace (String c rest) new (pre ++ String c tail) = pre ++ String c tail.
Proof.
  intros Hpre Hmiss Htail. unfold replace.
  induction pre as [|a pre IH].
  - cbn [append]. unfold replace_from at 1. fold replace_from. rewrite Hmiss.
    pose proof (replace_absent c rest new tail Htail) as Habs. unfold replace in Habs.
    rewrite Habs. reflexivity.
  - rewrite contains_char_cons in Hpre. apply orb_false_elim in Hpre as [Ha Hpre].
    cbn [append replace_from]. rewrite (prefix_other _ _ _ _ Ha), (IH Hpre). reflexivity.
Qed.

(** A single occurrence, with the first character of [old] nowhere
    else, is replaced in place. *)
Lemma replace_once (c : ascii) (rest new pre post : string) :
  contains (String c EmptyString) pre = false ->
  contains (String c EmptyString) post = false ->
  replace (String c rest) new (pre ++ String c rest ++ post) = pre ++ new ++ post.
Proof.
  intros Hpre Hpost. unfold replace.
  induction pre as [|a pre IH].
  - cbn [append replace_from].
    change (String c (rest ++ post)) with (String c rest ++ post).
    rewrite prefix_app.
    replace (String.length (String c rest) - 1)%nat with (String.length rest)
      by (cbn [String.length]; lia).
    rewrite replace_from_skip.
    pose proof (replace_absent c rest new post Hpost) as Habs. unfold replace in Habs.
    rewrite Habs. reflexivity.
  - rewrite contains_char_cons in Hpre. apply orb_false_elim in Hpre as [Ha Hpre].
    cbn [append replace_from]. rewrite (prefix_other _ _ _ _ Ha).
    cbn [append] in IH. rewrite (IH Hpre). reflexivity.
Qed.

Lemma absent_app (c : ascii) (x y : string) :
  contains (String c EmptyString) x = false ->
  contains (String c EmptyString) y = false ->
  contains (String c EmptyString) (x ++ y) = false.
Proof. intros Hx Hy. rewrite contains_char_app, Hx, Hy. reflexivity. Qed.

Lemma absent_cons (c a : ascii) (r : string) :
  Ascii.eqb a c = false ->
  contains (String c EmptyString) r = false ->
  contains (String c EmptyString) (String a r) = false.
Proof. intros Ha Hr. rewrite contains_char_cons, Ha, Hr. reflexivity. Qed.

(** A pattern whose first character is absent does not occur. *)
Lemma contains_absent (c : ascii) (rest s : string) :
  contains (String c EmptyString) s = false ->
  contains (String c rest) s = false.
Proof.
  induction s as [|a r IH]; [reflexivity|].
  intros H. pose proof (prefix_absent c rest _ H) as Hp.
  rewrite contains_char_cons in H. apply orb_false_elim in H as [_ Hr].
  cbn [contains]. rewrite Hp, (IH Hr). reflexivity.
Qed.

Local Ltac absent :=
  cbn [append];
  repeat first
    [ reflexivity
    | apply absent_cons
    | apply absent_app
    | (eapply all_chars_absent; [eassumption | reflexivity]) ].

(** ** The version pattern and the version forms of release-prepare *)

Lemma take_skip (p : ascii -> bool) (s : string) :
  s = take_while p s ++ skip_while p s.
Proof.
  induction s as [|c r IH]; [reflexivity|].
  cbn [take_while skip_while]. destruct (p c); [|reflexivity].
  cbn [append]. f_equal. exact IH.
Qed.

Lemma all_chars_take (p : ascii -> bool) (s : string) :
  all_chars p (take_while p s) = true.
Proof.
  induction s as [|c r IH]; [reflexivity|].
  cbn [take_while]. destruct (p c) eqn:Hc; [|reflexivity].
  cbn [all_chars]. rewrite Hc, IH. reflexivity.
Qed.

Lemma many1_shape (p : ascii -> bool) (s rest : string) :
  many1 p s = Some rest ->
  exists run, s = run ++ rest /\ all_chars p run = true /\ run <> EmptyString.
Proof.
  destruct s as [|c r]; [discriminate|]. cbn [many1].
  destruct (p c) eqn:Hc; [|discriminate]. intros [= <-].
  exists (String c (take_while p r)). cbn [append all_chars].
  rewrite Hc, all_chars_take, <- take_skip. repeat split. discriminate.
Qed.

Lemma all_chars_weaken (p q : ascii -> bool) (s : string) :
  (forall c, p c = true -> q c = true) ->
  all_chars p s = true -> all_chars q s = true.
Proof.
  intros Hpq. induction s as [|c r IH]; [reflexivity|].
  cbn [all_chars]. intros H. apply andb_prop in H as [Hc Hr].
  rewrite (Hpq _ Hc), (IH Hr). reflexivity.
Qed.

(** What [(a|b|rc)[0-9]+$] matches. *)
Lemma qualifier_shape (q : string) :
  qualifier q = true ->
  exists d,
    all_chars is_digit d = true /\ d <> EmptyString /\
    (q = "a" ++ d \/ q = "b" ++ d \/ q = "rc" ++ d).
Proof.
  assert (Hdigits : forall r,
             match many1 is_digit r with Some EmptyString => true | _ => false end = true ->
             all_chars is_digit r = true /\ r <> EmptyString).
  { intros r H. destruct (many1 is_digit r) as [[|x y]|] eqn:E; try discriminate.
    destruct (many1_shape _ _ _ E) as [run [-> [Hrun Hne]]].
    rewrite app_nil_r. split; assumption. }
  destruct q as [|c r]; [discriminate|]. intros H.
  unfold qualifier in H.
  destruct c as [[] [] [] [] [] [] [] []]; cbv beta iota in H; try discriminate H;
    first
      [ solve [exists r; destruct (Hdigits _ H); auto]
      | destruct r as [|c r]; [discriminate H|];
        destruct c as [[] [] [] [] [] [] [] []]; cbv beta iota in H; try discriminate H;
        exists r; destruct (Hdigits _ H); auto ].
Qed.

(** What the version pattern matches: three runs of digits between
    dots, then nothing or a qualifier. *)
Lemma version_pattern_shape (major_digit : ascii -> bool) (v : string) :
  (forall c, major_digit c = true -> is_digit c = true) ->
  version_pattern major_digit v = true ->
  exists major minor micro q,
    v = (major ++ String "." (minor ++ String "." micro)) ++ q /\
    major <> EmptyString /\
    all_chars is_digit major = true /\
    all_chars is_digit minor = true /\
    all_chars is_digit micro = true /\
    (q = EmptyString \/
     exists d, all_chars is_digit d = true /\ d <> EmptyString /\
               (q = "a" ++ d \/ q = "b" ++ d \/ q = "rc" ++ d)).
Proof.
  intros Hmajor. unfold version_pattern.
  destruct (many1 major_digit v) as [r1|] eqn:E1; [|discriminate].
  destruct r1 as [|c1 r1]; [discriminate|].
  destruct c1 as [[] [] [] [] [] [] [] []]; cbv beta iota; try discriminate.
  destruct (many1 is_digit r1) as [r2|] eqn:E2; [|discriminate].
  destruct r2 as [|c2 r2]; [discriminate|].
  destruct c2 as [[] [] [] [] [] [] [] []]; cbv beta iota; try discriminate.
  destruct (many1 is_digit r2) as [r3|] eqn:E3; [|discriminate].
  destruct (many1_shape _ _ _ E1) as [major [-> [Hma Hne]]].
  destruct (many1_shape _ _ _ E2) as [minor [-> [Hmi _]]].
  destruct (many1_shape _ _ _ E3) as [micro [-> [Hmc _]]].
  intros Hq. exists major, minor, micro, r3.
  split; [|split; [exact Hne|split; [exact (all_chars_weaken _ _ _ Hmajor Hma)|
                                     split; [exact Hmi|split; [exact Hmc|]]]]].
  - change (String (Ascii false true true true false true false false))
      with (String ".").
    rewrite !app_assoc. cbn [append]. rewrite !app_assoc. reflexivity.
  - destruct r3 as [|x y]; [left; reflexivity|]. right. apply qualifier_shape, Hq.
Qed.

Lemma digit_is_digit_or_dot (s : string) :
  all_chars is_digit s = true -> all_chars digit_or_dot s = true.
Proof.
  apply all_chars_weaken. intros c Hc. unfold digit_or_dot. rewrite Hc. reflexivity.
Qed.

Lemma body_digit_or_dot (major minor micro : string) :
  all_chars is_digit major = true ->
  all_chars is_digit minor = true ->
  all_chars is_digit micro = true ->
  all_chars digit_or_dot (major ++ String "." (minor ++ String "." micro)) = true.
Proof.
  intros H1 H2 H3. rewrite all_chars_app. cbn [all_chars]. rewrite all_chars_app.
  cbn [all_chars].
  rewrite (digit_is_digit_or_dot _ H1), (digit_is_digit_or_dot _ H2),
    (digit_is_digit_or_dot _ H3).
  reflexivity.
Qed.

Lemma sed_qualifier_cases (a b rc body d : string) :
  all_chars digit_or_dot body = true ->
  all_chars is_digit d = true ->
  sed_qualifier a b rc body = body /\
  sed_qualifier a b rc (body ++ "a" ++ d) = body ++ a ++ d /\
  sed_qualifier a b rc (body ++ "b" ++ d) = body ++ b ++ d /\
  sed_qualifier a b rc (body ++ "rc" ++ d) = body ++ rc ++ d.
Proof.
  intros Hbody Hd. unfold sed_qualifier. repeat split.
  - rewrite !sed_s_absent by absent. reflexivity.
  - rewrite (sed_s_first "a" EmptyString a body d) by absent. reflexivity.
  - rewrite (sed_s_absent "a") by absent.
    rewrite (sed_s_first "b" EmptyString b body d) by absent. reflexivity.
  - rewrite (sed_s_absent "a"), (sed_s_absent "b") by absent.
    rewrite (sed_s_first "r" "c" rc body d) by absent. reflexivity.
Qed.

(** X1: the sed script shared by [deb_version], [verbose_version] and
    [tag_version], on the four forms a valid version takes: a version
    made of digits and dots is left alone, and the one qualifier letter
    after it is replaced by its long form. *)
Theorem sed_qualifier_forms (a b rc body d : string)
  (Hbody : all_chars digit_or_dot body = true)
  (Hd : all_chars is_digit d = true) :
  sed_qualifier a b rc body = body /\
  sed_qualifier a b rc (body ++ "a" ++ d) = body ++ a ++ d /\
  sed_qualifier a b rc (body ++ "b" ++ d) = body ++ b ++ d /\
  sed_qualifier a b rc (body ++ "rc" ++ d) = body ++ rc ++ d.
Proof. exact (sed_qualifier_cases a b rc body d Hbody Hd). Qed.

Lemma sed_qualifier_forms_witness :
  tag_version "3.1.0" = "3.1.0" /\
  tag_version ("3.1.0" ++ "a" ++ "1") = "3.1.0" ++ "-alpha" ++ "1" /\
  deb_version "1" ("3.1.0" ++ "b" ++ "3") = "1:3.1.0~beta3-0ubuntu1" /\
  verbose_version ("3.1.0" ++ "rc" ++ "2") = "3.1.0" ++ " RC" ++ "2".
Proof.
  split; [exact (proj1 (sed_qualifier_forms "-alpha" "-beta" "-rc" "3.1.0" "1"
                          eq_refl eq_refl))|].
  split; [exact (proj1 (proj2 (sed_qualifier_forms "-alpha" "-beta" "-rc" "3.1.0" "1"
                                 eq_refl eq_refl)))|].
  split; [reflexivity|].
  exact (proj2 (proj2 (proj2 (sed_qualifier_forms " alpha" " beta" " RC" "3.1.0" "2"
                               eq_refl eq_refl)))).
Defined.

Lemma accepted_forms (v : string) :
  version_pattern is_digit_2_9 v = true -> accepted_form v.
Proof.
  intros Hv.
  assert (Hmajor : forall c, is_digit_2_9 c = true -> is_digit c = true).
  { intros c. unfold is_digit_2_9, is_digit. intros H. apply andb_prop in H as [H1 H2].
    apply Nat.leb_le in H1. rewrite H2, andb_true_r. apply Nat.leb_le. lia. }
  destruct (version_pattern_shape _ _ Hmajor Hv)
    as [major [minor [micro [q [E [Hne1 [H1 [H2 [H3 Hq]]]]]]]]].
  pose proof (body_digit_or_dot _ _ _ H1 H2 H3) as Hbody.
  apply (accepted_form_intro v major minor micro q H1 Hne1 H2 H3 E).
  destruct Hq as [-> | [d [Hd [Hne Hq]]]].
  - left. split; [reflexivity|]. intros a b rc. subst v. rewrite app_nil_r.
    exact (proj1 (sed_qualifier_cases a b rc _ EmptyString Hbody eq_refl)).
  - right. exists d. split; [exact Hd|]. split; [exact Hne|].
    destruct Hq as [-> | [-> | ->]]; [left | right; left | right; right];
      (split; [reflexivity|]); intros a b rc; subst v;
      destruct (sed_qualifier_cases a b rc _ _ Hbody Hd) as [_ [Ha [Hb Hrc]]];
      assumption.
Qed.

Ltac accepted_shapes Hv :=
  let major := fresh "major" in
  let minor := fresh "minor" in
  let micro := fresh "micro" in
  let q := fresh "q" in
  let d := fresh "d" in
  let Hbody := fresh "Hbody" in
  let Hsed := fresh "Hsed" in
  destruct (accepted_forms _ Hv)
    as [major minor micro q Hmajor Hfirst Hminor Hmicro Ev
          [[-> Hsed] | [d [Hd [Hne [[-> Hsed] | [[-> Hsed] | [-> Hsed]]]]]]]];
  pose proof (body_digit_or_dot _ _ _ Hmajor Hminor Hmicro) as Hbody;
  rewrite ?Hsed; clear Hsed; subst.

(** *** One line through the shell *)

Lemma capture_line (s : string) :
  contains nl s = false -> capture (s ++ nl) = s.
Proof.
  unfold nl. induction s as [|c r IH]; intros H; [reflexivity|].
  rewrite contains_char_cons in H. apply orb_false_elim in H as [Hc Hr].
  cbn [append capture]. rewrite (IH Hr), Hc. destruct r; reflexivity.
Qed.

Lemma split_line (v : string) :
  contains nl v = false -> split "010" (v ++ nl) = [v; EmptyString].
Proof. intros H. unfold nl in *. rewrite (split_first _ _ _ H). reflexivity. Qed.

Lemma sed_line (script : string -> string) (v : string) :
  contains nl v = false -> sed script (v ++ nl) = script v ++ nl.
Proof. intros H. unfold sed. rewrite (split_line v H). reflexivity. Qed.

Lemma cut_line (v : string) :
  contains nl v = false -> cut (v ++ nl) = cut_fields v ++ nl.
Proof. intros H. unfold cut, lines. rewrite (split_line v H). reflexivity. Qed.

Lemma grep_line (pattern : string -> bool) (v : string) :
  contains nl v = false -> grep_q pattern (v ++ nl) = pattern v.
Proof.
  intros H. unfold grep_q, lines. rewrite (split_line v H).
  cbn [removelast last String.eqb List.app existsb]. apply orb_false_r.
Qed.

(** echo prints a word that starts with a digit. *)
Lemma echo_digit (c : ascii) (r : string) :
  is_digit c = true -> echo (String c r) = String c r ++ nl.
Proof.
  intros H. unfold echo.
  destruct c as [[] [] [] [] [] [] [] []]; try reflexivity.
  vm_compute in H. discriminate H.
Qed.

(** echo prints a word that ends like a Debian version. *)
Lemma echo_revision (x : string) :
  echo (x ++ "-0ubuntu1") = (x ++ "-0ubuntu1") ++ nl.
Proof.
  unfold echo. destruct x as [|c x]; [reflexivity|]. cbn [append].
  destruct c as [[] [] [] [] [] [] [] []]; try reflexivity.
  destruct x as [|c x]; [reflexivity|]. cbn [append].
  replace (all_chars is_echo_flag (String c (x ++ "-0ubuntu1"))) with false; [reflexivity|].
  change (String c (x ++ "-0ubuntu1")) with (String c x ++ "-0ubuntu1").
  rewrite all_chars_app. symmetry. apply andb_false_r.
Qed.

(** What echo makes of a word. *)
Lemma echo_cases (v : string) :
  echo v = v ++ nl \/ echo v = EmptyString \/ echo v = nl.
Proof.
  unfold echo. destruct v as [|c r]; [left; reflexivity|].
  destruct c as [[] [] [] [] [] [] [] []]; try (left; reflexivity).
  destruct r as [|c r]; [left; reflexivity|].
  destruct (all_chars is_echo_flag (String c r)); [|left; reflexivity].
  destruct (contains "n" (String c r)); auto.
Qed.

(** On a one-line version, release-prepare's test is the pattern. *)
Lemma accepts_line (v : string) :
  contains nl v = false ->
  release_prepare_accepts v = true ->
  version_pattern is_digit_2_9 v = true.
Proof.
  intros Hline H. unfold release_prepare_accepts in H.
  apply andb_prop in H as [_ H].
  destruct (echo_cases v) as [E | [E | E]]; rewrite E in H.
  - rewrite (grep_line _ v Hline) in H. exact H.
  - discriminate H.
  - discriminate H.
Qed.

(** A line the pattern matches comes out of echo as it is. *)
Lemma pattern_line (v : string) :
  version_pattern is_digit_2_9 v = true ->
  echo v = v ++ nl /\ contains nl v = false.
Proof.
  intros Hv. split.
  - destruct (accepted_forms _ Hv) as [major minor micro q Hmajor Hfirst _ _ -> _].
    destruct major as [|c major]; [now elim Hfirst|].
    cbn [all_chars] in Hmajor. apply andb_prop in Hmajor as [Hc _].
    cbn [append]. apply echo_digit, Hc.
  - unfold nl. accepted_shapes Hv; absent.
Qed.

Lemma accepts_pattern (v : string) :
  version_pattern is_digit_2_9 v = true -> release_prepare_accepts v = true.
Proof.
  intros Hv. destruct (pattern_line v Hv) as [Hecho Hline].
  unfold release_prepare_accepts. rewrite Hecho, (grep_line _ v Hline), Hv.
  destruct v; [discriminate Hv | reflexivity].
Qed.

(** The sed script leaves such a line a line. *)
Lemma sed_qualifier_line (a b rc v : string) :
  version_pattern is_digit_2_9 v = true ->
  contains nl a = false -> contains nl b = false -> contains nl rc = false ->
  contains nl (sed_qualifier a b rc v) = false.
Proof.
  intros Hv Ha Hb Hrc. unfold nl in *.
  destruct (accepted_forms _ Hv)
    as [major minor micro q Hmajor Hfirst Hminor Hmicro Ev
          [[-> Hsed] | [d [Hd [Hne [[-> Hsed] | [[-> Hsed] | [-> Hsed]]]]]]]];
    pose proof (body_digit_or_dot _ _ _ Hmajor Hminor Hmicro) as Hbody;
    rewrite Hsed; repeat (apply absent_app; [|try assumption]); try assumption; absent.
Qed.

Lemma sed_pipeline_line (a b rc v : string) :
  version_pattern is_digit_2_9 v = true ->
  contains nl a = false -> contains nl b = false -> contains nl rc = false ->
  capture (sed (sed_qualifier a b rc) (echo v)) = sed_qualifier a b rc v.
Proof.
  intros Hv Ha Hb Hrc. destruct (pattern_line v Hv) as [Hecho Hline].
  rewrite Hecho, (sed_line _ v Hline). apply capture_line.
  apply sed_qualifier_line; assumption.
Qed.

Lemma tag_version_line (v : string) :
  version_pattern is_digit_2_9 v = true ->
  tag_version v = sed_qualifier "-alpha" "-beta" "-rc" v.
Proof. intros Hv. apply sed_pipeline_line; [exact Hv | reflexivity..]. Qed.

Lemma deb_version_line (epoch v : string) :
  version_pattern is_digit_2_9 v = true ->
  contains nl epoch = false ->
  deb_version epoch v
  = if negb (String.eqb epoch EmptyString)
    then epoch ++ ":" ++ sed_qualifier "~alpha" "~beta" "~rc" v ++ "-0ubuntu1"
    else sed_qualifier "~alpha" "~beta" "~rc" v ++ "-0ubuntu1".
Proof.
  intros Hv Hepoch. unfold deb_version. cbv zeta.
  rewrite (sed_pipeline_line _ _ _ v Hv) by reflexivity.
  pose proof (sed_qualifier_line "~alpha" "~beta" "~rc" v Hv eq_refl eq_refl eq_refl)
    as Hline.
  set (mangled := sed_qualifier "~alpha" "~beta" "~rc" v) in *.
  destruct (negb (String.eqb epoch EmptyString)).
  - replace (epoch ++ ":" ++ mangled ++ "-0ubuntu1")
      with ((epoch ++ ":" ++ mangled) ++ "-0ubuntu1")
      by (rewrite !app_assoc; reflexivity).
    rewrite echo_revision. apply capture_line. unfold nl in *.
    repeat (apply absent_app; [try assumption|]); try assumption; reflexivity.
  - rewrite echo_revision. apply capture_line. unfold nl in *.
    apply absent_app; [assumption | reflexivity].
Qed.

Lemma body_assoc_r (major minor micro t : string) :
  (major ++ String "." (minor ++ String "." micro)) ++ t
  = major ++ String "." (minor ++ String "." (micro ++ t)).
Proof. rewrite !app_assoc. cbn [append]. rewrite !app_assoc. reflexivity. Qed.

(** The dotted body cut at its dots. *)
Lemma cut_major_body (major minor micro t : string) :
  all_chars is_digit major = true ->
  all_chars is_digit minor = true ->
  contains "." (micro ++ t) = false ->
  cut_fields ((major ++ String "." (minor ++ String "." micro)) ++ t)
  = major ++ String "." minor.
Proof.
  intros H1 H2 H3. unfold cut_fields. rewrite body_assoc_r.
  rewrite (split_first "." major) by absent.
  rewrite (split_first "." minor) by absent.
  rewrite (split_none "." _ H3). reflexivity.
Qed.

Lemma cut_major_version_line (v : string) :
  version_pattern is_digit_2_9 v = true ->
  cut_major_version v = cut_fields v.
Proof.
  intros Hv. destruct (pattern_line v Hv) as [Hecho Hline].
  unfold cut_major_version. rewrite Hecho, (cut_line v Hline). apply capture_line.
  unfold nl. accepted_shapes Hv;
    rewrite cut_major_body by (assumption || absent); absent.
Qed.

Ltac accepted_cases Hv :=
  rewrite ?(tag_version_line _ Hv), ?(cut_major_version_line _ Hv);
  accepted_shapes Hv.

Lemma python_version_tag (g : Git) (auth v : string) :
  version_pattern is_digit_2_9 v = true ->
  python_version (new_preparer g (tag_version v) auth) = v.
Proof.
  intros Hv. cbn [python_version new_preparer]. accepted_cases Hv.
  - rewrite (replace_absent "-" "alpha") by absent.
    rewrite (replace_absent "-" "beta") by absent.
    rewrite (replace_absent "-" "rc") by absent. rewrite app_nil_r. reflexivity.
  - rewrite (replace_once "-" "alpha") by absent.
    rewrite (replace_absent "-" "beta") by absent.
    rewrite (replace_absent "-" "rc") by absent. reflexivity.
  - change ("-beta" ++ d) with (String "-" ("beta" ++ d)) at 1.
    rewrite (replace_miss "-" "alpha") by (reflexivity || absent).
    rewrite (replace_once "-" "beta" "b" _ d) by absent.
    rewrite (replace_absent "-" "rc") by absent. reflexivity.
  - change ("-rc" ++ d) with (String "-" ("rc" ++ d)) at 1.
    rewrite (replace_miss "-" "alpha") by (reflexivity || absent).
    rewrite (replace_miss "-" "beta") by (reflexivity || absent).
    rewrite (replace_once "-" "rc" "rc" _ d) by absent. reflexivity.
Qed.

(** X2: for a one-line version that passes the test of release-prepare,
    the Python version of the tag form is the version release-prepare
    was given, the one it wrote to setup.cfg. *)
Theorem python_version_of_tag_version (g : Git) (auth v : string)
  (Hline : contains nl v = false)
  (Hv : release_prepare_accepts v = true) :
  python_version (new_preparer g (tag_version v) auth) = v.
Proof. exact (python_version_tag g auth v (accepts_line v Hline Hv)). Qed.

Lemma python_version_of_tag_version_witness :
  python_version (new_preparer sample_git (tag_version "3.1.0b3") "auth") = "3.1.0b3".
Proof.
  exact (python_version_of_tag_version sample_git "auth" "3.1.0b3" eq_refl eq_refl).
Defined.

Lemma split1_none (sep : ascii) (s : string) :
  contains (String sep EmptyString) s = false -> split1 sep s = [s].
Proof.
  induction s as [|a r IH]; [reflexivity|].
  rewrite contains_char_cons. intros H.
  apply orb_false_elim in H as [Ha Hr].
  simpl. rewrite Ha, (IH Hr). reflexivity.
Qed.

Lemma body_assoc (major minor micro t : string) :
  (major ++ String "." (minor ++ String "." micro)) ++ t
  = (major ++ String "." minor) ++ String "." (micro ++ t).
Proof. rewrite !app_assoc. cbn [append]. rewrite !app_assoc. reflexivity. Qed.

(** Past a prefix without the first character of the pattern, the
    search goes on in what follows. *)
Lemma contains_past (c : ascii) (rest pre s : string) :
  contains (String c EmptyString) pre = false ->
  contains (String c rest) (pre ++ s) = contains (String c rest) s.
Proof.
  induction pre as [|a pre IH]; [reflexivity|].
  rewrite contains_char_cons. intros H. apply orb_false_elim in H as [Ha Hpre].
  cbn [append]. cbn [contains]. rewrite (prefix_other _ _ _ _ Ha), (IH Hpre). reflexivity.
Qed.

Lemma major_body (major minor micro t : string) :
  contains "." (micro ++ t) = false ->
  get_major_version ((major ++ String "." (minor ++ String "." micro)) ++ t)
  = major ++ String "." minor.
Proof. intros H. rewrite body_assoc. apply get_major_version_last, H. Qed.

Lemma major_version_tag (v : string) :
  version_pattern is_digit_2_9 v = true ->
  get_major_version (tag_version v) = cut_major_version v.
Proof.
  intros Hv. accepted_cases Hv.
  - rewrite <- (app_nil_r (major ++ String "." (minor ++ String "." micro))) at 1.
    rewrite major_body, cut_major_body by (assumption || absent). reflexivity.
  - rewrite major_body, cut_major_body by (assumption || absent). reflexivity.
  - rewrite major_body, cut_major_body by (assumption || absent). reflexivity.
  - rewrite major_body, cut_major_body by (assumption || absent). reflexivity.
Qed.

(** X3: for a one-line version that passes the test of release-prepare,
    the major version release-status derives from the tag form is the
    one release-prepare cuts from the version it was given: its first
    two dot-separated fields. *)
Theorem major_version_of_tag_version (v : string)
  (Hline : contains nl v = false)
  (Hv : release_prepare_accepts v = true) :
  get_major_version (tag_version v) = cut_major_version v /\
  cut_major_version v = cut_fields v.
Proof.
  pose proof (accepts_line v Hline Hv) as Hpattern.
  split; [exact (major_version_tag v Hpattern) | exact (cut_major_version_line v Hpattern)].
Qed.

Lemma major_version_of_tag_version_witness :
  get_major_version (tag_version "3.1.0rc2") = cut_major_version "3.1.0rc2".
Proof. exact (proj1 (major_version_of_tag_version "3.1.0rc2" eq_refl eq_refl)). Defined.

(** ** MAASVersion *)

Lemma parse_changelog_epoch (epoch upstream revision : string) :
  contains ":" epoch = false ->
  contains "-" upstream = false ->
  (no_epoch_version <-
     index (split1 ":" (epoch ++ String ":" (upstream ++ String "-" revision))) (-1) ;;
   index (split1 "-" no_epoch_version) 0)
  = Return upstream.
Proof.
  intros Hepoch Hup. rewrite (split1_first _ _ _ Hepoch).
  change (index [epoch; upstream ++ String "-" revision] (-1))
    with (Return (upstream ++ String "-" revision)).
  cbn [bind]. rewrite (split1_first _ _ _ Hup). reflexivity.
Qed.

Lemma parse_changelog_plain (upstream revision : string) :
  contains ":" (upstream ++ String "-" revision) = false ->
  contains "-" upstream = false ->
  (no_epoch_version <- index (split1 ":" (upstream ++ String "-" revision)) (-1) ;;
   index (split1 "-" no_epoch_version) 0)
  = Return upstream.
Proof.
  intros Hcolon Hup. rewrite (split1_none _ _ Hcolon).
  change (index [upstream ++ String "-" revision] (-1))
    with (Return (upstream ++ String "-" revision)).
  cbn [bind]. rewrite (split1_first _ _ _ Hup). reflexivity.
Qed.

(** X4: MAASVersion.check reads the upstream version of the changelog
    between the epoch and the first '-': on the output
    [epoch:upstream-revision], or [upstream-revision] without an epoch,
    it passes exactly when setup.cfg has the Python version and the
    upstream version, its '~' turned into '-', is the release version;
    an epoch mismatch or the Debian revision play no part. *)
Theorem MAASVersion_check_reads_upstream (setup_version : option string)
  (epoch upstream revision : string) (p : ReleasePreparer)
  (Hepoch : contains ":" epoch = false)
  (Hupstream : contains "-" upstream = false) :
  let outcome :=
    if differs setup_version (python_version p) then
      Return (false, Some ("setup.cfg has " ++ fmt_opt setup_version
                           ++ ", run utilities/release-prepare"))
    else if String.eqb (replace "~" "-" upstream) (version p) then Return (true, None)
    else Return (false, Some ("changelog has " ++ replace "~" "-" upstream
                              ++ " (expected " ++ version p
                              ++ "), run utilities/release-prepare")) in
  MAASVersion_check setup_version (epoch ++ ":" ++ upstream ++ "-" ++ revision) p
  = outcome /\
  (contains ":" (upstream ++ "-" ++ revision) = false ->
   MAASVersion_check setup_version (upstream ++ "-" ++ revision) p = outcome).
Proof.
  cbv zeta. unfold MAASVersion_check.
  destruct (differs setup_version (python_version p)); [split; reflexivity|].
  change (epoch ++ ":" ++ upstream ++ "-" ++ revision)
    with (epoch ++ String ":" (upstream ++ String "-" revision)).
  change (upstream ++ "-" ++ revision) with (upstream ++ String "-" revision).
  split; [|intros Hcolon].
  - pose proof (parse_changelog_epoch epoch upstream revision Hepoch Hupstream) as Hparse.
    destruct (index (split1 ":" _) (-1)) as [no_epoch|e]; [|discriminate].
    cbn [bind] in *. rewrite Hparse. cbn [bind].
    destruct (String.eqb _ (version p)); reflexivity.
  - pose proof (parse_changelog_plain upstream revision Hcolon Hupstream) as Hparse.
    destruct (index (split1 ":" _) (-1)) as [no_epoch|e]; [|discriminate].
    cbn [bind] in *. rewrite Hparse. cbn [bind].
    destruct (String.eqb _ (version p)); reflexivity.
Qed.

Lemma MAASVersion_check_reads_upstream_witness :
  MAASVersion_check (Some "3.1.0b3") ("1" ++ ":" ++ "3.1.0~beta3" ++ "-" ++ "0ubuntu1" ++ nl)
    (sample_preparer "3.1.0-beta3")
  = Return (true, None).
Proof.
  exact (proj1 (MAASVersion_check_reads_upstream (Some "3.1.0b3") "1" "3.1.0~beta3"
                  ("0ubuntu1" ++ nl) (sample_preparer "3.1.0-beta3") eq_refl eq_refl)).
Defined.

(** What [deb_version] puts before "-0ubuntu1" turns back into the tag
    form. *)
Lemma mangled_version (v : string) :
  version_pattern is_digit_2_9 v = true ->
  contains "-" (sed_qualifier "~alpha" "~beta" "~rc" v) = false /\
  contains ":" (sed_qualifier "~alpha" "~beta" "~rc" v) = false /\
  replace "~" "-" (sed_qualifier "~alpha" "~beta" "~rc" v) = tag_version v.
Proof.
  intros Hv.
  destruct (accepted_forms _ Hv)
    as [major minor micro q Hmajor Hfirst Hminor Hmicro Ev
          [[-> Hsed] | [d [Hd [Hne [[-> Hsed] | [[-> Hsed] | [-> Hsed]]]]]]]];
    pose proof (body_digit_or_dot _ _ _ Hmajor Hminor Hmicro) as Hbody;
    rewrite (tag_version_line _ Hv), !Hsed; clear Hsed Ev;
    (split; [absent|]); (split; [absent|]).
  - apply replace_absent. absent.
  - change ("~alpha" ++ d) with ("~" ++ ("alpha" ++ d)).
    rewrite (replace_once "~" EmptyString) by absent. reflexivity.
  - change ("~beta" ++ d) with ("~" ++ ("beta" ++ d)).
    rewrite (replace_once "~" EmptyString) by absent. reflexivity.
  - change ("~rc" ++ d) with ("~" ++ ("rc" ++ d)).
    rewrite (replace_once "~" EmptyString) by absent. reflexivity.
Qed.

(** X5: after release-prepare has set the one-line version [v] in
    setup.cfg and added the changelog entry [deb_version v],
    MAASVersion.check passes for the tag form of [v], with an epoch (of
    one line and without a colon) or without one. *)
Theorem MAASVersion_after_release_prepare (g : Git) (auth epoch v : string)
  (Hline : contains nl v = false)
  (Hv : release_prepare_accepts v = true)
  (Hepoch : contains ":" epoch = false)
  (Hepoch_line : contains nl epoch = false) :
  MAASVersion_check (Some v) (deb_version epoch v ++ nl)
    (new_preparer g (tag_version v) auth)
  = Return (true, None).
Proof.
  pose proof (accepts_line v Hline Hv) as Hpattern.
  destruct (mangled_version v Hpattern) as [Hdash [Hcolon Hback]].
  unfold MAASVersion_check. rewrite (python_version_tag g auth v Hpattern).
  cbn [differs version new_preparer]. rewrite String.eqb_refl. cbn [negb].
  rewrite (deb_version_line epoch v Hpattern Hepoch_line).
  set (mangled := sed_qualifier "~alpha" "~beta" "~rc" v) in *.
  assert (Hparse :
            (no_epoch_version <-
               index (split1 ":" ((if negb (String.eqb epoch EmptyString)
                                   then epoch ++ ":" ++ mangled ++ "-0ubuntu1"
                                   else mangled ++ "-0ubuntu1") ++ nl)) (-1) ;;
             index (split1 "-" no_epoch_version) 0)
            = Return mangled).
  { destruct (negb (String.eqb epoch EmptyString)).
    - replace ((epoch ++ ":" ++ mangled ++ "-0ubuntu1") ++ nl)
        with (epoch ++ String ":" (mangled ++ String "-" ("0ubuntu1" ++ nl)))
        by (rewrite !app_assoc; reflexivity).
      apply parse_changelog_epoch; assumption.
    - replace ((mangled ++ "-0ubuntu1") ++ nl)
        with (mangled ++ String "-" ("0ubuntu1" ++ nl))
        by (rewrite !app_assoc; reflexivity).
      apply parse_changelog_plain; [|assumption].
      apply absent_app; [assumption | reflexivity]. }
  destruct (index (split1 ":" _) (-1)) as [no_epoch|e]; [|discriminate].
  cbn [bind] in *. rewrite Hparse. cbn [bind].
  rewrite Hback, String.eqb_refl. reflexivity.
Qed.

Lemma MAASVersion_after_release_prepare_witness :
  MAASVersion_check (Some "3.1.0b3") (deb_version "1" "3.1.0b3" ++ nl)
    (new_preparer sample_git (tag_version "3.1.0b3") "auth")
  = Return (true, None).
Proof.
  exact (MAASVersion_after_release_prepare sample_git "auth" "1" "3.1.0b3"
           eq_refl eq_refl eq_refl eq_refl).
Defined.

(** ** Versions of release-prepare in release-status *)

Lemma prefix_same (c : ascii) (rest s : string) :
  String.prefix (String c rest) (String c s) = String.prefix rest s.
Proof.
  cbn [String.prefix]. destruct (ascii_dec c c) as [_|ne]; [reflexivity | now elim ne].
Qed.

(** A qualifier letter followed by digits is not the start of a longer
    word. *)
Lemma contains_word (c x : ascii) (rest body d : string) :
  contains (String c EmptyString) body = false ->
  contains (String c EmptyString) d = false ->
  contains (String x EmptyString) d = false ->
  contains (String c (String x rest)) (body ++ String c d) = false.
Proof.
  intros Hbody Hd Hx. rewrite (contains_past _ _ _ _ Hbody).
  cbn [contains]. rewrite prefix_same, (prefix_absent _ _ _ Hx).
  rewrite (contains_absent _ _ _ Hd). reflexivity.
Qed.

Lemma grade_of_tag_suffix (body word d : string) :
  contains "-" body = false ->
  get_version_grade (body ++ ("-" ++ word) ++ d)
  = if String.prefix "beta" (word ++ d) then Return "beta"
    else if String.prefix "rc" (word ++ d) then Return "rc"
    else Raise (RuntimeError ("Unknown version suffix: "
                              ++ hd EmptyString (split "-" (word ++ d)))).
Proof.
  intros Hbody.
  change (body ++ ("-" ++ word) ++ d) with (body ++ String "-" (word ++ d)).
  rewrite (get_version_grade_suffix _ _ Hbody). reflexivity.
Qed.

Lemma channel_of_tag (v : string) :
  version_pattern is_digit_2_9 v = true ->
  (contains "a" v = true ->
   exists body d,
     v = body ++ "a" ++ d /\
     all_chars digit_or_dot body = true /\ all_chars is_digit d = true /\
     get_snap_release_channel (tag_version v)
     = Raise (RuntimeError ("Unknown version suffix: alpha" ++ d))) /\
  (contains "b" v = true ->
   get_snap_release_channel (tag_version v) = Return (cut_major_version v ++ "/beta")) /\
  (contains "rc" v = true ->
   get_snap_release_channel (tag_version v)
   = Return (cut_major_version v ++ "/candidate")) /\
  (contains "a" v = false -> contains "b" v = false -> contains "rc" v = false ->
   get_snap_release_channel (tag_version v) = Return (cut_major_version v ++ "/stable")).
Proof.
  intros Hv. unfold get_snap_release_channel. cbv zeta.
  rewrite (major_version_tag v Hv). accepted_cases Hv.
  - assert (Ha : contains "a" ((major ++ String "." (minor ++ String "." micro)) ++ "")
                 = false) by absent.
    assert (Hb : contains "b" ((major ++ String "." (minor ++ String "." micro)) ++ "")
                 = false) by absent.
    assert (Hrc : contains "rc" ((major ++ String "." (minor ++ String "." micro)) ++ "")
                  = false) by (apply contains_absent; absent).
    rewrite Ha, Hb, Hrc.
    repeat split; try discriminate. intros _ _ _.
    rewrite get_version_grade_final by absent. reflexivity.
  - assert (Hb : contains "b" ((major ++ String "." (minor ++ String "." micro)) ++ "a" ++ d)
                 = false) by absent.
    assert (Hrc : contains "rc" ((major ++ String "." (minor ++ String "." micro)) ++ "a" ++ d)
                  = false) by (apply contains_absent; absent).
    rewrite Hb, Hrc, (contains_app "a" _ d).
    repeat split; try discriminate. intros _.
    exists (major ++ String "." (minor ++ String "." micro)), d.
    split; [reflexivity|]. split; [exact Hbody|]. split; [exact Hd|].
    rewrite (grade_of_tag_suffix _ "alpha" d) by absent.
    rewrite (split_none "-" ("alpha" ++ d)) by absent. reflexivity.
  - assert (Ha : contains "a" ((major ++ String "." (minor ++ String "." micro)) ++ "b" ++ d)
                 = false) by absent.
    assert (Hrc : contains "rc" ((major ++ String "." (minor ++ String "." micro)) ++ "b" ++ d)
                  = false) by (apply contains_absent; absent).
    rewrite Ha, Hrc, (contains_app "b" _ d).
    repeat split; try discriminate. intros _.
    rewrite (grade_of_tag_suffix _ "beta" d) by absent.
    rewrite (prefix_app "beta" d). reflexivity.
  - assert (Ha : contains "a" ((major ++ String "." (minor ++ String "." micro)) ++ "rc" ++ d)
                 = false) by absent.
    assert (Hb : contains "b" ((major ++ String "." (minor ++ String "." micro)) ++ "rc" ++ d)
                 = false) by absent.
    rewrite Ha, Hb, (contains_app "rc" _ d).
    repeat split; try discriminate. intros _.
    rewrite (grade_of_tag_suffix _ "rc" d) by absent.
    rewrite (prefix_app "rc" d). reflexivity.
Qed.

(** X6: what release-status makes of the tag form of a one-line version
    that passes the test of release-prepare.  A beta version gets the
    channel <major>/beta, a release candidate <major>/candidate and an
    unqualified version <major>/stable, with <major> the first two
    fields of the version; an alpha version, which release-prepare
    accepts too, gets no channel: RuntimeError is raised for the suffix
    alpha<num>, <num> being the digits after the a of the version. *)
Theorem channel_of_tag_version (v : string)
  (Hline : contains nl v = false)
  (Hv : release_prepare_accepts v = true) :
  (contains "a" v = true ->
   exists body d,
     v = body ++ "a" ++ d /\
     all_chars digit_or_dot body = true /\ all_chars is_digit d = true /\
     get_snap_release_channel (tag_version v)
     = Raise (RuntimeError ("Unknown version suffix: alpha" ++ d))) /\
  (contains "b" v = true ->
   get_snap_release_channel (tag_version v) = Return (cut_major_version v ++ "/beta")) /\
  (contains "rc" v = true ->
   get_snap_release_channel (tag_version v)
   = Return (cut_major_version v ++ "/candidate")) /\
  (contains "a" v = false -> contains "b" v = false -> contains "rc" v = false ->
   get_snap_release_channel (tag_version v) = Return (cut_major_version v ++ "/stable")).
Proof. exact (channel_of_tag v (accepts_line v Hline Hv)). Qed.

Lemma channel_of_tag_version_witness :
  (exists body d,
     "3.1.0a1" = body ++ "a" ++ d /\
     all_chars digit_or_dot body = true /\ all_chars is_digit d = true /\
     get_snap_release_channel (tag_version "3.1.0a1")
     = Raise (RuntimeError ("Unknown version suffix: alpha" ++ d))) /\
  get_snap_release_channel (tag_version "3.1.0b3") = Return "3.1/beta".
Proof.
  split.
  - exact (proj1 (channel_of_tag_version "3.1.0a1" eq_refl eq_refl) eq_refl).
  - exact (proj1 (proj2 (channel_of_tag_version "3.1.0b3" eq_refl eq_refl)) eq_refl).
Defined.

Lemma python_form_is_final (g : Git) (auth v : string) :
  version_pattern is_digit_2_9 v = true ->
  get_snap_release_channel v = Return (cut_major_version v ++ "/stable") /\
  release_branch_name (new_preparer g v auth) = cut_major_version v.
Proof.
  intros Hv. unfold get_snap_release_channel, release_branch_name. cbv zeta.
  cbn [version major_version new_preparer].
  assert (Hdash : contains "-" v = false) by (accepted_cases Hv; absent).
  assert (Hcut : get_major_version v = cut_major_version v)
    by (accepted_cases Hv; rewrite major_body, cut_major_body by (assumption || absent);
        reflexivity).
  assert (Hbeta : contains "beta" v = false).
  { accepted_cases Hv; try solve [apply contains_absent; absent].
    apply contains_word; absent. }
  assert (Halpha : contains "alpha" v = false).
  { accepted_cases Hv; try solve [apply contains_absent; absent].
    apply contains_word; absent. }
  rewrite (get_version_grade_final _ Hdash), Hcut, Hbeta, Halpha. split; reflexivity.
Qed.

(** X7: a one-line version in the form release-prepare accepts, given
    to release-status as it is, is taken for a final release whatever
    its qualifier: the channel is <major>/stable and the release branch
    is <major>, not master. *)
Theorem accepted_version_is_final (g : Git) (auth v : string)
  (Hline : contains nl v = false)
  (Hv : release_prepare_accepts v = true) :
  get_snap_release_channel v = Return (cut_major_version v ++ "/stable") /\
  release_branch_name (new_preparer g v auth) = cut_major_version v.
Proof. exact (python_form_is_final g auth v (accepts_line v Hline Hv)). Qed.

Lemma accepted_version_is_final_witness :
  get_snap_release_channel "3.1.0b3" = Return "3.1/stable" /\
  release_branch_name (new_preparer sample_git "3.1.0b3" "auth") = "3.1".
Proof.
  exact (accepted_version_is_final sample_git "auth" "3.1.0b3" eq_refl eq_refl).
Defined.

Lemma tag_version_word (v : string) :
  version_pattern is_digit_2_9 v = true -> startswith (tag_version v) "-" = false.
Proof.
  intros Hv. unfold startswith.
  accepted_cases Hv;
    (destruct major as [|c major]; [now elim Hfirst|]);
    cbn [all_chars] in Hmajor; apply andb_prop in Hmajor as [Hc _];
    cbn [append]; apply prefix_other;
    (destruct (Ascii.eqb_spec c "-") as [->|_]; [discriminate Hc | reflexivity]).
Qed.

(** X8: the tag form of a one-line alpha version, which release-prepare
    accepts and for which CommitInRemoteBranch would look in master,
    cannot be checked at all: with the macaroon section found,
    macaroon_auth and the Launchpad login returning, and the team maas
    and the series focal known, main constructs the first eleven steps
    and ends in the RuntimeError of the snap channel, with nothing on
    standard output and no step evaluated. *)
Theorem main_aborts_on_alpha (w : World) (v : string) (macaroon : SectionProxy)
  (auth : string) (lp : Login) (maas : Person)
  (Hline : contains nl v = false)
  (Hv : release_prepare_accepts v = true)
  (Halpha : contains "a" v = true)
  (Hmacaroon : world_macaroon w = Some macaroon)
  (Hauth : macaroon_auth (world_discharge w) macaroon = Return auth)
  (Hlogin : world_login w = Return lp)
  (Hmaas : people_named (lp_people lp) "maas" = Some maas)
  (Hseries : lp_current_series lp = Return tt) :
  release_branch_name (new_preparer (world_git w) (tag_version v) auth) = "master" /\
  exists body d,
    v = body ++ "a" ++ d /\
    all_chars digit_or_dot body = true /\ all_chars is_digit d = true /\
    main w [tag_version v]
    = Some {| stdout := [];
              stderr := [world_traceback w
                           (RuntimeError ("Unknown version suffix: alpha" ++ d))];
              exit := Uncaught (RuntimeError ("Unknown version suffix: alpha" ++ d)) |}.
Proof.
  pose proof (accepts_line v Hline Hv) as Hpattern.
  split.
  - unfold release_branch_name. cbn [version new_preparer].
    destruct (accepted_forms _ Hpattern)
      as [major minor micro q Hmajor Hfirst Hminor Hmicro Ev
            [[-> Hsed] | [d [Hd [Hne [[-> Hsed] | [[-> Hsed] | [-> Hsed]]]]]]]];
      pose proof (body_digit_or_dot _ _ _ Hmajor Hminor Hmicro) as Hbody;
      rewrite (tag_version_line _ Hpattern), Hsed; subst v.
    + rewrite (all_chars_absent digit_or_dot "a") in Halpha by
        (rewrite ?app_nil_r; assumption || reflexivity). discriminate.
    + assert (Hin : contains "alpha"
                      ((major ++ String "." (minor ++ String "." micro)) ++ "-alpha" ++ d)
                    = true).
      { apply contains_skip. change ("-alpha" ++ d) with ("-" ++ ("alpha" ++ d)).
        apply contains_skip, contains_prefix, prefix_app. }
      rewrite Hin, orb_true_r. reflexivity.
    + assert (Hno : contains "a"
                      ((major ++ String "." (minor ++ String "." micro)) ++ "b" ++ d)
                    = false) by absent.
      congruence.
    + assert (Hno : contains "a"
                      ((major ++ String "." (minor ++ String "." micro)) ++ "rc" ++ d)
                    = false) by absent.
      congruence.
  - destruct (proj1 (channel_of_tag v Hpattern) Halpha)
      as [body [d [Ev [Hbody [Hd Hchannel]]]]].
    exists body, d. split; [exact Ev|]. split; [exact Hbody|]. split; [exact Hd|].
    rewrite (main_started w _ macaroon auth lp (tag_version_word v Hpattern)
               Hmacaroon Hauth Hlogin).
    pose proof (main_steps_built w lp (new_preparer (world_git w) (tag_version v) auth)
                  maas Hmaas Hseries) as Hbuilt.
    cbn [version new_preparer] in Hbuilt. rewrite Hchannel in Hbuilt.
    rewrite Hbuilt. reflexivity.
Qed.

Lemma main_aborts_on_alpha_witness :
  exists body d,
    "3.1.0a1" = body ++ "a" ++ d /\
    all_chars digit_or_dot body = true /\ all_chars is_digit d = true /\
    main sample_world [tag_version "3.1.0a1"]
    = Some {| stdout := [];
              stderr := [world_traceback sample_world
                           (RuntimeError ("Unknown version suffix: alpha" ++ d))];
              exit := Uncaught (RuntimeError ("Unknown version suffix: alpha" ++ d)) |}.
Proof.
  exact (proj2 (main_aborts_on_alpha sample_world "3.1.0a1" sample_macaroon
                  "Macaroon root=r, discharge=d" sample_login (sample_maas BUILD_ARCHS [])
                  eq_refl eq_refl eq_refl eq_refl eq_refl eq_refl eq_refl eq_refl)).
Defined.

(** ** The snap store answers *)

Lemma auth_error_none (py_str_other : json -> string) (res : Response) (snap_name : string) :
  get_macaroon_auth_error py_str_other res snap_name = Return None <->
  status_code res = 200%Z \/ status_code res = 404%Z.
Proof.
  unfold get_macaroon_auth_error. split.
  - destruct (Z.eqb_spec (status_code res) 200) as [H200|_]; [auto|].
    destruct (Z.eqb_spec (status_code res) 404) as [H404|_]; [auto|].
    cbn [orb]. destruct ((status_code res =? 401) || (status_code res =? 403))%Z;
      [|discriminate].
    destruct (res_json res) as [result|]; [|discriminate]. cbn [bind].
    destruct (py_get result "error_list" (JArr [])) as [error_list|]; [|discriminate].
    cbn [bind]. destruct (py_iter error_list) as [errors|]; [|discriminate].
    cbn [bind]. destruct (scan_error_list _ _ _ errors); discriminate.
  - intros [H | H]; rewrite H; reflexivity.
Qed.

(** X9: SnapTrack.check fails without any message exactly when the
    store answers 404: a track that does not exist is reported by the
    red mark alone. *)
Theorem SnapTrack_check_silent_failure (py_str_other : json -> string) (res : Response)
  (snap_name : string) :
  SnapTrack_check py_str_other res snap_name = Return (false, None) <->
  status_code res = 404%Z.
Proof.
  unfold SnapTrack_check. split.
  - destruct (get_macaroon_auth_error py_str_other res snap_name) as [auth_error|e] eqn:E;
      [|discriminate].
    cbn [bind]. intros [= Hstatus ->].
    apply auth_error_none in E as [E | E]; [|exact E].
    rewrite E in Hstatus. discriminate.
  - intros H. assert (E : get_macaroon_auth_error py_str_other res snap_name = Return None)
      by (apply auth_error_none; auto).
    rewrite E, H. reflexivity.
Qed.

(** X10: the raw body of the answer is the error message for every
    status other than 200, 404, 401 and 403, whatever the body is, and
    for a 401 or 403 answer whose error_list is missing or holds only
    objects with other codes. *)
Theorem get_macaroon_auth_error_raw_text (py_str_other : json -> string) (res : Response)
  (snap_name : string) :
  (status_code res <> 200%Z -> status_code res <> 404%Z ->
   status_code res <> 401%Z -> status_code res <> 403%Z ->
   get_macaroon_auth_error py_str_other res snap_name = Return (Some (text res))) /\
  (forall members,
     status_code res = 401%Z \/ status_code res = 403%Z ->
     json_body res = Some (JObj members) ->
     (lookup "error_list" members = None \/
      exists errors, lookup "error_list" members = Some (JArr errors) /\
                     forallb other_error errors = true) ->
     get_macaroon_auth_error py_str_other res snap_name = Return (Some (text res))).
Proof.
  unfold get_macaroon_auth_error. split.
  - intros H200 H404 H401 H403.
    apply Z.eqb_neq in H200, H404, H401, H403. rewrite H200, H404, H401, H403.
    reflexivity.
  - intros members Hstatus Hbody Hlist. unfold res_json. rewrite Hbody.
    assert (Hscan : forall errors,
               forallb other_error errors = true ->
               scan_error_list py_str_other snap_name (text res) errors
               = Return (text res)).
    { intros errors H. rewrite <- (List.app_nil_r errors).
      rewrite (scan_past_others _ _ _ _ _ H). reflexivity. }
    destruct Hstatus as [-> | ->]; cbn [Z.eqb Pos.eqb orb bind py_get];
      (destruct Hlist as [-> | [errors [-> Hothers]]]; cbn [bind py_iter];
       [reflexivity | rewrite (Hscan _ Hothers); reflexivity]).
Qed.

Lemma get_macaroon_auth_error_raw_text_witness :
  get_macaroon_auth_error sample_str
    {| status_code := 500; text := "Internal Server Error"; json_body := None |} "maas"
  = Return (Some "Internal Server Error") /\
  get_macaroon_auth_error sample_str
    {| status_code := 403; text := "{}"; json_body := Some (JObj []) |} "maas"
  = Return (Some "{}").
Proof.
  split.
  - apply (proj1 (get_macaroon_auth_error_raw_text sample_str
                    {| status_code := 500; text := "Internal Server Error";
                       json_body := None |} "maas")); discriminate.
  - apply (proj2 (get_macaroon_auth_error_raw_text sample_str
                    {| status_code := 403; text := "{}"; json_body := Some (JObj []) |}
                    "maas") []); [right | | left]; reflexivity.
Defined.

(** X11: a 401 or 403 answer the loop cannot read makes the lookup
    raise instead of answering: a body that is not JSON, a JSON body
    that is not an object, an error_list that is null, a number or a
    boolean, or a first entry that is not an object. *)
Theorem get_macaroon_auth_error_raises (py_str_other : json -> string) (res : Response)
  (snap_name : string)
  (Hstatus : status_code res = 401%Z \/ status_code res = 403%Z) :
  (json_body res = None ->
   get_macaroon_auth_error py_str_other res snap_name = Raise JSONDecodeError) /\
  (forall body,
     json_body res = Some body ->
     (forall members, body <> JObj members) ->
     get_macaroon_auth_error py_str_other res snap_name = Raise AttributeError) /\
  (forall members error_list,
     json_body res = Some (JObj members) ->
     lookup "error_list" members = Some error_list ->
     py_iter error_list = Raise TypeError ->
     get_macaroon_auth_error py_str_other res snap_name = Raise TypeError) /\
  (forall members first rest,
     json_body res = Some (JObj members) ->
     lookup "error_list" members = Some (JArr (first :: rest)) ->
     (forall entry, first <> JObj entry) ->
     get_macaroon_auth_error py_str_other res snap_name = Raise AttributeError).
Proof.
  unfold get_macaroon_auth_error, res_json.
  repeat split.
  - intros Hbody. rewrite Hbody. destruct Hstatus as [-> | ->]; reflexivity.
  - intros body Hbody Hobj. rewrite Hbody.
    destruct body as [| | | | |members]; try (destruct Hstatus as [-> | ->]; reflexivity).
    now elim (Hobj members).
  - intros members error_list Hbody Hlist Hiter. rewrite Hbody.
    destruct Hstatus as [-> | ->]; cbn [Z.eqb Pos.eqb orb bind py_get];
      rewrite Hlist; cbn [bind]; rewrite Hiter; reflexivity.
  - intros members first rest Hbody Hlist Hobj. rewrite Hbody.
    destruct Hstatus as [-> | ->]; cbn [Z.eqb Pos.eqb orb bind py_get];
      rewrite Hlist; cbn [bind py_iter scan_error_list];
      (destruct first as [| | | | |entry]; try reflexivity; now elim (Hobj entry)).
Qed.

Lemma get_macaroon_auth_error_raises_witness :
  get_macaroon_auth_error sample_str
    {| status_code := 403; text := "<html>Forbidden</html>"; json_body := None |} "maas"
  = Raise JSONDecodeError.
Proof.
  apply (proj1 (get_macaroon_auth_error_raises sample_str
                  {| status_code := 403; text := "<html>Forbidden</html>";
                     json_body := None |} "maas" (or_intror eq_refl))).
  reflexivity.
Defined.

(** ** The runner and main *)

Lemma run_loop_app (first rest : list ReleaseStep) :
  forall all_good out,
    run_loop (List.app first rest) all_good out
    = match run_loop first all_good out with
      | (out', Return all_good') => run_loop rest all_good' out'
      | (out', Raise e) => (out', Raise e)
      end.
Proof.
  induction first as [|step first IH]; intros all_good out; [reflexivity|].
  cbn [List.app run_loop]. destruct (check step) as [[success message]|e]; [|reflexivity].
  apply IH.
Qed.

(** X12: a check that raises ends the run on the spot: after the
    reports of the steps before it, only the title of the raising step
    is printed; no later step is evaluated and no summary is given. *)
Theorem run_stops_at_raise (before : list (string * CheckResult)) (t : string) (e : exn)
  (rest : list ReleaseStep) :
  run (List.app (map step_of before) ({| title := t; check := Raise e |} :: rest))
  = (List.app (flat_map (fun tr => step_report (fst tr) (snd tr)) before) [t ++ ": "],
     Raise e).
Proof.
  unfold run. rewrite run_loop_app, run_loop_returns. cbn [List.app run_loop check title].
  unfold print. reflexivity.
Qed.

Lemma forallb_map {A B : Type} (f : B -> bool) (g : A -> B) (l : list A) :
  forallb f (map g l) = forallb (fun x => f (g x)) l.
Proof. induction l as [|x l IH]; [reflexivity|]. cbn [map forallb]. rewrite IH. reflexivity. Qed.

Lemma step_eta (s : ReleaseStep) :
  returns (check s) = true -> s = step_of (title s, result_of s).
Proof.
  destruct s as [t [r|e]]; [reflexivity | discriminate].
Qed.

Lemma run_returning (steps : list ReleaseStep) :
  Forall (fun s => returns (check s) = true) steps ->
  snd (run steps)
  = Return (if forallb (fun s => passed (result_of s)) steps then None
            else Some "Some checks FAILED, proceed with caution").
Proof.
  intros H.
  assert (E : steps = map step_of (map (fun s => (title s, result_of s)) steps)).
  { induction H as [|s l Hs _ IH]; [reflexivity|].
    cbn [map]. rewrite <- IH, <- (step_eta s Hs). reflexivity. }
  rewrite E at 1. unfold run. rewrite run_loop_returns. cbn [andb].
  rewrite forallb_map. cbn [snd].
  destruct (forallb _ steps); reflexivity.
Qed.

(** X13: for a word that does not start with '-', with the macaroon
    section found, macaroon_auth and the Launchpad login returning, the
    team maas and the series focal known, a version whose channel can be
    derived and checks that all return, main builds sixteen steps and
    the process ends with status 0 exactly when every one of them
    passes; otherwise it ends with the failure summary as its exit
    message. *)
Theorem main_exit_status (w : World) (v : string) (macaroon : SectionProxy)
  (auth : string) (lp : Login) (maas : Person) (channel : string)
  (Hword : startswith v "-" = false)
  (Hmacaroon : world_macaroon w = Some macaroon)
  (Hauth : macaroon_auth (world_discharge w) macaroon = Return auth)
  (Hlogin : world_login w = Return lp)
  (Hmaas : people_named (lp_people lp) "maas" = Some maas)
  (Hseries : lp_current_series lp = Return tt)
  (Hchannel : get_snap_release_channel v = Return channel)
  (Hreturn : forall k,
      returns (world_check w (new_preparer (world_git w) v auth) k) = true) :
  exists steps,
    main_steps w lp (new_preparer (world_git w) v auth) = Return steps /\
    List.length steps = 16%nat /\
    option_map exit (main w [v])
    = Some (if forallb (fun s => passed (result_of s)) steps
            then ExitCode 0
            else ExitMessage "Some checks FAILED, proceed with caution").
Proof.
  set (p := new_preparer (world_git w) v auth) in *.
  pose proof (main_steps_built w lp p maas Hmaas Hseries) as Hbuilt.
  cbn [version p new_preparer] in Hbuilt. rewrite Hchannel in Hbuilt.
  destruct Hbuilt as [steps [Hsteps Hchecks]]. exists steps.
  split; [exact Hsteps|]. split.
  { apply (f_equal (@List.length _)) in Hchecks.
    rewrite !List.length_map in Hchecks. exact Hchecks. }
  rewrite (main_started w v macaroon auth lp Hword Hmacaroon Hauth Hlogin).
  fold p. rewrite Hsteps. cbn [option_map].
  assert (Hall : Forall (fun s => returns (check s) = true) steps).
  { apply Forall_forall. intros s Hs.
    pose proof (in_map check _ _ Hs) as Hin. rewrite Hchecks in Hin.
    apply in_map_iff in Hin as [k [Hk _]]. rewrite <- Hk. apply Hreturn. }
  pose proof (run_returning _ Hall) as Hrun.
  destruct (run steps) as [out result]. cbn [snd] in Hrun.
  rewrite Hrun. unfold sys_exit. destruct (forallb _ steps); reflexivity.
Qed.

Lemma main_exit_status_witness :
  exists steps,
    main_steps sample_world sample_login
      (new_preparer (world_git sample_world) "3.1.0-rc1" "Macaroon root=r, discharge=d")
    = Return steps /\
    List.length steps = 16%nat /\
    option_map exit (main sample_world ["3.1.0-rc1"])
    = Some (if forallb (fun s => passed (result_of s)) steps
            then ExitCode 0
            else ExitMessage "Some checks FAILED, proceed with caution").
Proof.
  exact (main_exit_status sample_world "3.1.0-rc1" sample_macaroon
           "Macaroon root=r, discharge=d" sample_login (sample_maas BUILD_ARCHS [])
           "3.1/candidate" eq_refl eq_refl eq_refl eq_refl eq_refl eq_refl eq_refl
           (fun _ => eq_refl)).
Defined.



(** ** Remote branches *)

Lemma line_parts (sep : ascii) (line : string) :
  contains (String sep EmptyString) line = true ->
  exists remote branch,
    line = remote ++ String sep branch /\
    contains (String sep EmptyString) remote = false.
Proof.
  induction line as [|a r IH]; [discriminate|].
  rewrite contains_char_cons. destruct (Ascii.eqb_spec a sep) as [->|ne].
  - intros _. exists EmptyString, r. split; reflexivity.
  - cbn [orb]. intros H. destruct (IH H) as [remote [branch [-> Hremote]]].
    exists (String a remote), branch. split; [reflexivity|].
    rewrite contains_char_cons, Hremote.
    destruct (Ascii.eqb_spec a sep); [contradiction | reflexivity].
Qed.

Lemma eqb_parts (sep : ascii) (r1 b1 r2 b2 : string) :
  contains (String sep EmptyString) r1 = false ->
  contains (String sep EmptyString) r2 = false ->
  String.eqb (r1 ++ String sep b1) (r2 ++ String sep b2)
  = String.eqb r1 r2 && String.eqb b1 b2.
Proof.
  intros H1 H2.
  destruct (String.eqb_spec (r1 ++ String sep b1) (r2 ++ String sep b2)) as [E|NE].
  - apply (f_equal (split1 sep)) in E.
    rewrite (split1_first _ _ _ H1), (split1_first _ _ _ H2) in E.
    injection E as -> ->. rewrite !String.eqb_refl. reflexivity.
  - destruct (String.eqb_spec r1 r2) as [->|_]; [|reflexivity].
    destruct (String.eqb_spec b1 b2) as [->|_]; [now elim NE | reflexivity].
Qed.

Lemma in_release_branch_lines (official name : string) (lines : list string) :
  contains "/" official = false ->
  Forall (fun line => contains "/" line = true) lines ->
  in_release_branch (Some official) name (map (split1 "/") lines)
  = Return (existsb (fun line => String.eqb line (official ++ String "/" name)) lines).
Proof.
  intros Hofficial Hlines. induction Hlines as [|line lines Hline _ IH]; [reflexivity|].
  destruct (line_parts _ _ Hline) as [remote [branch [-> Hremote]]].
  cbn [map in_release_branch existsb]. rewrite (split1_first _ _ _ Hremote).
  cbn [unpack2 bind fst snd eq_remote].
  rewrite (eqb_parts _ _ _ _ _ Hremote Hofficial), IH.
  destruct (String.eqb remote official && String.eqb branch name); reflexivity.
Qed.

Lemma in_release_branch_no_official (name : string) (lines : list string) :
  Forall (fun line => contains "/" line = true) lines ->
  in_release_branch None name (map (split1 "/") lines) = Return false.
Proof.
  intros Hlines. induction Hlines as [|line lines Hline _ IH]; [reflexivity|].
  destruct (line_parts _ _ Hline) as [remote [branch [-> Hremote]]].
  cbn [map in_release_branch]. rewrite (split1_first _ _ _ Hremote).
  cbn [unpack2 bind fst snd eq_remote andb]. exact IH.
Qed.

(** X15: with every line of [git branch -r --contains HEAD] naming a
    branch as remote/branch, CommitInRemoteBranch.check passes exactly
    when one of the lines is the release branch of the official remote,
    and otherwise fails naming that branch; when no remote is the
    official one it fails whatever the lines are, and its message names
    the remote None. *)
Theorem CommitInRemoteBranch_check_lines (g : Git) (p : ReleasePreparer)
  (Hlines : Forall (fun line => contains "/" line = true) (git_branch_r_contains g "HEAD")) :
  (forall official,
     contains "/" official = false ->
     get_official_maas_remote g = Return (Some official) ->
     CommitInRemoteBranch_check g p
     = Return (if existsb (fun line => String.eqb line
                                         (official ++ "/" ++ release_branch_name p))
                          (git_branch_r_contains g "HEAD")
               then (true, None)
               else (false, Some ("Current HEAD is not in " ++ official ++ "/"
                                  ++ release_branch_name p)))) /\
  (get_official_maas_remote g = Return None ->
   CommitInRemoteBranch_check g p
   = Return (false, Some ("Current HEAD is not in None/" ++ release_branch_name p))).
Proof.
  unfold CommitInRemoteBranch_check, get_remote_branches_containing. cbv zeta. split.
  - intros official Hofficial Hremote. rewrite Hremote. cbn [bind].
    rewrite (in_release_branch_lines _ _ _ Hofficial Hlines). cbn [bind].
    change (official ++ "/" ++ release_branch_name p)
      with (official ++ String "/" (release_branch_name p)).
    destruct (existsb _ _); reflexivity.
  - intros Hremote. rewrite Hremote. cbn [bind].
    rewrite (in_release_branch_no_official _ _ Hlines). reflexivity.
Qed.

Lemma CommitInRemoteBranch_check_lines_witness :
  CommitInRemoteBranch_check sample_git (sample_preparer "3.1.0")
  = Return (false, Some ("Current HEAD is not in " ++ "origin" ++ "/"
                         ++ release_branch_name (sample_preparer "3.1.0"))).
Proof.
  refine (proj1 (CommitInRemoteBranch_check_lines sample_git (sample_preparer "3.1.0") _)
            "origin" eq_refl eq_refl).
  repeat constructor.
Defined.

Lemma existsb_map_hd (f : string -> bool) (lines : list string) :
  existsb f (map (fun line => hd EmptyString (split1 "/" line)) lines)
  = existsb (fun line => f (hd EmptyString (split1 "/" line))) lines.
Proof.
  induction lines as [|l lines IH]; [reflexivity|].
  cbn [map existsb]. rewrite IH. reflexivity.
Qed.

Lemma remotes_of_lines (lines : list string) :
  Forall (fun line => contains "/" line = true) lines ->
  remotes_of (map (split1 "/") lines)
  = Return (map (fun line => hd EmptyString (split1 "/" line)) lines).
Proof.
  intros Hlines. induction Hlines as [|line lines Hline _ IH]; [reflexivity|].
  destruct (line_parts _ _ Hline) as [remote [branch [-> Hremote]]].
  cbn [map remotes_of]. rewrite (split1_first _ _ _ Hremote), IH. reflexivity.
Qed.

(** X16: with every line of [git branch -r --contains <tag>] naming a
    branch as remote/branch and [official] the official remote,
    ReleaseTagged.check passes exactly when the short revision of the
    tag's commit differs from the short revision of the tag name, is
    not empty, is the short revision of HEAD, and some branch of the
    official remote contains the tag.  The tag itself is not looked for
    on the remote. *)
Theorem ReleaseTagged_check_passes (g : Git) (p : ReleasePreparer) (official : string)
  (Hofficial : get_official_maas_remote g = Return (Some official))
  (Hlines : Forall (fun line => contains "/" line = true)
              (git_branch_r_contains g (version p))) :
  let tagged_revision := get_git_short_rev g (get_tag_commit g (version p)) in
  ReleaseTagged_check g p = Return (true, None) <->
  tagged_revision <> get_git_short_rev g (version p) /\
  tagged_revision <> EmptyString /\
  tagged_revision = git_short_rev p /\
  existsb (fun line => String.eqb (hd EmptyString (split1 "/" line)) official)
          (git_branch_r_contains g (version p)) = true.
Proof.
  cbv zeta. unfold ReleaseTagged_check, get_remote_branches_containing. cbv zeta.
  rewrite Hofficial, (remotes_of_lines _ Hlines). cbn [bind eq_remote].
  rewrite existsb_map_hd.
  destruct (String.eqb_spec (get_git_short_rev g (get_tag_commit g (version p)))
              (get_git_short_rev g (version p))) as [E1|N1].
  { split; [discriminate | intros [H _]; contradiction]. }
  destruct (String.eqb_spec (get_git_short_rev g (get_tag_commit g (version p)))
              EmptyString) as [E2|N2].
  { split; [discriminate | intros [_ [H _]]; contradiction]. }
  destruct (String.eqb_spec (get_git_short_rev g (get_tag_commit g (version p)))
              (git_short_rev p)) as [E3|N3]; cbn [negb].
  2:{ split; [discriminate | intros [_ [_ [H _]]]; contradiction]. }
  destruct (existsb _ (git_branch_r_contains g (version p))); cbn [negb].
  - split; [intros _; auto | reflexivity].
  - split; [discriminate | intros [_ [_ [_ H]]]; discriminate].
Qed.

Lemma ReleaseTagged_check_passes_witness :
  ReleaseTagged_check sample_tagged_git (new_preparer sample_tagged_git "3.1.0" "auth")
  = Return (true, None).
Proof.
  refine (proj2 (ReleaseTagged_check_passes sample_tagged_git
                   (new_preparer sample_tagged_git "3.1.0" "auth") "origin" eq_refl _) _).
  - repeat constructor.
  - repeat split; discriminate.
Defined.

(** ** The PPA steps *)

Lemma mem_In (s : string) (l : list string) : mem s l = true <-> In s l.
Proof.
  unfold mem. rewrite existsb_exists. split.
  - intros [x [Hx E]]. apply String.eqb_eq in E. subst. exact Hx.
  - intros H. exists s. split; [exact H | apply String.eqb_refl].
Qed.

Lemma missing_archs_In (present : list string) (arch : string) :
  In arch (missing_archs present) <-> In arch BUILD_ARCHS /\ ~ In arch present.
Proof.
  unfold missing_archs. rewrite filter_In, negb_true_iff.
  split; intros [H1 H2]; (split; [exact H1|]).
  - intros Hin. apply mem_In in Hin. congruence.
  - destruct (mem arch present) eqn:E; [|reflexivity]. apply mem_In in E. contradiction.
Qed.

(** X17: where the PPA exists, MAASPPA.check passes exactly when every
    build architecture is among its processors, whatever else is; when
    it fails, the message lists the build architectures that are not,
    and only those. *)
Theorem MAASPPA_check_architectures (s : PPAStep) (ppa : Archive)
  (Hppa : person_ppa (ppa_owner s) (ppa_name s) = Some ppa) :
  (MAASPPA_check s = Return (true, None) <->
   forall arch, In arch BUILD_ARCHS -> In arch (archive_processors ppa)) /\
  (MAASPPA_check s <> Return (true, None) ->
   exists missing,
     MAASPPA_check s
     = Return (false, Some ("Missing build architectures: " ++ join ", " missing)) /\
     missing <> [] /\
     forall arch, In arch missing <->
                  In arch BUILD_ARCHS /\ ~ In arch (archive_processors ppa)).
Proof.
  unfold MAASPPA_check. rewrite Hppa. cbv zeta.
  pose proof (missing_archs_In (archive_processors ppa)) as Hmissing.
  destruct (missing_archs (archive_processors ppa)) as [|m rest] eqn:E.
  - split; [|intros H; now elim H].
    split; [|reflexivity]. intros _ arch Harch.
    destruct (mem arch (archive_processors ppa)) eqn:Hmem; [apply mem_In, Hmem|].
    exfalso. apply (proj2 (Hmissing arch)). split; [exact Harch|].
    intros Hin. apply mem_In in Hin. congruence.
  - split.
    + split; [discriminate|]. intros Hall. exfalso.
      destruct (proj1 (Hmissing m) (or_introl eq_refl)) as [Hb Hn]. apply Hn, Hall, Hb.
    + intros _. exists (m :: rest). split; [reflexivity|]. split; [discriminate|].
      exact Hmissing.
Qed.

Lemma MAASPPA_check_architectures_witness :
  MAASPPA_check {| ppa_type := "candidate"; ppa_name := "3.1-next";
                   ppa_owner := {| person_name := "maas";
                                   person_ppa := fun _ =>
                                     Some {| archive_processors :=
                                               ["s390x"; "i386"; "amd64"; "ppc64el"; "arm64"];
                                             archive_sources := [] |} |} |}
  = Return (true, None).
Proof.
  refine (proj2 (proj1 (MAASPPA_check_architectures
                          {| ppa_type := "candidate"; ppa_name := "3.1-next";
                             ppa_owner := {| person_name := "maas";
                                             person_ppa := fun _ => Some _ |} |}
                          {| archive_processors :=
                               ["s390x"; "i386"; "amd64"; "ppc64el"; "arm64"];
                             archive_sources := [] |} eq_refl)) _).
  intros arch H. simpl in *. intuition.
Defined.

Lemma copied_In (target_packages : list (string * string)) (name version : string) :
  copied target_packages name version = true <-> In (name, version) target_packages.
Proof.
  unfold copied. rewrite existsb_exists. split.
  - intros [[n v] [Hin E]]. cbn [fst snd] in E. apply andb_prop in E as [E1 E2].
    apply String.eqb_eq in E1, E2. subst. exact Hin.
  - intros H. exists (name, version). split; [exact H|].
    cbn [fst snd]. rewrite !String.eqb_refl. reflexivity.
Qed.

Lemma not_copied_none (target_packages : list (string * string))
  (sources : list SourcePackage) :
  not_copied target_packages sources = None <->
  forall package, In package sources ->
    In (source_package_name package, source_package_version package) target_packages.
Proof.
  induction sources as [|package rest IH]; cbn [not_copied].
  - split; [intros _ ? [] | reflexivity].
  - destruct (copied target_packages (source_package_name package)
                (source_package_version package)) eqn:E; cbn [negb].
    + rewrite IH. split.
      * intros H q [<- | Hq]; [apply copied_In, E | apply H, Hq].
      * intros H q Hq. apply H. right. exact Hq.
    + split; [discriminate|]. intros H. exfalso.
      assert (Hin : In package (package :: rest)) by (left; reflexivity).
      apply H, copied_In in Hin. congruence.
Qed.

Lemma not_copied_some (target_packages : list (string * string))
  (sources : list SourcePackage) (package : SourcePackage) :
  not_copied target_packages sources = Some package ->
  In package sources /\
  ~ In (source_package_name package, source_package_version package) target_packages.
Proof.
  induction sources as [|first rest IH]; cbn [not_copied]; [discriminate|].
  destruct (copied target_packages (source_package_name first)
              (source_package_version first)) eqn:E; cbn [negb].
  - intros H. destruct (IH H) as [Hin Hn]. split; [right; exact Hin | exact Hn].
  - intros [= <-]. split; [left; reflexivity|].
    intros Hin. apply copied_In in Hin. congruence.
Qed.

(** X18: _check_packages_copied passes exactly when every published
    source of the source PPA has its name and version among those of
    the target PPA; otherwise it fails naming one source package that
    is published in the source PPA and not, in that version, in the
    target. *)
Theorem check_packages_copied_subset (source_ppa target_ppa : Archive) :
  let target_packages :=
    map (fun package => (source_package_name package, source_package_version package))
        (archive_sources target_ppa) in
  (_check_packages_copied source_ppa target_ppa = Return (true, None) <->
   forall package, In package (archive_sources source_ppa) ->
     In (source_package_name package, source_package_version package) target_packages) /\
  (_check_packages_copied source_ppa target_ppa <> Return (true, None) ->
   exists package,
     In package (archive_sources source_ppa) /\
     ~ In (source_package_name package, source_package_version package) target_packages /\
     _check_packages_copied source_ppa target_ppa
     = Return (false, Some (source_package_name package ++ " "
                            ++ source_package_version package
                            ++ " has not been copied"))).
Proof.
  cbv zeta. unfold _check_packages_copied. cbv zeta.
  destruct (not_copied _ (archive_sources source_ppa)) as [package|] eqn:E.
  - split.
    + split; [discriminate|]. intros H. apply not_copied_none in H. congruence.
    + intros _. exists package. destruct (not_copied_some _ _ _ E) as [Hin Hn].
      repeat split; assumption.
  - split; [|intros H; now elim H].
    split; [intros _; apply not_copied_none, E | reflexivity].
Qed.

Lemma check_packages_copied_subset_witness :
  _check_packages_copied
    {| archive_processors := [];
       archive_sources := [ {| source_package_name := "maas";
                               source_package_version := "1:3.1.0-1" |} ] |}
    {| archive_processors := []; archive_sources := [] |}
  = Return (false, Some "maas 1:3.1.0-1 has not been copied").
Proof.
  destruct (proj2 (check_packages_copied_subset
                     {| archive_processors := [];
                        archive_sources := [ {| source_package_name := "maas";
                                                source_package_version := "1:3.1.0-1" |} ] |}
                     {| archive_processors := []; archive_sources := [] |}))
    as [package [[<- | []] [_ H]]]; [discriminate | exact H].
Defined.

(** X19: the release-preparation PPA of the user is both ends of the
    copy chain.  With the team maas known, the step made for the type
    release-preparation has the user's PPA maas-<major>-next, which
    PackagesCopiedFromDeps compares with maas-committers/latest-deps as
    the target; the step made for the type candidate has the team's PPA
    <major>-next, and PackagesCopiedToReleasePPA compares it with that
    same PPA of the user as the source. *)
Theorem packages_copied_chain (lp : People) (p : ReleasePreparer) (maas : Person)
  (Hmaas : people_named lp "maas" = Some maas) :
  let prepared := {| ppa_type := "release-preparation";
                     ppa_name := release_preparation_ppa_name p;
                     ppa_owner := people_me lp |} in
  let candidate := {| ppa_type := "candidate";
                      ppa_name := major_version p ++ "-next";
                      ppa_owner := maas |} in
  MAASPPA_init lp p "release-preparation" = inr prepared /\
  MAASPPA_init lp p "candidate" = inr candidate /\
  (forall committers deps target,
     people_named lp "maas-committers" = Some committers ->
     person_ppa committers "latest-deps" = Some deps ->
     person_ppa (people_me lp) (release_preparation_ppa_name p) = Some target ->
     PackagesCopiedFromDeps_check lp prepared = _check_packages_copied deps target) /\
  (forall source target,
     person_ppa (people_me lp) (release_preparation_ppa_name p) = Some source ->
     person_ppa maas (major_version p ++ "-next") = Some target ->
     PackagesCopiedToReleasePPA_check lp candidate = _check_packages_copied source target).
Proof.
  cbv zeta. unfold MAASPPA_init. rewrite Hmaas. cbv zeta.
  split; [reflexivity|]. split; [reflexivity|]. split.
  - intros committers deps target Hc Hdeps Htarget.
    unfold PackagesCopiedFromDeps_check. rewrite Hc, Hdeps. cbn [ppa_owner ppa_name].
    rewrite Htarget. reflexivity.
  - intros source target Hsource Htarget.
    unfold PackagesCopiedToReleasePPA_check. cbn [ppa_owner ppa_name].
    change ("maas-" ++ major_version p ++ "-next") with (release_preparation_ppa_name p).
    rewrite Hsource, Htarget. reflexivity.
Qed.

Lemma packages_copied_chain_witness :
  PackagesCopiedToReleasePPA_check
    (sample_people BUILD_ARCHS
       [ {| source_package_name := "maas"; source_package_version := "1:3.1.0-1" |} ] [])
    {| ppa_type := "candidate";
       ppa_name := major_version (sample_preparer "3.1.0") ++ "-next";
       ppa_owner := {| person_name := "maas";
                       person_ppa := fun name =>
                         if String.eqb name "3.1-next"
                         then Some {| archive_processors := BUILD_ARCHS;
                                      archive_sources := [] |}
                         else None |} |}
  = Return (false, Some "maas 1:3.1.0-1 has not been copied").
Proof.
  rewrite (proj2 (proj2 (proj2 (packages_copied_chain
             (sample_people BUILD_ARCHS
                [ {| source_package_name := "maas";
                     source_package_version := "1:3.1.0-1" |} ] [])
             (sample_preparer "3.1.0") _ eq_refl))) _ _ eq_refl eq_refl).
  reflexivity.
Defined.

(** ** The snap revisions *)

Lemma map_append_arch (f : string -> list json) (arch : string) (revision : json) :
  In arch BUILD_ARCHS ->
  map_append arch revision (map (fun a => (a, f a)) BUILD_ARCHS)
  = Some (map (fun a => (a, if String.eqb a arch then List.app (f a) [revision] else f a))
              BUILD_ARCHS).
Proof.
  intros [<- | [<- | [<- | [<- | []]]]]; reflexivity.
Qed.

Lemma map_append_foreign (f : string -> list json) (arch : string) (revision : json) :
  ~ In arch BUILD_ARCHS ->
  map_append arch revision (map (fun a => (a, f a)) BUILD_ARCHS) = None.
Proof.
  intros Hn. cbn [map BUILD_ARCHS map_append].
  repeat match goal with
         | |- context [String.eqb ?k arch] =>
             destruct (String.eqb_spec k arch) as [E|_];
             [exfalso; apply Hn; rewrite <- E; simpl; tauto|]
         end.
  reflexivity.
Qed.

Section Snaps.

Variable py_str_other : json -> string.
Variable py_gt : json -> json -> Outcome bool.
Variable p : ReleasePreparer.

(** One turn of the loop on a well-formed history entry. *)
Lemma collect_step (r : Revision) (rest : list json) (m : RevisionMap) :
  collect_revisions py_str_other p (revision_json r :: rest) m
  = if matches p r then
      (revision_map <- append_revision py_str_other (JStr (rev_arch r)) (revision_json r) m ;;
       collect_revisions py_str_other p rest revision_map)
    else collect_revisions py_str_other p rest m.
Proof.
  unfold matches. cbn [collect_revisions]. cbv zeta.
  change (py_getitem (revision_json r) "version") with (Return (JStr (rev_version r))).
  cbn [bind py_startswith py_endswith].
  destruct (startswith (rev_version r) (replace "-" "~" (version p))); cbn [negb andb];
    [|reflexivity].
  destruct (endswith (rev_version r) (git_short_rev p)); cbn [negb]; reflexivity.
Qed.

Lemma collect_grouped (revisions : list Revision) :
  (forall r, In r revisions -> matches p r = true -> In (rev_arch r) BUILD_ARCHS) ->
  forall f : string -> list Revision,
    collect_revisions py_str_other p (map revision_json revisions)
      (map (fun a => (a, map revision_json (f a))) BUILD_ARCHS)
    = Return (map (fun a =>
                     (a, map revision_json
                           (List.app (f a)
                              (filter (fun r => matches p r && String.eqb (rev_arch r) a)
                                      revisions))))
                  BUILD_ARCHS).
Proof.
  induction revisions as [|r rest IH]; intros Harch f.
  - cbn [map collect_revisions filter]. f_equal. apply map_ext. intros a.
    rewrite List.app_nil_r. reflexivity.
  - cbn [map]. rewrite collect_step.
    assert (Hrest : forall r', In r' rest -> matches p r' = true ->
                               In (rev_arch r') BUILD_ARCHS)
      by (intros r' Hin; apply Harch; right; exact Hin).
    destruct (matches p r) eqn:Hm.
    + cbn [append_revision].
      rewrite (map_append_arch (fun a => map revision_json (f a)))
        by (apply Harch; [left; reflexivity | exact Hm]).
      cbn [bind].
      replace (map (fun a => (a, if String.eqb a (rev_arch r)
                                 then List.app (map revision_json (f a)) [revision_json r]
                                 else map revision_json (f a))) BUILD_ARCHS)
        with (map (fun a => (a, map revision_json
                                  (if String.eqb a (rev_arch r)
                                   then List.app (f a) [r] else f a))) BUILD_ARCHS).
      2:{ apply map_ext. intros a. destruct (String.eqb a (rev_arch r)); [|reflexivity].
          rewrite List.map_app. reflexivity. }
      rewrite (IH Hrest). f_equal. apply map_ext. intros a.
      cbn [filter]. rewrite Hm. cbn [andb]. rewrite (String.eqb_sym (rev_arch r) a).
      destruct (String.eqb a (rev_arch r)); [|reflexivity].
      rewrite <- List.app_assoc. reflexivity.
    + rewrite (IH Hrest). f_equal. apply map_ext. intros a.
      cbn [filter]. rewrite Hm. reflexivity.
Qed.

Lemma get_revisions_history (revisions : list Revision) (snap_name : string) :
  (forall r, In r revisions -> matches p r = true -> In (rev_arch r) BUILD_ARCHS) ->
  _get_revisisions py_str_other (history_response revisions) p snap_name
  = Return (Some (map (fun arch =>
                         (arch, map revision_json
                                  (filter (fun r => matches p r
                                                    && String.eqb (rev_arch r) arch)
                                          revisions)))
                      BUILD_ARCHS),
            None).
Proof.
  intros Harch.
  unfold _get_revisisions. cbn [get_macaroon_auth_error history_response status_code
                                 Z.eqb Pos.eqb orb bind truthy res_json json_body py_iter].
  cbv zeta.
  pose proof (collect_grouped revisions Harch (fun _ => [])) as H.
  cbn [map List.app] in H. cbn [map]. rewrite H. reflexivity.
Qed.

(** X20: on an answer 200, _get_revisisions gives, for each build
    architecture in turn, the history entries of that architecture whose
    version starts with the package version and ends with the short
    revision, in the order of the history; entries that do not match are
    passed over whatever their architecture is. *)
Theorem get_revisions_grouped (revisions : list Revision) (snap_name : string)
  (Harch : forall r, In r revisions -> matches p r = true -> In (rev_arch r) BUILD_ARCHS) :
  _get_revisisions py_str_other (history_response revisions) p snap_name
  = Return (Some (map (fun arch =>
                         (arch, map revision_json
                                  (filter (fun r => matches p r
                                                    && String.eqb (rev_arch r) arch)
                                          revisions)))
                      BUILD_ARCHS),
            None).
Proof. exact (get_revisions_history revisions snap_name Harch). Qed.

(** X21: a matching history entry for an architecture outside
    BUILD_ARCHS makes _get_revisisions raise KeyError on it, when the
    matching entries before it are all for build architectures. *)
Theorem get_revisions_foreign_architecture (before : list Revision) (r : Revision)
  (after : list Revision) (snap_name : string)
  (Hbefore : forall r', In r' before -> matches p r' = true ->
                        In (rev_arch r') BUILD_ARCHS)
  (Hmatch : matches p r = true)
  (Hforeign : ~ In (rev_arch r) BUILD_ARCHS) :
  _get_revisisions py_str_other (history_response (List.app before (r :: after))) p snap_name
  = Raise (KeyError (rev_arch r)).
Proof.
  unfold _get_revisisions. cbn [get_macaroon_auth_error history_response status_code
                                 Z.eqb Pos.eqb orb bind truthy res_json json_body py_iter].
  cbv zeta. rewrite List.map_app.
  assert (Happ : forall (l1 l2 : list json) m,
             collect_revisions py_str_other p (List.app l1 l2) m
             = (m' <- collect_revisions py_str_other p l1 m ;;
                collect_revisions py_str_other p l2 m')).
  { induction l1 as [|x l1 IH]; intros l2 m; [reflexivity|].
    cbn [List.app collect_revisions]. cbv zeta.
    destruct (py_getitem x "version") as [ver|]; [|reflexivity]. cbn [bind].
    destruct (py_startswith ver _) as [[|]|]; cbn [bind negb]; try apply IH; try reflexivity.
    destruct (py_endswith ver _) as [[|]|]; cbn [bind negb]; try apply IH; try reflexivity.
    destruct (py_getitem x "arch") as [arch|]; [|reflexivity]. cbn [bind].
    destruct (append_revision _ arch x m) as [m'|]; [|reflexivity]. cbn [bind]. apply IH. }
  rewrite Happ.
  pose proof (collect_grouped before Hbefore (fun _ => [])) as H.
  cbn [map List.app] in H. cbn [map]. rewrite H. cbn [bind].
  match goal with
  | |- context [collect_revisions _ _ (revision_json r :: ?rest) ?m] =>
      rewrite (collect_step r rest m)
  end.
  rewrite Hmatch. cbn [append_revision].
  rewrite (map_append_foreign
             (fun a => map revision_json
                         (filter (fun r0 => matches p r0 && String.eqb (rev_arch r0) a)
                                 before)))
    by exact Hforeign.
  reflexivity.
Qed.

Lemma any_in_channel_history (channel : string) (l : list Revision) :
  any_in_channel channel (map revision_json l)
  = Return (existsb (fun r => existsb (fun c => String.eqb c channel) (rev_channels r)) l).
Proof.
  induction l as [|r l IH]; [reflexivity|].
  cbn [map any_in_channel]. rewrite IH.
  unfold in_channel.
  change (py_getitem (revision_json r) "channels")
    with (Return (JArr (map JStr (rev_channels r)))).
  cbn [bind py_iter existsb]. do 2 f_equal.
  induction (rev_channels r) as [|c cs IHc]; [reflexivity|].
  cbn [map existsb json_is]. rewrite IHc. reflexivity.
Qed.

Lemma released_history (channel : string) (h : string -> list Revision) (archs : list string) :
  released_archs channel (map (fun a => (a, map revision_json (h a))) archs)
  = Return (filter (fun a => existsb (fun r => existsb (fun c => String.eqb c channel)
                                                       (rev_channels r)) (h a))
                   archs).
Proof.
  induction archs as [|a archs IH]; [reflexivity|].
  cbn [map released_archs filter]. rewrite any_in_channel_history, IH. cbn [bind].
  destruct (existsb _ (h a)); reflexivity.
Qed.

Lemma released_In (channel : string) (revisions : list Revision) (arch : string) :
  existsb (fun r => existsb (fun c => String.eqb c channel) (rev_channels r))
          (filter (built_for p arch) revisions) = true <->
  exists r, In r revisions /\ matches p r = true /\ rev_arch r = arch /\
            In channel (rev_channels r).
Proof.
  rewrite existsb_exists. unfold built_for. split.
  - intros [r [Hin Hc]]. apply filter_In in Hin as [Hin Hb].
    apply andb_prop in Hb as [Hm Ha]. apply String.eqb_eq in Ha.
    apply existsb_exists in Hc as [c [Hc E]]. apply String.eqb_eq in E. subst c.
    exists r. auto.
  - intros [r [Hin [Hm [Ha Hc]]]]. exists r. split.
    + apply filter_In. split; [exact Hin|]. rewrite Hm, Ha, String.eqb_refl. reflexivity.
    + apply existsb_exists. exists channel. split; [exact Hc | apply String.eqb_refl].
Qed.

Lemma SnapsInChannel_history (revisions : list Revision) (channel : string) :
  (forall r, In r revisions -> matches p r = true -> In (rev_arch r) BUILD_ARCHS) ->
  SnapsInChannel_check py_str_other (history_response revisions) p channel
  = let missing :=
      missing_archs
        (filter (fun a => existsb (fun r => existsb (fun c => String.eqb c channel)
                                                    (rev_channels r))
                                  (filter (built_for p a) revisions))
                BUILD_ARCHS) in
    if negb (is_empty missing)
    then Return (false, Some ("Missing releases for: " ++ join ", " missing))
    else Return (true, None).
Proof.
  intros Harch. unfold SnapsInChannel_check.
  rewrite (get_revisions_history revisions "maas" Harch). cbn [bind fst snd].
  rewrite (released_history channel (fun a => filter (built_for p a) revisions)).
  reflexivity.
Qed.

Lemma SnapsInChannel_released_iff (revisions : list Revision) (channel : string)
  (Harch : forall r, In r revisions -> matches p r = true -> In (rev_arch r) BUILD_ARCHS) :
  let released arch :=
    exists r, In r revisions /\ matches p r = true /\ rev_arch r = arch /\
              In channel (rev_channels r) in
  (SnapsInChannel_check py_str_other (history_response revisions) p channel
   = Return (true, None) <->
   forall arch, In arch BUILD_ARCHS -> released arch) /\
  (SnapsInChannel_check py_str_other (history_response revisions) p channel
   <> Return (true, None) ->
   exists missing,
     SnapsInChannel_check py_str_other (history_response revisions) p channel
     = Return (false, Some ("Missing releases for: " ++ join ", " missing)) /\
     forall arch, In arch missing <-> In arch BUILD_ARCHS /\ ~ released arch).
Proof.
  cbv zeta. rewrite (SnapsInChannel_history revisions channel Harch). cbv zeta.
  set (released := filter _ BUILD_ARCHS).
  assert (Hreleased : forall arch,
             In arch released <->
             In arch BUILD_ARCHS /\
             exists r, In r revisions /\ matches p r = true /\ rev_arch r = arch /\
                       In channel (rev_channels r)).
  { intros arch. unfold released. rewrite filter_In, released_In. reflexivity. }
  pose proof (missing_archs_In released) as Hmissing.
  destruct (missing_archs released) as [|m rest]; cbn [is_empty negb].
  - split; [|intros H; now elim H].
    split; [|reflexivity]. intros _ arch Hin.
    destruct (mem arch released) eqn:E.
    + apply mem_In, Hreleased in E. apply E.
    + exfalso. apply (proj2 (Hmissing arch)). split; [exact Hin|].
      intros H. apply mem_In in H. congruence.
  - split.
    + split; [discriminate|]. intros Hall. exfalso.
      destruct (proj1 (Hmissing m) (or_introl eq_refl)) as [Hb Hn].
      apply Hn, Hreleased. split; [exact Hb | apply Hall, Hb].
    + intros _. exists (m :: rest). split; [reflexivity|].
      intros arch. rewrite Hmissing, Hreleased. tauto.
Qed.

(** X22: on a history whose matching entries are all for build
    architectures, SnapsInChannel.check passes exactly when every build
    architecture has a matching entry that lists the channel among its
    channels; otherwise it fails listing the architectures that have
    none, and only those. *)
Theorem SnapsInChannel_check_released (revisions : list Revision) (channel : string)
  (Harch : forall r, In r revisions -> matches p r = true -> In (rev_arch r) BUILD_ARCHS) :
  let released arch :=
    exists r, In r revisions /\ matches p r = true /\ rev_arch r = arch /\
              In channel (rev_channels r) in
  (SnapsInChannel_check py_str_other (history_response revisions) p channel
   = Return (true, None) <->
   forall arch, In arch BUILD_ARCHS -> released arch) /\
  (SnapsInChannel_check py_str_other (history_response revisions) p channel
   <> Return (true, None) ->
   exists missing,
     SnapsInChannel_check py_str_other (history_response revisions) p channel
     = Return (false, Some ("Missing releases for: " ++ join ", " missing)) /\
     forall arch, In arch missing <-> In arch BUILD_ARCHS /\ ~ released arch).
Proof. exact (SnapsInChannel_released_iff revisions channel Harch). Qed.

Lemma sorted_archs (h : string -> bool) :
  sorted (filter h BUILD_ARCHS) = filter h BUILD_ARCHS.
Proof.
  unfold BUILD_ARCHS. cbn [filter].
  destruct (h "amd64"), (h "arm64"), (h "ppc64el"), (h "s390x"); reflexivity.
Qed.

Lemma empty_keys (g : string -> list Revision) (archs : list string) :
  map fst (filter (fun item => is_empty (snd item))
                  (map (fun a => (a, map revision_json (g a))) archs))
  = filter (fun a => is_empty (g a)) archs.
Proof.
  induction archs as [|a archs IH]; [reflexivity|].
  cbn [map filter snd]. destruct (g a); cbn [map is_empty fst]; rewrite IH; reflexivity.
Qed.

Lemma is_empty_filter {A : Type} (h : A -> bool) (l : list A) :
  is_empty (filter h l) = negb (existsb h l).
Proof.
  induction l as [|x l IH]; [reflexivity|].
  cbn [filter existsb]. destruct (h x); [reflexivity | exact IH].
Qed.

Lemma built_In (revisions : list Revision) (arch : string) :
  existsb (built_for p arch) revisions = true <->
  exists r, In r revisions /\ matches p r = true /\ rev_arch r = arch.
Proof.
  rewrite existsb_exists. unfold built_for. split.
  - intros [r [Hin Hb]]. apply andb_prop in Hb as [Hm Ha]. apply String.eqb_eq in Ha.
    exists r. auto.
  - intros [r [Hin [Hm Ha]]]. exists r. split; [exact Hin|].
    rewrite Hm, Ha, String.eqb_refl. reflexivity.
Qed.

Lemma max_from_returns (Hgt : forall x y, returns (py_gt x y) = true)
  (l : list Revision) :
  forall greatest, exists j, max_from py_gt greatest (map revision_json l) = Return j.
Proof.
  induction l as [|r l IH]; intros greatest; [eexists; reflexivity|].
  cbn [map max_from].
  change (py_getitem (revision_json r) "revision") with (Return (JNum (rev_number r))).
  cbn [bind]. specialize (Hgt (JNum (rev_number r)) greatest).
  destruct (py_gt (JNum (rev_number r)) greatest) as [greater|]; [|discriminate].
  cbn [bind]. apply IH.
Qed.

Lemma revision_info_returns (Hgt : forall x y, returns (py_gt x y) = true)
  (g : string -> list Revision) (archs : list string) :
  (forall a, In a archs -> g a <> []) ->
  exists info,
    revision_info py_str_other py_gt (map (fun a => (a, map revision_json (g a))) archs)
    = Return info.
Proof.
  induction archs as [|a archs IH]; intros Hne; [eexists; reflexivity|].
  cbn [map revision_info].
  pose proof (Hne a (or_introl eq_refl)) as Ha.
  destruct (g a) as [|r l]; [now elim Ha|].
  cbn [map latest].
  change (py_getitem (revision_json r) "revision") with (Return (JNum (rev_number r))).
  cbn [bind]. destruct (max_from_returns Hgt l (JNum (rev_number r))) as [j ->].
  cbn [bind]. destruct IH as [info ->]; [intros b Hb; apply Hne; right; exact Hb|].
  eexists. reflexivity.
Qed.

Lemma SnapsUploaded_builds_iff (revisions : list Revision) :
  (forall r, In r revisions -> matches p r = true -> In (rev_arch r) BUILD_ARCHS) ->
  let built arch :=
    exists r, In r revisions /\ matches p r = true /\ rev_arch r = arch in
  ((exists arch, In arch BUILD_ARCHS /\ ~ built arch) ->
   exists missing,
     SnapsUploaded_check py_str_other py_gt (history_response revisions) p
     = Return (false, Some ("Missing builds for: " ++ join ", " missing)) /\
     forall arch, In arch missing <-> In arch BUILD_ARCHS /\ ~ built arch) /\
  ((forall arch, In arch BUILD_ARCHS -> built arch) ->
   (forall x y, returns (py_gt x y) = true) ->
   exists info,
     SnapsUploaded_check py_str_other py_gt (history_response revisions) p
     = Return (true, Some info)).
Proof.
  intros Harch. cbv zeta. unfold SnapsUploaded_check.
  rewrite (get_revisions_history revisions "maas" Harch). cbn [bind fst snd]. cbv zeta.
  rewrite (empty_keys (fun a => filter (fun r => matches p r && String.eqb (rev_arch r) a)
                                       revisions)).
  rewrite sorted_archs.
  set (missing := filter _ BUILD_ARCHS).
  assert (Hmissing : forall arch,
             In arch missing <->
             In arch BUILD_ARCHS /\
             ~ exists r, In r revisions /\ matches p r = true /\ rev_arch r = arch).
  { intros arch. unfold missing. rewrite filter_In, is_empty_filter, negb_true_iff.
    rewrite <- (built_In revisions arch). unfold built_for.
    destruct (existsb _ revisions); split; intros [H1 H2]; (split; [exact H1|]);
      congruence. }
  split.
  - intros [arch [Hin Hn]]. exists missing.
    destruct missing as [|m rest] eqn:E.
    + exfalso. apply (proj2 (Hmissing arch)). auto.
    + cbn [is_empty negb]. split; [reflexivity | exact Hmissing].
  - intros Hall Hgt.
    destruct missing as [|m rest] eqn:E.
    + cbn [is_empty negb].
      destruct (revision_info_returns Hgt
                  (fun a => filter (fun r => matches p r && String.eqb (rev_arch r) a)
                                   revisions) BUILD_ARCHS) as [info Hinfo].
      { intros a Ha Hempty. destruct (Hall a Ha) as [r [Hin [Hm Hr]]].
        assert (Hf : In r (filter (fun r => matches p r && String.eqb (rev_arch r) a)
                                  revisions)).
        { apply filter_In. split; [exact Hin|]. rewrite Hm, Hr, String.eqb_refl.
          reflexivity. }
        rewrite Hempty in Hf. exact Hf. }
      rewrite Hinfo. eexists. reflexivity.
    + exfalso. destruct (proj1 (Hmissing m) (or_introl eq_refl)) as [Hb Hn].
      apply Hn, Hall, Hb.
Qed.

(** X23: on a history whose matching entries are all for build
    architectures, SnapsUploaded.check fails when a build architecture
    has no matching entry, listing the architectures that have none and
    only those; when every build architecture has one, and the revision
    numbers compare, it passes with a message. *)
Theorem SnapsUploaded_check_builds (revisions : list Revision)
  (Harch : forall r, In r revisions -> matches p r = true -> In (rev_arch r) BUILD_ARCHS) :
  let built arch :=
    exists r, In r revisions /\ matches p r = true /\ rev_arch r = arch in
  ((exists arch, In arch BUILD_ARCHS /\ ~ built arch) ->
   exists missing,
     SnapsUploaded_check py_str_other py_gt (history_response revisions) p
     = Return (false, Some ("Missing builds for: " ++ join ", " missing)) /\
     forall arch, In arch missing <-> In arch BUILD_ARCHS /\ ~ built arch) /\
  ((forall arch, In arch BUILD_ARCHS -> built arch) ->
   (forall x y, returns (py_gt x y) = true) ->
   exists info,
     SnapsUploaded_check py_str_other py_gt (history_response revisions) p
     = Return (true, Some info)).
Proof. exact (SnapsUploaded_builds_iff revisions Harch). Qed.

(** X24: what is released is uploaded: on the same history, when
    SnapsInChannel.check passes for some channel and the revision
    numbers compare, SnapsUploaded.check passes too. *)
Theorem released_is_uploaded (revisions : list Revision) (channel : string)
  (Harch : forall r, In r revisions -> matches p r = true -> In (rev_arch r) BUILD_ARCHS)
  (Hgt : forall x y, returns (py_gt x y) = true)
  (Hreleased : SnapsInChannel_check py_str_other (history_response revisions) p channel
               = Return (true, None)) :
  exists info,
    SnapsUploaded_check py_str_other py_gt (history_response revisions) p
    = Return (true, Some info).
Proof.
  apply (proj2 (SnapsUploaded_builds_iff revisions Harch)); [|exact Hgt].
  intros arch Hin.
  destruct (proj1 (proj1 (SnapsInChannel_released_iff revisions channel Harch)) Hreleased
              arch Hin) as [r [H1 [H2 [H3 _]]]].
  exists r. auto.
Qed.

End Snaps.

Lemma sample_revisions_archs :
  forall r, In r sample_revisions -> matches (sample_preparer "3.1.0") r = true ->
            In (rev_arch r) BUILD_ARCHS.
Proof.
  intros r [<- | [<- | [<- | [<- | [<- | []]]]]]; try discriminate; intros _; simpl; tauto.
Qed.

Lemma get_revisions_grouped_witness :
  _get_revisisions sample_str (history_response sample_revisions)
    (sample_preparer "3.1.0") "maas"
  = Return (Some (map (fun arch =>
                         (arch, map revision_json
                                  (filter (fun r => matches (sample_preparer "3.1.0") r
                                                    && String.eqb (rev_arch r) arch)
                                          sample_revisions)))
                      BUILD_ARCHS),
            None).
Proof.
  exact (get_revisions_grouped sample_str (sample_preparer "3.1.0") sample_revisions "maas"
           sample_revisions_archs).
Defined.

Lemma get_revisions_foreign_architecture_witness :
  _get_revisisions sample_str
    (history_response
       (List.app sample_revisions
          ({| rev_number := "101"; rev_version := "3.1.0-10000-g.a1b2c3d";
              rev_arch := "armhf"; rev_channels := [] |} :: [])))
    (sample_preparer "3.1.0") "maas"
  = Raise (KeyError "armhf").
Proof.
  refine (get_revisions_foreign_architecture sample_str (sample_preparer "3.1.0")
            sample_revisions
            {| rev_number := "101"; rev_version := "3.1.0-10000-g.a1b2c3d";
               rev_arch := "armhf"; rev_channels := [] |} [] "maas"
            sample_revisions_archs eq_refl _).
  simpl. intuition discriminate.
Defined.

Lemma SnapsInChannel_check_released_witness :
  SnapsInChannel_check sample_str (history_response sample_revisions)
    (sample_preparer "3.1.0") "3.1/stable"
  = Return (true, None).
Proof.
  apply (proj2 (proj1 (SnapsInChannel_check_released sample_str (sample_preparer "3.1.0")
                         sample_revisions "3.1/stable" sample_revisions_archs))).
  intros arch [<- | [<- | [<- | [<- | []]]]];
    match goal with
    | |- exists r, _ /\ _ /\ rev_arch r = ?a /\ _ =>
        exists {| rev_number := "100"; rev_version := "3.1.0-10000-g.a1b2c3d";
                  rev_arch := a; rev_channels := ["3.1/stable"] |}
    end;
    (split; [simpl; auto 10 | split; [reflexivity | split; [reflexivity | simpl; auto]]]).
Defined.

Lemma SnapsUploaded_check_builds_witness :
  exists missing,
    SnapsUploaded_check sample_str sample_gt (history_response [])
      (sample_preparer "3.1.0")
    = Return (false, Some ("Missing builds for: " ++ join ", " missing)).
Proof.
  destruct (proj1 (SnapsUploaded_check_builds sample_str sample_gt (sample_preparer "3.1.0")
                     [] (fun r (H : In r []) => match H with end)))
    as [missing [H _]].
  - exists "amd64". split; [left; reflexivity|]. intros [r [[] _]].
  - exists missing. exact H.
Defined.

Lemma released_is_uploaded_witness :
  exists info,
    SnapsUploaded_check sample_str sample_gt (history_response sample_revisions)
      (sample_preparer "3.1.0")
    = Return (true, Some info).
Proof.
  exact (released_is_uploaded sample_str sample_gt (sample_preparer "3.1.0")
           sample_revisions "3.1/stable" sample_revisions_archs
           (fun _ _ => eq_refl) eq_refl).
Defined.

(** X25: an answer of the history request that carries an error.  For
    a status other than 200, 404, 401 and 403 with a non-empty body,
    both snap checks fail with the body as their message.  With an
    empty body the answer is not taken for an error: the history is
    decoded all the same, and a body that is not JSON makes both checks
    raise. *)
Theorem snaps_checks_on_error (py_str_other : json -> string)
  (py_gt : json -> json -> Outcome bool) (res : Response) (p : ReleasePreparer)
  (channel : string)
  (H200 : status_code res <> 200%Z) (H404 : status_code res <> 404%Z)
  (H401 : status_code res <> 401%Z) (H403 : status_code res <> 403%Z) :
  (text res <> EmptyString ->
   SnapsUploaded_check py_str_other py_gt res p = Return (false, Some (text res)) /\
   SnapsInChannel_check py_str_other res p channel = Return (false, Some (text res))) /\
  (text res = EmptyString -> json_body res = None ->
   SnapsUploaded_check py_str_other py_gt res p = Raise JSONDecodeError /\
   SnapsInChannel_check py_str_other res p channel = Raise JSONDecodeError).
Proof.
  unfold SnapsUploaded_check, SnapsInChannel_check, _get_revisisions,
    get_macaroon_auth_error.
  apply Z.eqb_neq in H200, H404, H401, H403. rewrite H200, H404, H401, H403.
  cbn [orb bind truthy]. split.
  - intros Htext. apply String.eqb_neq in Htext. rewrite Htext. split; reflexivity.
  - intros Htext Hbody. rewrite Htext. unfold res_json. rewrite Hbody. split; reflexivity.
Qed.

Lemma snaps_checks_on_error_witness :
  SnapsUploaded_check sample_str sample_gt
    {| status_code := 500; text := "Internal Server Error"; json_body := None |}
    (sample_preparer "3.1.0")
  = Return (false, Some "Internal Server Error") /\
  SnapsInChannel_check sample_str
    {| status_code := 500; text := ""; json_body := None |}
    (sample_preparer "3.1.0") "3.1/stable"
  = Raise JSONDecodeError.
Proof.
  split.
  - apply (proj1 (snaps_checks_on_error sample_str sample_gt
                    {| status_code := 500; text := "Internal Server Error";
                       json_body := None |} (sample_preparer "3.1.0") "3.1/stable"
                    ltac:(discriminate) ltac:(discriminate) ltac:(discriminate)
                    ltac:(discriminate))).
    discriminate.
  - apply (proj2 (snaps_checks_on_error sample_str sample_gt
                    {| status_code := 500; text := ""; json_body := None |}
                    (sample_preparer "3.1.0") "3.1/stable"
                    ltac:(discriminate) ltac:(discriminate) ltac:(discriminate)
                    ltac:(discriminate))); reflexivity.
Defined.

(** X26: a 404 answer of the history request is read as a history.
    With a body that is not JSON the lookup raises; with a JSON object
    that has a member it raises TypeError on the first key; with the
    empty object SnapsUploaded.check reports every build architecture
    as missing. *)
Theorem get_revisions_on_404 (py_str_other : json -> string)
  (py_gt : json -> json -> Outcome bool) (res : Response) (p : ReleasePreparer)
  (snap_name : string)
  (Hstatus : status_code res = 404%Z) :
  (json_body res = None ->
   _get_revisisions py_str_other res p snap_name = Raise JSONDecodeError) /\
  (forall key value members,
     json_body res = Some (JObj ((key, value) :: members)) ->
     _get_revisisions py_str_other res p snap_name = Raise TypeError) /\
  (json_body res = Some (JObj []) ->
   SnapsUploaded_check py_str_other py_gt res p
   = Return (false, Some "Missing builds for: amd64, arm64, ppc64el, s390x")).
Proof.
  unfold SnapsUploaded_check, _get_revisisions, get_macaroon_auth_error, res_json.
  rewrite Hstatus. cbn [Z.eqb Pos.eqb orb bind truthy]. cbv zeta.
  repeat split.
  - intros ->. reflexivity.
  - intros key value members ->. reflexivity.
  - intros ->. reflexivity.
Qed.

Lemma get_revisions_on_404_witness :
  SnapsUploaded_check sample_str sample_gt
    {| status_code := 404; text := "{}"; json_body := Some (JObj []) |}
    (sample_preparer "3.1.0")
  = Return (false, Some "Missing builds for: amd64, arm64, ppc64el, s390x").
Proof.
  exact (proj2 (proj2 (get_revisions_on_404 sample_str sample_gt
                         {| status_code := 404; text := "{}"; json_body := Some (JObj []) |}
                         (sample_preparer "3.1.0") "maas" eq_refl)) eq_refl).
Defined.

(** ** Package versions *)

(** [replace] of one character leaves none behind. *)
Lemma replace_char_gone (c : ascii) (new s : string) :
  contains (String c EmptyString) new = false ->
  contains (String c EmptyString) (replace (String c EmptyString) new s) = false.
Proof.
  intros Hnew. unfold replace. induction s as [|a r IH]; [reflexivity|].
  cbn [replace_from String.prefix String.length Nat.sub].
  destruct (ascii_dec c a) as [->|ne].
  - replace (String.prefix EmptyString r) with true by (now destruct r).
    apply absent_app; assumption.
  - apply absent_cons; [|exact IH].
    destruct (Ascii.eqb_spec a c) as [->|_]; [now elim ne | reflexivity].
Qed.

Lemma replace_char_app (c : ascii) (new x y : string) :
  replace (String c EmptyString) new (x ++ y)
  = replace (String c EmptyString) new x ++ replace (String c EmptyString) new y.
Proof.
  unfold replace. induction x as [|a x IH]; [reflexivity|].
  cbn [append replace_from String.prefix String.length Nat.sub].
  destruct (ascii_dec c a) as [->|ne].
  - replace (String.prefix EmptyString (x ++ y)) with true by (now destruct (x ++ y)).
    replace (String.prefix EmptyString x) with true by (now destruct x).
    rewrite IH, app_assoc. reflexivity.
  - cbn [append]. rewrite IH. reflexivity.
Qed.

(** What [_check_version] answers on the version of a built package,
    after an epoch or without one. *)
Lemma check_version_build (p : ReleasePreparer) (count rev rest : string)
  (Hcount : contains "-" count = false)
  (Hrev : contains "-" rev = false) :
  let built := replace "-" "~" (version p) ++ "-" ++ count
               ++ "-g." ++ rev ++ "-" ++ rest in
  let answer := Return (String.eqb ("g." ++ rev) ("g." ++ git_short_rev p)) in
  (forall epoch, contains ":" epoch = false ->
     _check_version p (epoch ++ ":" ++ built) = answer) /\
  (contains ":" built = false -> _check_version p built = answer).
Proof.
  cbv zeta.
  assert (Hparts :
            (let version_parts :=
               split "-" (replace "-" "~" (version p) ++ "-" ++ count
                          ++ "-g." ++ rev ++ "-" ++ rest) in
             part0 <- index version_parts 0 ;;
             if negb (String.eqb part0 (replace "-" "~" (version p))) then Return false
             else
               part2 <- index version_parts 2 ;;
               Return (String.eqb part2 ("g." ++ git_short_rev p)))
            = Return (String.eqb ("g." ++ rev) ("g." ++ git_short_rev p))).
  { cbv zeta.
    change (replace "-" "~" (version p) ++ "-" ++ count ++ "-g." ++ rev ++ "-" ++ rest)
      with (replace "-" "~" (version p)
            ++ String "-" (count ++ String "-" (("g." ++ rev) ++ String "-" rest))).
    rewrite (split_first "-" (replace "-" "~" (version p)))
      by (apply replace_char_gone; reflexivity).
    rewrite (split_first "-" count) by exact Hcount.
    rewrite (split_first "-" ("g." ++ rev)) by (apply absent_cons; [reflexivity|];
                                                apply absent_cons; [reflexivity | exact Hrev]).
    rewrite !index_nonneg by lia.
    change (Z.to_nat 0) with 0%nat. change (Z.to_nat 2) with 2%nat.
    cbn [nth_error bind]. rewrite String.eqb_refl. reflexivity. }
  split.
  - intros epoch Hepoch. unfold _check_version. cbv zeta.
    rewrite (contains_app ":" epoch).
    change (epoch ++ ":" ++ replace "-" "~" (version p) ++ "-" ++ count
            ++ "-g." ++ rev ++ "-" ++ rest)
      with (epoch ++ String ":"
              (replace "-" "~" (version p) ++ "-" ++ count
               ++ "-g." ++ rev ++ "-" ++ rest)).
    rewrite (split1_first _ _ _ Hepoch).
    rewrite (index_last _ EmptyString) by discriminate. cbn [last bind].
    exact Hparts.
  - intros Hplain. unfold _check_version. cbv zeta.
    rewrite Hplain. cbn [bind]. exact Hparts.
Qed.

(** X27: _check_version accepts the version a package built from this
    revision carries: the package version, a '-'-free count, "g." with
    the short revision, then anything after a further '-', after an
    epoch or without one; with another short revision in that place it
    answers False. *)
Theorem check_version_accepts_build (p : ReleasePreparer) (epoch count rest : string)
  (Hepoch : contains ":" epoch = false)
  (Hcount : contains "-" count = false)
  (Hrev : contains "-" (git_short_rev p) = false) :
  let built rev := replace "-" "~" (version p) ++ "-" ++ count
                   ++ "-g." ++ rev ++ "-" ++ rest in
  _check_version p (epoch ++ ":" ++ built (git_short_rev p)) = Return true /\
  (contains ":" (built (git_short_rev p)) = false ->
   _check_version p (built (git_short_rev p)) = Return true) /\
  (forall other,
     contains "-" other = false -> other <> git_short_rev p ->
     _check_version p (epoch ++ ":" ++ built other) = Return false /\
     (contains ":" (built other) = false ->
      _check_version p (built other) = Return false)).
Proof.
  cbv zeta.
  assert (Hother : forall other, other <> git_short_rev p ->
                     String.eqb ("g." ++ other) ("g." ++ git_short_rev p) = false).
  { intros other Hdiff.
    destruct (String.eqb_spec ("g." ++ other) ("g." ++ git_short_rev p)) as [E|_];
      [|reflexivity].
    injection E as E. contradiction. }
  repeat split.
  - rewrite (proj1 (check_version_build p count _ rest Hcount Hrev) epoch Hepoch).
    rewrite String.eqb_refl. reflexivity.
  - intros Hplain.
    rewrite (proj2 (check_version_build p count _ rest Hcount Hrev) Hplain).
    rewrite String.eqb_refl. reflexivity.
  - rewrite (proj1 (check_version_build p count other rest Hcount H) epoch Hepoch).
    rewrite (Hother _ H0). reflexivity.
  - intros Hplain.
    rewrite (proj2 (check_version_build p count other rest Hcount H) Hplain).
    rewrite (Hother _ H0). reflexivity.
Qed.

Lemma check_version_accepts_build_witness :
  _check_version (sample_preparer "3.1.0-beta3")
    ("1" ++ ":" ++ replace "-" "~" "3.1.0-beta3" ++ "-" ++ "10000"
     ++ "-g." ++ "a1b2c3d" ++ "-" ++ "0ubuntu1~20.04.1")
  = Return true.
Proof.
  exact (proj1 (check_version_accepts_build (sample_preparer "3.1.0-beta3") "1" "10000"
                  "0ubuntu1~20.04.1" eq_refl eq_refl eq_refl)).
Defined.

(** X28: MAASVersion.check relies on the '-' before the Debian revision
    to cut the line end off the changelog output.  On an output without
    ':' and '-', such as the version of a native package followed by its
    newline, the newline stays in the version read, and for a release
    version without a newline the check fails even when setup.cfg has
    the Python version. *)
Theorem MAASVersion_check_native_version (changelog_version : string)
  (p : ReleasePreparer)
  (Hcolon : contains ":" changelog_version = false)
  (Hdash : contains "-" changelog_version = false)
  (Hversion : contains nl (version p) = false) :
  MAASVersion_check (Some (python_version p)) (changelog_version ++ nl) p
  = Return (false, Some ("changelog has " ++ replace "~" "-" changelog_version ++ nl
                         ++ " (expected " ++ version p
                         ++ "), run utilities/release-prepare")).
Proof.
  unfold MAASVersion_check. cbn [differs]. rewrite String.eqb_refl. cbn [negb].
  rewrite (split1_none ":") by (apply absent_app; [exact Hcolon | reflexivity]).
  rewrite (index_last _ EmptyString) by discriminate. cbn [last bind].
  rewrite (split1_none "-") by (apply absent_app; [exact Hdash | reflexivity]).
  rewrite index_nonneg by lia. change (Z.to_nat 0) with 0%nat. cbn [nth_error bind].
  rewrite (replace_char_app "~" "-" changelog_version nl).
  change (replace "~" "-" nl) with nl.
  destruct (String.eqb_spec (replace "~" "-" changelog_version ++ nl) (version p))
    as [E|_].
  - exfalso. rewrite <- E in Hversion.
    rewrite (contains_skip nl (replace "~" "-" changelog_version) nl eq_refl) in Hversion.
    discriminate.
  - cbn [negb]. rewrite !app_assoc. reflexivity.
Qed.

Lemma MAASVersion_check_native_version_witness :
  MAASVersion_check (Some "3.1.0") ("3.1.0" ++ nl) (sample_preparer "3.1.0")
  = Return (false, Some ("changelog has " ++ replace "~" "-" "3.1.0" ++ nl
                         ++ " (expected " ++ "3.1.0"
                         ++ "), run utilities/release-prepare")).
Proof.
  exact (MAASVersion_check_native_version "3.1.0" (sample_preparer "3.1.0")
           eq_refl eq_refl eq_refl).
Defined.
